(** * The Wi-Fi HAL core of hardware_samsung_slsi (wifi_hal.cpp)

    A shallow embedding of the initialisation, event-loop, event-dispatch and
    per-feature command code of the SLSI Wi-Fi HAL, and the properties of it
    that the design document states.

    Integers of the C++ code are [Z] with their wrap-around written out;
    pointers are addresses ([positive]) and a nullable pointer is an
    [option]; the objects a pointer designates live in finite maps
    ([gmap]).  What the code does to the outside world (the registry mutex,
    reference counts, handlers, sockets, the log) is recorded as a trace of
    [event]s in program order. *)

From Stdlib Require Import ZArith List Bool Lia Ascii String.
From stdpp Require Import base gmap list.
Import ListNotations.
Local Open Scope Z_scope.

(** ** Machine integers *)

(** [uint32_t]: arithmetic modulo 2^32. *)
Definition u32 (z : Z) : Z := z mod 2 ^ 32.

(** Conversion of a 32-bit value to [int] (two's complement). *)
Definition s32 (z : Z) : Z := (z + 2 ^ 31) mod 2 ^ 32 - 2 ^ 31.

(** [u8]: the low eight bits. *)
Definition u8 (z : Z) : Z := z mod 2 ^ 8.

(** C truth value of an integer expression used as a condition. *)
Definition truthy (z : Z) : bool := negb (z =? 0).

(** ** Constants of headers that are not part of the sources

    wifi_hal.h (the [wifi_error] enumerators), errno.h, poll.h, nl80211.h,
    netlink/handlers.h and the vendor header common.h are included by
    wifi_hal.cpp but are not among the sources.  The constants the code
    takes from them are parameters: the definitions below do not depend on
    a particular value. *)
Class Platform : Type := {
  WIFI_SUCCESS : Z;
  WIFI_ERROR_UNKNOWN : Z;
  WIFI_ERROR_NOT_AVAILABLE : Z;
  WIFI_ERROR_OUT_OF_MEMORY : Z;
  EPERM : Z;
  NL_OK : Z;
  NL_SKIP : Z;
  NL80211_CMD_VENDOR : Z;
  POLLIN : Z;
  POLLERR : Z;
  POLLHUP : Z;
  GOOGLE_OUI : Z;
  WIFI_HAL_ATTR_START : Z;
  WIFI_RSSI_REPORT_EVENT : Z;
  SLSI_NL80211_VENDOR_SUBCMD_CONFIGURE_ND_OFFLOAD : Z;
  SLSI_NL80211_VENDOR_SUBCMD_SET_RSSI_MONITOR : Z;
  SLSI_NL80211_VENDOR_SUBCMD_APF_SET_FILTER : Z;
  SLSI_NL80211_VENDOR_SUBCMD_APF_GET_CAPABILITIES : Z;
  SLSI_NL80211_VENDOR_SUBCMD_APF_READ_FILTER : Z;
  DEFAULT_EVENT_CB_SIZE : Z;
  DEFAULT_CMD_SIZE : Z
}.

(** An assignment of the constants for running the model on concrete
    inputs: the [wifi_error], errno, poll, libnl and nl80211 entries are the
    Android/Linux values, the vendor entries are sample values. *)
Definition sample_platform : Platform := {|
  WIFI_SUCCESS := 0;
  WIFI_ERROR_UNKNOWN := -1;
  WIFI_ERROR_NOT_AVAILABLE := -4;
  WIFI_ERROR_OUT_OF_MEMORY := -9;
  EPERM := 1;
  NL_OK := 0;
  NL_SKIP := 1;
  NL80211_CMD_VENDOR := 103;
  POLLIN := 1;
  POLLERR := 8;
  POLLHUP := 16;
  GOOGLE_OUI := 0x001A11;
  WIFI_HAL_ATTR_START := 1;
  WIFI_RSSI_REPORT_EVENT := 11;
  SLSI_NL80211_VENDOR_SUBCMD_CONFIGURE_ND_OFFLOAD := 0x1015;
  SLSI_NL80211_VENDOR_SUBCMD_SET_RSSI_MONITOR := 0x1016;
  SLSI_NL80211_VENDOR_SUBCMD_APF_SET_FILTER := 0x1030;
  SLSI_NL80211_VENDOR_SUBCMD_APF_GET_CAPABILITIES := 0x1031;
  SLSI_NL80211_VENDOR_SUBCMD_APF_READ_FILTER := 0x1032;
  DEFAULT_EVENT_CB_SIZE := 64;
  DEFAULT_CMD_SIZE := 64
|}.

(** ** Constants defined in wifi_hal.cpp *)

Definition WIFI_HAL_CMD_SOCK_PORT : Z := 644.
Definition WIFI_HAL_EVENT_SOCK_PORT : Z := 645.

(** [enum wifi_apf_attr] *)
Definition APF_ATTRIBUTE_VERSION : Z := 0.
Definition APF_ATTRIBUTE_MAX_LEN : Z := 1.
Definition APF_ATTRIBUTE_PROGRAM : Z := 2.
Definition APF_ATTRIBUTE_PROGRAM_LEN : Z := 3.
Definition APF_ATTRIBUTE_MAX : Z := 4.

(** [enum apf_request_type] *)
Inductive apf_request_type : Set :=
| GET_APF_CAPABILITIES
| SET_APF_PROGRAM
| READ_APF_PROGRAM.

(** ** Calls that do not return

    How a call ends: it returns, or it makes an access whose behaviour C
    leaves undefined (a write past the end of an array, a read through a
    pointer that was never written).  What the program does after such an
    access is not modelled. *)
Inductive outcome (A : Type) : Type :=
| Returns (a : A)
| Undefined.

Arguments Returns {A} a.
Arguments Undefined {A}.

(** ** Sockets *)

(** Objects are designated by their address. *)
Abbreviation ptr := positive.

(** [wifi_socket_set_local_port]: the port handed to
    [nl_socket_set_local_port], as a function of what [getpid()] returns.
    [pid] and [port] are [uint32_t]. *)
Definition wifi_socket_set_local_port (getpid : Z) (port : Z) : Z :=
  let pid := u32 (Z.land getpid 0x3FFFFF) in
  u32 (pid + u32 (Z.shiftl (u32 port) 22)).

(** ** Messages *)

(** Modelled from the spec: [nl_iterator] (cpp_bindings.h is not among the
    sources), the reader of the Wire Codec: "iterate(nested_region) -> lazy
    sequence of (attr_id, typed_value)".  One attribute of the region, with
    what [get_type()], [get_u32()] and [get_len()] return for it. *)
Record nlattr : Set := {
  nla_type : Z;
  nla_u32 : Z;
  nla_len : Z
}.

(** Modelled from the spec: [WifiEvent] (cpp_bindings.h is not among the
    sources), the "Message Envelope": "a message's command code and, for
    vendor-specific messages, a vendor identifier and vendor subcommand
    code, plus an attribute record payload".  The fields are what the
    accessors called in wifi_hal.cpp return for the message. *)
Record nl_msg : Set := {
  parse_result : Z;                       (* WifiEvent::parse() *)
  genl_cmd : Z;                           (* get_cmd() *)
  attr_vendor_id : Z;                     (* get_u32(NL80211_ATTR_VENDOR_ID) *)
  attr_vendor_subcmd : Z;                 (* get_u32(NL80211_ATTR_VENDOR_SUBCMD) *)
  attr_vendor_data : option (list nlattr);(* get_attribute(NL80211_ATTR_VENDOR_DATA) *)
  vendor_data_len : Z;                    (* get_vendor_data_len() *)
  vendor_data : list Z;                   (* get_vendor_data(), the payload bytes *)
  memory_after_data : nat -> Z            (* the bytes that follow the payload in
                                             memory, by distance from its end *)
}.

(** The byte at [(u8 * )get_vendor_data() + i].  The code reads the vendor
    data through a plain pointer, so a read at or past the length of the
    payload is a read of the memory that follows it. *)
Definition data_byte (msg : nl_msg) (i : nat) : Z :=
  match vendor_data msg !! i with
  | Some b => b
  | None => memory_after_data msg (i - length (vendor_data msg))
  end.

(** The [n] bytes from [(u8 * )get_vendor_data() + off] on. *)
Definition data_bytes (msg : nl_msg) (off n : nat) : list Z :=
  map (data_byte msg) (seq off n).

(** ** Reference counts of command objects *)

(** What a callee may do to the reference count of a command. *)
Inductive ref_op : Set :=
| AddRef (c : ptr)
| ReleaseRef (c : ptr).

(** Modelled from the spec: [WifiCommand::addRef] (cpp_bindings.h is not
    among the sources).  "Reference counts on command objects use atomic
    increment/decrement"; the map holds the live command objects with their
    counts. *)
Definition addRef (c : ptr) (refs : gmap ptr Z) : gmap ptr Z :=
  match refs !! c with
  | Some n => <[c := n + 1]> refs
  | None => refs
  end.

(** Modelled from the spec: [WifiCommand::releaseRef] (cpp_bindings.h is
    not among the sources).  A command is "destroyed only when the reference
    count reaches zero". *)
Definition releaseRef (c : ptr) (refs : gmap ptr Z) : gmap ptr Z :=
  match refs !! c with
  | Some n => if n - 1 =? 0 then delete c refs else <[c := n - 1]> refs
  | None => refs
  end.

Definition apply_ref_op (o : ref_op) (refs : gmap ptr Z) : gmap ptr Z :=
  match o with
  | AddRef c => addRef c refs
  | ReleaseRef c => releaseRef c refs
  end.

(** ** The trace of a run *)

Inductive event : Set :=
| EvLock                         (* pthread_mutex_lock(&info->cb_lock) *)
| EvUnlock                       (* pthread_mutex_unlock(&info->cb_lock) *)
| EvAddRef (c : ptr)             (* cmd->addRef() *)
| EvReleaseRef (c : ptr)         (* cmd->releaseRef() *)
| EvCall (i : nat)               (* the cb_func of event_cb[i] is called with (msg, cb_arg) *)
| EvInHandler (o : ref_op)       (* a reference operation of the running handler *)
| EvReturn (i : nat)             (* the handler of event_cb[i] has returned *)
| EvRead (fd : Z)                (* read(fd, buf, sizeof(buf)) *)
| EvClose (fd : Z)               (* close(fd) *)
| EvSocketFree (port : Z)        (* nl_socket_free(sock) *)
| EvCleanedUp                    (* the cleaned_up_handler is called *)
| EvFree                         (* pthread_mutex_destroy; free(info) *)
| EvLog (s : string).            (* ALOGE / ALOGD / ALOGI *)

(** The effect of one event on the reference counts. *)
Definition ref_step (refs : gmap ptr Z) (e : event) : gmap ptr Z :=
  match e with
  | EvAddRef c => addRef c refs
  | EvReleaseRef c => releaseRef c refs
  | EvInHandler o => apply_ref_op o refs
  | _ => refs
  end.

Definition refs_after (tr : list event) (refs : gmap ptr Z) : gmap ptr Z :=
  fold_left ref_step tr refs.

(** ** Session state *)

(** [nl_recvmsg_msg_cb_t]: a handler is known by the reference operations
    it performs when called with a message and its argument. *)
Definition nl_recvmsg_msg_cb_t : Type := nl_msg -> option ptr -> list ref_op.

(** [cb_info] (declared in common.h), with the fields wifi_hal.cpp reads:
    one event registration. *)
Record cb_info : Type := {
  nl_cmd : Z;
  vendor_id : Z;
  vendor_subcmd : Z;
  cb_func : option nl_recvmsg_msg_cb_t;
  cb_arg : option ptr
}.

(** [cmd_info]: one registered command. *)
Record cmd_info : Set := {
  cmd_id : Z;
  cmd_ptr : option ptr
}.

Record nl_sock : Set := {
  s_local_port : Z;
  s_fd : Z;
  s_memberships : list Z
}.

Record interface_info : Set := {
  if_name : string;
  if_id : Z
}.

(** [hal_info] (declared in common.h), with the fields wifi_hal.cpp reads
    and writes.  [event_cb] and [cmd] hold the [num_event_cb] and [num_cmd]
    entries in use.  [interfaces] holds the slots of [info->interfaces]
    that have been written, from slot 0 on; [num_interfaces] may differ from
    their number.  [cleaned_up_handler] is a function pointer, NULL until
    [wifi_cleanup] stores one. *)
Record hal_info : Type := {
  cmd_sock : option nl_sock;
  event_sock : option nl_sock;
  cleanup_socks : Z * Z;
  ioctl_sock : Z;
  clean_up : bool;
  in_event_loop : bool;
  event_cb : list cb_info;
  alloc_event_cb : Z;
  cmd : list cmd_info;
  alloc_cmd : Z;
  nl80211_family_id : Z;
  interfaces : list interface_info;
  num_interfaces : Z;
  cleaned_up_handler : option ptr
}.

Definition set_in_event_loop (b : bool) (info : hal_info) : hal_info :=
  {| cmd_sock := cmd_sock info; event_sock := event_sock info;
     cleanup_socks := cleanup_socks info; ioctl_sock := ioctl_sock info;
     clean_up := clean_up info; in_event_loop := b;
     event_cb := event_cb info; alloc_event_cb := alloc_event_cb info;
     cmd := cmd info; alloc_cmd := alloc_cmd info;
     nl80211_family_id := nl80211_family_id info;
     interfaces := interfaces info; num_interfaces := num_interfaces info;
     cleaned_up_handler := cleaned_up_handler info |}.

Definition set_clean_up (b : bool) (info : hal_info) : hal_info :=
  {| cmd_sock := cmd_sock info; event_sock := event_sock info;
     cleanup_socks := cleanup_socks info; ioctl_sock := ioctl_sock info;
     clean_up := b; in_event_loop := in_event_loop info;
     event_cb := event_cb info; alloc_event_cb := alloc_event_cb info;
     cmd := cmd info; alloc_cmd := alloc_cmd info;
     nl80211_family_id := nl80211_family_id info;
     interfaces := interfaces info; num_interfaces := num_interfaces info;
     cleaned_up_handler := cleaned_up_handler info |}.

Definition set_event_cb (cbs : list cb_info) (info : hal_info) : hal_info :=
  {| cmd_sock := cmd_sock info; event_sock := event_sock info;
     cleanup_socks := cleanup_socks info; ioctl_sock := ioctl_sock info;
     clean_up := clean_up info; in_event_loop := in_event_loop info;
     event_cb := cbs; alloc_event_cb := alloc_event_cb info;
     cmd := cmd info; alloc_cmd := alloc_cmd info;
     nl80211_family_id := nl80211_family_id info;
     interfaces := interfaces info; num_interfaces := num_interfaces info;
     cleaned_up_handler := cleaned_up_handler info |}.

Definition set_event_sock (s : option nl_sock) (info : hal_info) : hal_info :=
  {| cmd_sock := cmd_sock info; event_sock := s;
     cleanup_socks := cleanup_socks info; ioctl_sock := ioctl_sock info;
     clean_up := clean_up info; in_event_loop := in_event_loop info;
     event_cb := event_cb info; alloc_event_cb := alloc_event_cb info;
     cmd := cmd info; alloc_cmd := alloc_cmd info;
     nl80211_family_id := nl80211_family_id info;
     interfaces := interfaces info; num_interfaces := num_interfaces info;
     cleaned_up_handler := cleaned_up_handler info |}.

Definition set_interfaces (l : list interface_info) (n : Z) (info : hal_info) : hal_info :=
  {| cmd_sock := cmd_sock info; event_sock := event_sock info;
     cleanup_socks := cleanup_socks info; ioctl_sock := ioctl_sock info;
     clean_up := clean_up info; in_event_loop := in_event_loop info;
     event_cb := event_cb info; alloc_event_cb := alloc_event_cb info;
     cmd := cmd info; alloc_cmd := alloc_cmd info;
     nl80211_family_id := nl80211_family_id info;
     interfaces := l; num_interfaces := n;
     cleaned_up_handler := cleaned_up_handler info |}.

Definition set_cleaned_up_handler (h : option ptr) (info : hal_info) : hal_info :=
  {| cmd_sock := cmd_sock info; event_sock := event_sock info;
     cleanup_socks := cleanup_socks info; ioctl_sock := ioctl_sock info;
     clean_up := clean_up info; in_event_loop := in_event_loop info;
     event_cb := event_cb info; alloc_event_cb := alloc_event_cb info;
     cmd := cmd info; alloc_cmd := alloc_cmd info;
     nl80211_family_id := nl80211_family_id info;
     interfaces := interfaces info; num_interfaces := num_interfaces info;
     cleaned_up_handler := h |}.

Section Dispatch.
Context {P : Platform}.

(** ** Event dispatch: [internal_valid_message_handler] *)

(** The call [( *cb_func)(msg, cb_arg)] of registration [i], guarded by
    [if (cb_func)]: entry, what the handler does, return. *)
Definition handler_events (msg : nl_msg) (i : nat) (cbi : cb_info) : list event :=
  match cb_func cbi with
  | Some f => [EvCall i] ++ map EvInHandler (f msg (cb_arg cbi)) ++ [EvReturn i]
  | None => []
  end.

(** The part of the handler that runs once a registration is selected:
    take a reference, drop the lock, call, release the reference. *)
Definition deliver (msg : nl_msg) (i : nat) (cbi : cb_info) : list event :=
  let cmd := cb_arg cbi in
  (match cmd with Some c => [EvAddRef c] | None => [] end)
  ++ [EvUnlock]
  ++ handler_events msg i cbi
  ++ (match cmd with Some c => [EvReleaseRef c] | None => [] end).

(** The [for] loop over [info->event_cb], from index [i] on; [cbs] are the
    entries not yet visited. *)
Fixpoint dispatch_from (msg : nl_msg) (cmd vendor_id' subcmd : Z)
    (i : nat) (cbs : list cb_info) : Z * list event :=
  match cbs with
  | [] => (NL_OK, [EvUnlock])
  | cbi :: rest =>
      if cmd =? nl_cmd cbi then
        if (cmd =? NL80211_CMD_VENDOR)
           && (negb (vendor_id' =? vendor_id cbi)
               || negb (subcmd =? vendor_subcmd cbi))
        then (* event for a different vendor, ignore it *)
          dispatch_from msg cmd vendor_id' subcmd (S i) rest
        else (NL_OK, deliver msg i cbi)
      else dispatch_from msg cmd vendor_id' subcmd (S i) rest
  end.

(** The vendor id and subcommand the handler extracts from the message:
    both 0 unless the command is [NL80211_CMD_VENDOR]; [subcmd] is an
    [int]. *)
Definition event_vendor_id (msg : nl_msg) : Z :=
  if genl_cmd msg =? NL80211_CMD_VENDOR then u32 (attr_vendor_id msg) else 0.

Definition event_subcmd (msg : nl_msg) : Z :=
  if genl_cmd msg =? NL80211_CMD_VENDOR then s32 (attr_vendor_subcmd msg) else 0.

Definition internal_valid_message_handler (info : hal_info) (msg : nl_msg)
    : Z * list event :=
  let res := parse_result msg in
  if res <? 0 then (NL_SKIP, [EvLog "Failed to parse event"])
  else
    let cmd := genl_cmd msg in
    let vendor_id := event_vendor_id msg in
    let subcmd := event_subcmd msg in
    let r := dispatch_from msg cmd vendor_id subcmd 0 (event_cb info) in
    (fst r, EvLock :: snd r).

End Dispatch.

(** ** The environment of initialisation

    What the operating system and libnl answer to the calls of
    [wifi_initialize]. *)

(** One entry of CTRL_ATTR_MCAST_GROUPS: the name attribute with its
    [nla_len], and the id attribute; either may be missing. *)
Record mcast_grp : Set := {
  grp_name : option (string * nat);
  grp_id : option Z
}.

Record init_env : Type := {
  env_getpid : Z;
  env_malloc_info : bool;                 (* malloc(sizeof(hal_info)) is not NULL *)
  env_socketpair : Z;                     (* socketpair(...) *)
  env_cleanup_socks : Z * Z;
  env_nl_socket_alloc : Z -> bool;        (* nl_socket_alloc() is not NULL, by port seed *)
  env_nl_connect : Z -> Z;                (* nl_connect(sock, NETLINK_GENERIC), by local port *)
  env_nl_socket_get_fd : Z -> Z;          (* by local port *)
  env_socket : Z;                         (* socket(PF_INET, SOCK_DGRAM, 0) *)
  env_nl_socket_get_cb : bool;            (* nl_socket_get_cb(event_sock) is not NULL *)
  env_genl_ctrl_resolve : string -> Z;
  (* the CTRL_CMD_GETFAMILY exchange for a family name: the result of
     requestResponse() and, when a reply was handled,
     tb[CTRL_ATTR_MCAST_GROUPS] of the reply *)
  env_getfamily : string -> Z * option (option (list mcast_grp));
  env_nl_socket_add_membership : Z -> Z;
  env_opendir : nat -> option (list string);  (* the n-th opendir("/sys/class/net") *)
  env_if_nametoindex : string -> Z
}.

(** [strncmp(a, b, n) == 0] on NUL-terminated strings. *)
Fixpoint strncmp_eq (a b : string) (n : nat) : bool :=
  match n with
  | O => true
  | S n' =>
      match a, b with
      | EmptyString, EmptyString => true
      | String x a', String y b' =>
          if Ascii.eqb x y then strncmp_eq a' b' n' else false
      | _, _ => false
      end
  end.

(** [GetMulticastIdCommand::handleResponse]: the value of [mId] after the
    reply was handled, [mId] being its value before. *)
Fixpoint GetMulticastIdCommand_scan (mGroup : string) (grps : list mcast_grp)
    (mId : Z) : Z :=
  match grps with
  | [] => mId
  | g :: rest =>
      match grp_name g, grp_id g with
      | Some (grpName, grpNameLen), Some id =>
          if strncmp_eq grpName mGroup grpNameLen
          then s32 (u32 id)
          else GetMulticastIdCommand_scan mGroup rest mId
      | _, _ => GetMulticastIdCommand_scan mGroup rest mId
      end
  end.

Definition GetMulticastIdCommand_handleResponse (mGroup : string)
    (mcast_groups : option (list mcast_grp)) (mId : Z) : Z :=
  match mcast_groups with
  | None => mId                      (* No multicast groups found *)
  | Some grps => GetMulticastIdCommand_scan mGroup grps mId
  end.

(** [wifi_get_multicast_id]; the constructor sets [mId = -1]. *)
Definition wifi_get_multicast_id (env : init_env) (name group : string) : Z :=
  let '(res, reply) := env_getfamily env name in
  let mId :=
    match reply with
    | Some tb => GetMulticastIdCommand_handleResponse group tb (-1)
    | None => -1
    end in
  if res <? 0 then res else mId.

(** [wifi_add_membership]: the value returned and the event socket
    afterwards. *)
Definition wifi_add_membership (env : init_env) (info : hal_info)
    (group : string) : Z * hal_info :=
  let id := wifi_get_multicast_id env "nl80211" group in
  if id <? 0 then (id, info)         (* Could not find group *)
  else
    let ret := env_nl_socket_add_membership env id in
    if ret <? 0 then (ret, info)     (* Could not add membership to group *)
    else
      (ret,
       set_event_sock
         (match event_sock info with
          | Some s => Some {| s_local_port := s_local_port s;
                              s_fd := s_fd s;
                              s_memberships := s_memberships s ++ [id] |}
          | None => None
          end) info).

Definition is_wifi_interface (name : string) : bool :=
  if negb (strncmp_eq name "wlan" 4) && negb (strncmp_eq name "p2p" 3)
     && negb (strncmp_eq name "wifi" 4) && negb (strncmp_eq name "swlan" 5)
  then false   (* not a wifi interface; ignore it *)
  else true.

Definition starts_with_dot (name : string) : bool :=
  match name with
  | String c _ => Ascii.eqb c "."%char
  | EmptyString => false
  end.

Definition get_interface (env : init_env) (name : string) : interface_info :=
  {| if_name := name; if_id := env_if_nametoindex env name |}.

Section Init.
Context {P : Platform}.

(** [wifi_create_nl_socket]: NULL when the socket cannot be allocated or
    connected. *)
Definition wifi_create_nl_socket (env : init_env) (port : Z) : option nl_sock :=
  if negb (env_nl_socket_alloc env port) then None
  else
    let local := wifi_socket_set_local_port (env_getpid env) port in
    if truthy (env_nl_connect env local) then None
    else Some {| s_local_port := local;
                 s_fd := env_nl_socket_get_fd env local;
                 s_memberships := [] |}.

(** The entries of a listing of /sys/class/net that the two [readdir]
    loops of [wifi_init_interfaces] count and store: not hidden, and a wifi
    interface by name. *)
Definition listed_interfaces (d : list string) : list string :=
  List.filter (fun name => negb (starts_with_dot name) && is_wifi_interface name) d.

(** [wifi_init_interfaces].  The first listing gives [n], the number of
    slots of the array [info->interfaces]; the second listing is stored
    into the slots from slot 0 on, and [num_interfaces] is [n].  A second
    listing with more than [n] interfaces is stored past the end of the
    array; one with fewer leaves the last slots unwritten.  The allocations
    are taken to succeed and the names to fit their buffers, as the names
    of network interfaces do. *)
Definition wifi_init_interfaces (env : init_env) (info : hal_info)
    : outcome (Z * hal_info) :=
  match env_opendir env 0 with
  | None => Returns (WIFI_ERROR_UNKNOWN, info)
  | Some d =>
      let n := length (listed_interfaces d) in
      match env_opendir env 1 with
      | None => Returns (WIFI_ERROR_UNKNOWN, info)
      | Some d' =>
          let stored := listed_interfaces d' in
          if (n <? length stored)%nat then Undefined   (* info->interfaces[n] = ifinfo *)
          else
            Returns (WIFI_SUCCESS,
                     set_interfaces (map (get_interface env) stored) (Z.of_nat n) info)
      end
  end.

(** The loop of [wifi_initialize] that copies the names of the first ten
    interfaces for the log: it reads the slots below
    [min(num_interfaces, 10)], written or not.  The text of the log is not
    modelled. *)
Definition interface_names_logged (info : hal_info) : outcome unit :=
  let bound := if num_interfaces info <? 10 then num_interfaces info else 10 in
  if Z.of_nat (length (interfaces info)) <? bound
  then Undefined                    (* info->interfaces[i]->name of an unwritten slot *)
  else Returns tt.

(** [wifi_initialize]: how the call ends, with the value returned, and the
    session [*handle] designates then (none on the paths that end before
    the store). *)
Definition wifi_initialize (env : init_env) : outcome Z * option hal_info :=
  if negb (env_malloc_info env) then (Returns WIFI_ERROR_UNKNOWN, None)
  else if env_socketpair env =? -1 then (Returns WIFI_ERROR_UNKNOWN, None)
  else
    match wifi_create_nl_socket env WIFI_HAL_CMD_SOCK_PORT with
    | None => (Returns WIFI_ERROR_UNKNOWN, None)
    | Some cmd_sock' =>
        match wifi_create_nl_socket env WIFI_HAL_EVENT_SOCK_PORT with
        | None => (Returns WIFI_ERROR_UNKNOWN, None)
        | Some event_sock' =>
            let ioctl_sock' := env_socket env in
            if ioctl_sock' <? 0 then (Returns WIFI_ERROR_UNKNOWN, None)
            else if negb (env_nl_socket_get_cb env)
            then (Returns WIFI_ERROR_UNKNOWN, None)
            else
              let info :=
                {| cmd_sock := Some cmd_sock';
                   event_sock := Some event_sock';
                   cleanup_socks := env_cleanup_socks env;
                   ioctl_sock := ioctl_sock';
                   clean_up := false;
                   in_event_loop := false;
                   event_cb := [];
                   alloc_event_cb := DEFAULT_EVENT_CB_SIZE;
                   cmd := [];
                   alloc_cmd := DEFAULT_CMD_SIZE;
                   nl80211_family_id := env_genl_ctrl_resolve env "nl80211";
                   interfaces := [];
                   num_interfaces := 0;
                   cleaned_up_handler := None |} in
              if nl80211_family_id info <? 0 then (Returns WIFI_ERROR_UNKNOWN, None)
              else
                let info := snd (wifi_add_membership env info "scan") in
                let info := snd (wifi_add_membership env info "mlme") in
                let info := snd (wifi_add_membership env info "regulatory") in
                let info := snd (wifi_add_membership env info "vendor") in
                match wifi_init_interfaces env info with
                | Undefined => (Undefined, Some info)
                | Returns (_, info) =>
                    match interface_names_logged info with
                    | Undefined => (Undefined, Some info)
                    | Returns _ => (Returns WIFI_SUCCESS, Some info)
                    end
                end
        end
    end.

End Init.

(** ** The event loop *)

(** What one call of [poll] in the loop yields, with what the loop reads
    afterwards. *)
Record poll_result : Set := {
  poll_ret : Z;                (* the value poll() returns *)
  revents0 : Z;                (* pfd[0].revents, the event socket *)
  revents1 : Z;                (* pfd[1].revents, the cleanup socket *)
  incoming : list nl_msg;      (* the valid messages nl_recvmsgs delivers *)
  cleanup_called : bool;       (* wifi_cleanup has set info->clean_up before
                                  the loop condition is evaluated *)
  cleanup_handler : option ptr (* the handler that call of wifi_cleanup stored *)
}.

Inductive loop_ctl : Set :=
| Break        (* the break statement *)
| Continue.    (* the end of the loop body *)

(** How a call of [wifi_event_loop] ends on a finite script of poll
    results. *)
Inductive loop_exit : Set :=
| NotEntered   (* returned at the in_event_loop guard *)
| InPoll       (* the script is used up: the thread is blocked in poll() *)
| CleanedUp    (* the loop was left and internal_cleaned_up_handler ran *)
| Faulted.     (* the loop was left and internal_cleaned_up_handler called
                  through the NULL cleaned_up_handler: the behaviour of the
                  program is undefined from there on *)

Definition event_sock_fd (info : hal_info) : Z :=
  match event_sock info with
  | Some s => s_fd s
  | None => -1
  end.

Definition sock_port (s : option nl_sock) : Z :=
  match s with
  | Some s => s_local_port s
  | None => 0
  end.

(** [internal_cleaned_up_handler]: how the call ends and its steps.  The
    sockets are closed and freed first; then [( *cleaned_up_handler)(handle)]
    is called, through a NULL pointer when no handler was stored, and only
    after this call has returned is the session freed. *)
Definition internal_cleaned_up_handler (info : hal_info) : loop_exit * list event :=
  let sockets :=
    match cmd_sock info with
    | Some _ =>
        [EvClose (fst (cleanup_socks info)); EvClose (snd (cleanup_socks info));
         EvSocketFree (sock_port (cmd_sock info));
         EvSocketFree (sock_port (event_sock info))]
    | None => []
    end in
  match cleaned_up_handler info with
  | Some _ => (CleanedUp, sockets ++ [EvCleanedUp; EvFree])
  | None => (Faulted, sockets)
  end.

(** The session as the loop condition finds it after the pass [p]: when
    [wifi_cleanup] was called, with the handler it stored and with
    [clean_up] set. *)
Definition seen_cleanup (p : poll_result) (info : hal_info) : hal_info :=
  if cleanup_called p
  then set_clean_up true (set_cleaned_up_handler (cleanup_handler p) info)
  else info.

Section EventLoop.
Context {P : Platform}.

(** [internal_pollin_handler]: [nl_recvmsgs] runs the valid-message
    callback on each message it reads. *)
Definition internal_pollin_handler (info : hal_info) (msgs : list nl_msg)
    : list event :=
  concat (map (fun m => snd (internal_valid_message_handler info m)) msgs).

(** One pass through the body of the [do ... while] loop. *)
Definition event_loop_body (info : hal_info) (p : poll_result)
    : loop_ctl * list event :=
  let result := poll_ret p in
  if result <? 0 then
    (Continue, [EvLog "wifi_event_loop: return, error no"])
  else if truthy (Z.land (revents0 p) POLLERR) then
    (Continue, [EvRead (event_sock_fd info); EvLog "Poll err | Read after POLL returned"])
  else if truthy (Z.land (revents0 p) POLLHUP) then
    (Break, [EvLog "Remote side hung up"])
  else if truthy (Z.land (revents0 p) POLLIN) then
    (Continue, internal_pollin_handler info (incoming p))
  else if truthy (Z.land (revents1 p) POLLIN) then
    (Continue, [EvRead (snd (cleanup_socks info)); EvLog "Read after POLL returned"])
  else
    (Continue, [EvLog "wifi_event_loop: Unknown event"]).

(** The [do ... while (!info->clean_up)] loop followed by the teardown:
    how the run ends, the session while the thread is still in the loop
    (none once the teardown was entered), and the steps. *)
Fixpoint event_loop_run (info : hal_info) (script : list poll_result)
    : loop_exit * option hal_info * list event :=
  match script with
  | [] => (InPoll, Some info, [])
  | p :: rest =>
      let '(ctl, tr) := event_loop_body info p in
      let info' := seen_cleanup p info in
      let '(exit, teardown) := internal_cleaned_up_handler info' in
      match ctl with
      | Break => (exit, None, tr ++ teardown)
      | Continue =>
          if clean_up info'
          then (exit, None, tr ++ teardown)
          else
            let '(e, i, tr') := event_loop_run info' rest in
            (e, i, tr ++ tr')
      end
  end.

(** [wifi_event_loop] *)
Definition wifi_event_loop (info : hal_info) (script : list poll_result)
    : loop_exit * option hal_info * list event :=
  if in_event_loop info then (NotEntered, Some info, [])
  else event_loop_run (set_in_event_loop true info) script.

End EventLoop.

(** ** Requests and the command socket *)

(** An attribute written into NL80211_ATTR_VENDOR_DATA. *)
Inductive wire_attr : Set :=
| WU8 (id v : Z)
| WU32 (id v : Z)
| WBytes (id : Z) (b : list Z).

(** Modelled from the spec: [WifiRequest] (cpp_bindings.h is not among the
    sources), the writer of the Wire Codec: "begin_message(vendor_id,
    subcommand), begin_nested(attr_id), end_nested(handle),
    put_u8/u16/u32/u64/string/bytes(attr_id, value)". *)
Record WifiRequest : Set := {
  rq_family : Z;
  rq_iface : Z;
  rq_vendor_id : Z;
  rq_subcmd : Z;
  rq_attrs : list wire_attr;
  rq_open : bool                 (* attr_start without its attr_end *)
}.

(** [wifi_interface_handle]: what a command reads from it. *)
Record wifi_interface_handle : Set := {
  h_family_id : Z;               (* familyId() *)
  h_iface_id : Z                 (* ifaceId() *)
}.

(** What the codec and the driver answer: the result codes of the writer
    operations, whether [new u8[n]] succeeds, and for a request sent on the
    command socket the replies handed to [handleResponse] together with the
    value [requestResponse] returns. *)
Record transport : Type := {
  create_result : Z -> Z -> Z;
  put_result : WifiRequest -> wire_attr -> Z;
  new_ok : Z -> bool;
  exchange : WifiRequest -> list nl_msg * Z
}.

(** The objects the command layer reads and writes. *)
Record world : Type := {
  w_words : gmap ptr Z;          (* the u32 objects out pointers designate *)
  w_bufs : gmap ptr (list Z);    (* byte buffers *)
  w_refs : gmap ptr Z;           (* live commands and their reference counts *)
  w_sent : list WifiRequest;     (* requests sent on the command socket, oldest first *)
  w_info : hal_info
}.

Definition store (p : ptr) (v : Z) (w : world) : world :=
  {| w_words := <[p := v]> (w_words w); w_bufs := w_bufs w;
     w_refs := w_refs w; w_sent := w_sent w; w_info := w_info w |}.

Definition store_buf (p : ptr) (b : list Z) (w : world) : world :=
  {| w_words := w_words w; w_bufs := <[p := b]> (w_bufs w);
     w_refs := w_refs w; w_sent := w_sent w; w_info := w_info w |}.

Definition with_refs (f : gmap ptr Z -> gmap ptr Z) (w : world) : world :=
  {| w_words := w_words w; w_bufs := w_bufs w;
     w_refs := f (w_refs w); w_sent := w_sent w; w_info := w_info w |}.

Definition send (request : WifiRequest) (w : world) : world :=
  {| w_words := w_words w; w_bufs := w_bufs w;
     w_refs := w_refs w; w_sent := w_sent w ++ [request]; w_info := w_info w |}.

Definition with_info (f : hal_info -> hal_info) (w : world) : world :=
  {| w_words := w_words w; w_bufs := w_bufs w;
     w_refs := w_refs w; w_sent := w_sent w; w_info := f (w_info w) |}.

(** Modelled from the spec: the constructor [WifiRequest(familyId(),
    ifaceId())], an empty request for the interface. *)
Definition new_request (handle : wifi_interface_handle) : WifiRequest :=
  {| rq_family := h_family_id handle; rq_iface := h_iface_id handle;
     rq_vendor_id := 0; rq_subcmd := 0; rq_attrs := []; rq_open := false |}.

(** Modelled from the spec: [WifiRequest::create(vendor_id, subcmd)],
    "begin_message(vendor_id, subcommand)"; a negative result leaves the
    request as it was. *)
Definition request_create (t : transport) (rq : WifiRequest) (vendor subcmd : Z)
    : Z * WifiRequest :=
  let r := create_result t vendor subcmd in
  if r <? 0 then (r, rq)
  else (r, {| rq_family := rq_family rq; rq_iface := rq_iface rq;
              rq_vendor_id := vendor; rq_subcmd := subcmd;
              rq_attrs := rq_attrs rq; rq_open := rq_open rq |}).

Definition set_open (b : bool) (rq : WifiRequest) : WifiRequest :=
  {| rq_family := rq_family rq; rq_iface := rq_iface rq;
     rq_vendor_id := rq_vendor_id rq; rq_subcmd := rq_subcmd rq;
     rq_attrs := rq_attrs rq; rq_open := b |}.

(** Modelled from the spec: [attr_start(NL80211_ATTR_VENDOR_DATA)] and
    [attr_end(data)], "begin_nested(attr_id)" and "end_nested(handle)". *)
Definition attr_start (rq : WifiRequest) : WifiRequest := set_open true rq.
Definition attr_end (rq : WifiRequest) : WifiRequest := set_open false rq.

(** Modelled from the spec: [put_u8], [put_u32] and [put],
    "put_u8/u16/u32/u64/string/bytes(attr_id, value)"; a negative result
    leaves the request as it was. *)
Definition request_put (t : transport) (rq : WifiRequest) (a : wire_attr)
    : Z * WifiRequest :=
  let r := put_result t rq a in
  if r <? 0 then (r, rq)
  else (r, {| rq_family := rq_family rq; rq_iface := rq_iface rq;
              rq_vendor_id := rq_vendor_id rq; rq_subcmd := rq_subcmd rq;
              rq_attrs := rq_attrs rq ++ [a]; rq_open := rq_open rq |}).

(** Modelled from the spec: [WifiCommand::requestResponse(WifiRequest&)]
    (cpp_bindings.cpp is not among the sources).  "send_and_wait is
    synchronous: it sends, then blocks on the command socket until a reply
    envelope arrives", and the reply is given to the command's
    [handleResponse] ("invoke on_reply"). *)
Definition requestResponse (t : transport)
    (handleResponse : nl_msg -> world -> Z * world)
    (request : WifiRequest) (w : world) : Z * world :=
  let '(replies, res) := exchange t request in
  (res, fold_left (fun w r => snd (handleResponse r w)) replies (send request w)).

(** Modelled from the spec: [WifiCommand::requestResponse()] (cpp_bindings.cpp
    is not among the sources).  "Default issue() behavior: build the request,
    send it, block for the correlated reply, invoke on_reply"; a request that
    cannot be built is not sent. *)
Definition requestResponse_create (t : transport)
    (create : WifiRequest -> Z * WifiRequest)
    (handleResponse : nl_msg -> world -> Z * world)
    (handle : wifi_interface_handle) (w : world) : Z * world :=
  let '(err, mMsg) := create (new_request handle) in
  if err <? 0 then (err, w)
  else requestResponse t handleResponse mMsg w.

(** Modelled from the spec: [unregister_event_handler(signature)] of the
    Command Registry ([wifi_unregister_vendor_handler] of common.cpp is not
    among the sources): the registration of the signature is removed from
    the table, the other registrations keep their order. *)
Fixpoint unregister_event_handler (cmd vendor sub : Z) (cbs : list cb_info)
    : list cb_info :=
  match cbs with
  | [] => []
  | cbi :: rest =>
      if (nl_cmd cbi =? cmd) && (vendor_id cbi =? vendor)
         && (vendor_subcmd cbi =? sub)
      then rest
      else cbi :: unregister_event_handler cmd vendor sub rest
  end.

(** ** The packet-filter command *)

(** The three constructors of [AndroidPktFilterCommand] with the members
    each of them sets; [mReqType] follows from the constructor. *)
Inductive apf_members : Set :=
| ApfGetCapabilities (mVersion mMaxLen : ptr)
| ApfSetProgram (mProgram : list Z) (mProgramLen : Z)
| ApfReadProgram (mSourceOffset : Z) (mHostDestination : ptr) (mLength : Z).

Record AndroidPktFilterCommand : Set := {
  apf_handle : wifi_interface_handle;
  apf : apf_members
}.

Definition mReqType (c : AndroidPktFilterCommand) : apf_request_type :=
  match apf c with
  | ApfGetCapabilities _ _ => GET_APF_CAPABILITIES
  | ApfSetProgram _ _ => SET_APF_PROGRAM
  | ApfReadProgram _ _ _ => READ_APF_PROGRAM
  end.

(** [memcpy(dst, (u8 * )data + off, n)] into the buffer [dst], [data]
    being the vendor data of [reply].  All [n] bytes are copied, whatever
    the length of the payload; a buffer of fewer than [n] bytes is overrun,
    which the model shows as a buffer of [n] bytes. *)
Definition memcpy_from (reply : nl_msg) (off n : Z) (dst : list Z) : list Z :=
  data_bytes reply (Z.to_nat off) (Z.to_nat n) ++ skipn (Z.to_nat n) dst.

Section Commands.
Context {P : Platform}.

Definition createSetPktFilterRequest (t : transport) (mProgram : list Z)
    (mProgramLen : Z) (request : WifiRequest) : Z * WifiRequest :=
  if negb (new_ok t mProgramLen) then (WIFI_ERROR_OUT_OF_MEMORY, request)
  else
    let '(result, request) :=
      request_create t request GOOGLE_OUI SLSI_NL80211_VENDOR_SUBCMD_APF_SET_FILTER in
    if result <? 0 then (result, request)
    else
      let request := attr_start request in
      let '(result, request) :=
        request_put t request (WU32 APF_ATTRIBUTE_PROGRAM_LEN (u32 mProgramLen)) in
      if result <? 0 then (result, request)
      else
        let program := firstn (Z.to_nat mProgramLen) mProgram in
        let '(result, request) :=
          request_put t request (WBytes APF_ATTRIBUTE_PROGRAM program) in
        if result <? 0 then (result, request)
        else (result, attr_end request).

Definition createGetPktFilterCapabilitesRequest (t : transport)
    (request : WifiRequest) : Z * WifiRequest :=
  request_create t request GOOGLE_OUI SLSI_NL80211_VENDOR_SUBCMD_APF_GET_CAPABILITIES.

Definition createReadPktFilterRequest (t : transport)
    (request : WifiRequest) : Z * WifiRequest :=
  request_create t request GOOGLE_OUI SLSI_NL80211_VENDOR_SUBCMD_APF_READ_FILTER.

Definition AndroidPktFilterCommand_createRequest (t : transport)
    (c : AndroidPktFilterCommand) (request : WifiRequest) : Z * WifiRequest :=
  match apf c with
  | ApfSetProgram mProgram mProgramLen =>
      createSetPktFilterRequest t mProgram mProgramLen request
  | ApfGetCapabilities _ _ => createGetPktFilterCapabilitesRequest t request
  | ApfReadProgram _ _ _ => createReadPktFilterRequest t request
  end.

(** The body of the [nl_iterator] loop of [handleResponse] for one
    attribute. *)
Definition apf_capability_attr (mVersion mMaxLen : ptr) (w : world) (it : nlattr)
    : world :=
  if nla_type it =? APF_ATTRIBUTE_VERSION then store mVersion (u32 (nla_u32 it)) w
  else if nla_type it =? APF_ATTRIBUTE_MAX_LEN then store mMaxLen (u32 (nla_u32 it)) w
  else w.   (* Ignoring invalid attribute type *)

Definition AndroidPktFilterCommand_handleResponse (c : AndroidPktFilterCommand)
    (reply : nl_msg) (w : world) : Z * world :=
  if negb (genl_cmd reply =? NL80211_CMD_VENDOR) then (NL_SKIP, w)
  else
    let len := vendor_data_len reply in
    match attr_vendor_data reply with
    | None => (NL_SKIP, w)
    | Some vendor_data' =>
        if len =? 0 then (NL_SKIP, w)
        else
          match apf c with
          | ApfGetCapabilities mVersion mMaxLen =>
              let w := store mVersion 0 w in
              let w := store mMaxLen 0 w in
              (NL_OK, fold_left (apf_capability_attr mVersion mMaxLen) vendor_data' w)
          | ApfReadProgram mSourceOffset mHostDestination mLength =>
              let len := u32 (vendor_data_len reply) in
              let dst := default [] (w_bufs w !! mHostDestination) in
              (NL_OK,
               store_buf mHostDestination
                 (memcpy_from reply mSourceOffset (Z.min len mLength) dst) w)
          | ApfSetProgram _ _ => (NL_OK, w)
          end
    end.

Definition AndroidPktFilterCommand_handleEvent (c : AndroidPktFilterCommand)
    (ev : nl_msg) (w : world) : Z * world :=
  (NL_SKIP, w).   (* No Event to receive for APF commands *)

Definition AndroidPktFilterCommand_cancel (c : AndroidPktFilterCommand) : Z :=
  WIFI_SUCCESS.

Definition AndroidPktFilterCommand_start (t : transport)
    (c : AndroidPktFilterCommand) (w : world) : Z * world :=
  let request := new_request (apf_handle c) in
  let '(result, request) := AndroidPktFilterCommand_createRequest t c request in
  if result <? 0 then (result, w)
  else requestResponse t (AndroidPktFilterCommand_handleResponse c) request w.

(** [wifi_get_packet_filter_capabilities]; [cmd] is what [new] yields, NULL
    or the address of the new command.  The command is created holding one
    reference ("created by a caller, reference held by the caller"), and
    [NULL_CHECK_RETURN(ptr, msg, ret)] of common.h returns [ret] when [ptr]
    is NULL. *)
Definition wifi_get_packet_filter_capabilities (t : transport)
    (cmd : option ptr) (handle : wifi_interface_handle)
    (version max_len : ptr) (w : world) : Z * world :=
  match cmd with
  | None => (WIFI_ERROR_OUT_OF_MEMORY, w)
  | Some cmd =>
      let c := {| apf_handle := handle; apf := ApfGetCapabilities version max_len |} in
      let w := with_refs (insert cmd 1) w in
      let '(result, w) := AndroidPktFilterCommand_start t c w in
      let '(result, w) :=
        if result =? WIFI_SUCCESS then (result, w)
        else
          (* Return success to pass VTS test *)
          let w := store version 0 w in
          let w := store max_len 0 w in
          (WIFI_SUCCESS, w) in
      (result, with_refs (releaseRef cmd) w)
  end.

(** ** ND offload *)

(** [enum wifi_attr] *)
Definition ANDR_WIFI_ATTRIBUTE_ND_OFFLOAD_CONFIG : Z := WIFI_HAL_ATTR_START.
Definition ANDR_WIFI_ATTRIBUTE_PNO_RANDOM_MAC_OUI : Z := WIFI_HAL_ATTR_START + 1.

(** [SetNdoffloadCommand::create] on the command's [mMsg]. *)
Definition SetNdoffloadCommand_create (t : transport) (mEnable : Z)
    (mMsg : WifiRequest) : Z * WifiRequest :=
  let '(ret, mMsg) :=
    request_create t mMsg GOOGLE_OUI SLSI_NL80211_VENDOR_SUBCMD_CONFIGURE_ND_OFFLOAD in
  if ret <? 0 then (WIFI_ERROR_NOT_AVAILABLE, mMsg)
  else
    let mMsg := attr_start mMsg in
    let '(ret, mMsg) :=
      request_put t mMsg (WU8 ANDR_WIFI_ATTRIBUTE_ND_OFFLOAD_CONFIG (u8 mEnable)) in
    if ret <? 0 then (ret, mMsg)
    else (WIFI_SUCCESS, attr_end mMsg).

(** Modelled from the spec: the [handleResponse] a command inherits from
    [WifiCommand] when it defines none (cpp_bindings.h is not among the
    sources); the reply is skipped. *)
Definition WifiCommand_handleResponse (reply : nl_msg) (w : world) : Z * world :=
  (NL_SKIP, w).

(** [command.requestResponse()] of a [SetNdoffloadCommand]. *)
Definition SetNdoffloadCommand_requestResponse (t : transport)
    (handle : wifi_interface_handle) (enable : Z) (w : world) : Z * world :=
  requestResponse_create t (SetNdoffloadCommand_create t (u8 enable))
    WifiCommand_handleResponse handle w.

Definition wifi_configure_nd_offload (t : transport)
    (handle : wifi_interface_handle) (enable : Z) (w : world) : Z * world :=
  let '(ret, w) := SetNdoffloadCommand_requestResponse t handle enable w in
  if negb (ret =? WIFI_SUCCESS) then
    if ret =? - EPERM then (WIFI_SUCCESS, w)   (* This is just to pass VTS test *)
    else (ret, w)
  else (ret, w).

(** ** RSSI monitoring *)

(** [enum wifi_rssi_monitor_attr] *)
Definition RSSI_MONITOR_ATTRIBUTE_MAX_RSSI : Z := WIFI_HAL_ATTR_START.
Definition RSSI_MONITOR_ATTRIBUTE_MIN_RSSI : Z := WIFI_HAL_ATTR_START + 1.
Definition RSSI_MONITOR_ATTRIBUTE_START : Z := WIFI_HAL_ATTR_START + 2.
Definition RSSI_MONITOR_ATTRIBUTE_MAX : Z := WIFI_HAL_ATTR_START + 3.

Record SetRSSIMonitorCommand : Set := {
  rssi_id : Z;
  rssi_handle : wifi_interface_handle;
  mMax_rssi : Z;
  mMin_rssi : Z
}.

Definition SetRSSIMonitorCommand_createRequest (t : transport)
    (c : SetRSSIMonitorCommand) (request : WifiRequest) (enable : Z)
    : Z * WifiRequest :=
  let '(result, request) :=
    request_create t request GOOGLE_OUI SLSI_NL80211_VENDOR_SUBCMD_SET_RSSI_MONITOR in
  if result <? 0 then (result, request)
  else
    let request := attr_start request in
    let '(result, request) :=
      request_put t request
        (WU8 RSSI_MONITOR_ATTRIBUTE_MAX_RSSI
           (u8 (if truthy enable then mMax_rssi c else 0))) in
    if result <? 0 then (result, request)
    else
      let '(result, request) :=
        request_put t request
          (WU8 RSSI_MONITOR_ATTRIBUTE_MIN_RSSI
             (u8 (if truthy enable then mMin_rssi c else 0))) in
      if result <? 0 then (result, request)
      else
        let '(result, request) :=
          request_put t request (WU8 RSSI_MONITOR_ATTRIBUTE_START (u8 enable)) in
        if result <? 0 then (result, request)
        else (result, attr_end request).

Definition SetRSSIMonitorCommand_handleResponse (reply : nl_msg) (w : world)
    : Z * world :=
  (NL_SKIP, w).   (* Nothing to do on response! *)

(** [unregisterVendorHandler(id, subcmd)] of a command: the registration of
    the vendor signature is taken out of the table of the session. *)
Definition unregisterVendorHandler (id subcmd : Z) (w : world) : world :=
  with_info
    (fun info =>
       set_event_cb
         (unregister_event_handler NL80211_CMD_VENDOR id subcmd (event_cb info))
         info) w.

(** [SetRSSIMonitorCommand::cancel] *)
Definition SetRSSIMonitorCommand_cancel (t : transport)
    (c : SetRSSIMonitorCommand) (w : world) : Z * world :=
  let request := new_request (rssi_handle c) in
  let '(result, request) := SetRSSIMonitorCommand_createRequest t c request 0 in
  let w :=
    if negb (result =? WIFI_SUCCESS) then w      (* failed to create request *)
    else snd (requestResponse t SetRSSIMonitorCommand_handleResponse request w) in
  let w := unregisterVendorHandler GOOGLE_OUI WIFI_RSSI_REPORT_EVENT w in
  (WIFI_SUCCESS, w).

End Commands.

(** ** Vocabulary of the statements *)

(** The change one event makes to the reference count of command [c]. *)
Definition ref_delta (c : ptr) (e : event) : Z :=
  match e with
  | EvAddRef c' | EvInHandler (AddRef c') => if decide (c' = c) then 1 else 0
  | EvReleaseRef c' | EvInHandler (ReleaseRef c') => if decide (c' = c) then -1 else 0
  | _ => 0
  end.

(** References to [c] taken minus references to [c] released along a
    trace. *)
Fixpoint net_refs (c : ptr) (tr : list event) : Z :=
  match tr with
  | [] => 0
  | e :: tr' => ref_delta c e + net_refs c tr'
  end.

Section DispatchVocabulary.
Context {P : Platform}.

(** The test the loop of [internal_valid_message_handler] applies to one
    registration: the command is the registration's and the registration is
    not skipped as "event for a different vendor". *)
Definition cb_selected (cmd vendor_id' subcmd : Z) (cbi : cb_info) : bool :=
  (cmd =? nl_cmd cbi)
  && negb ((cmd =? NL80211_CMD_VENDOR)
           && (negb (vendor_id' =? vendor_id cbi)
               || negb (subcmd =? vendor_subcmd cbi))).

(** The signature match in the words of the design document: "exact match
    on message-type; for vendor messages, additional exact match on
    vendor-id and vendor-subcommand". *)
Definition signature_matches (msg : nl_msg) (cbi : cb_info) : Prop :=
  nl_cmd cbi = genl_cmd msg
  /\ (genl_cmd msg = NL80211_CMD_VENDOR ->
      vendor_id cbi = event_vendor_id msg /\ vendor_subcmd cbi = event_subcmd msg).

(** Registration [i] of the session is the first one whose signature
    matches the message. *)
Definition first_match (info : hal_info) (msg : nl_msg) (i : nat) (cbi : cb_info)
    : Prop :=
  event_cb info !! i = Some cbi
  /\ signature_matches msg cbi
  /\ forall j cbj, (j < i)%nat -> event_cb info !! j = Some cbj ->
                   ~ signature_matches msg cbj.

End DispatchVocabulary.

(** The environment [env] with other answers to the multicast-group
    exchange and to [nl_socket_add_membership]. *)
Definition with_groups
    (getfamily : string -> Z * option (option (list mcast_grp)))
    (add_membership : Z -> Z) (env : init_env) : init_env :=
  {| env_getpid := env_getpid env;
     env_malloc_info := env_malloc_info env;
     env_socketpair := env_socketpair env;
     env_cleanup_socks := env_cleanup_socks env;
     env_nl_socket_alloc := env_nl_socket_alloc env;
     env_nl_connect := env_nl_connect env;
     env_nl_socket_get_fd := env_nl_socket_get_fd env;
     env_socket := env_socket env;
     env_nl_socket_get_cb := env_nl_socket_get_cb env;
     env_genl_ctrl_resolve := env_genl_ctrl_resolve env;
     env_getfamily := getfamily;
     env_nl_socket_add_membership := add_membership;
     env_opendir := env_opendir env;
     env_if_nametoindex := env_if_nametoindex env |}.

(** The value a reply carries for the attribute [id] of its vendor data,
    [dflt] when the region has no attribute with this id.  The region is a
    sequence of (attr_id, value) pairs; a later attribute with the same id
    replaces an earlier one. *)
Fixpoint reply_attr_u32 (id : Z) (attrs : list nlattr) (dflt : Z) : Z :=
  match attrs with
  | [] => dflt
  | it :: rest =>
      reply_attr_u32 id rest (if nla_type it =? id then u32 (nla_u32 it) else dflt)
  end.

(** Whether a registration is one for the signature (cmd, vendor, sub), and
    how many registrations of a table are. *)
Definition is_registration (cmd vendor sub : Z) (cbi : cb_info) : bool :=
  (nl_cmd cbi =? cmd) && (vendor_id cbi =? vendor) && (vendor_subcmd cbi =? sub).

Definition registrations (cmd vendor sub : Z) (cbs : list cb_info) : nat :=
  length (List.filter (is_registration cmd vendor sub) cbs).

(** Whether no prefix of a trace has released more references to [c] than
    it has taken, [acc] being the balance so far. *)
Fixpoint balanced_from (c : ptr) (acc : Z) (tr : list event) : bool :=
  match tr with
  | [] => 0 <=? acc
  | e :: tr' => (0 <=? acc) && balanced_from c (acc + ref_delta c e) tr'
  end.

(** ** Sample inputs

    Concrete sessions, messages and environments on which the model is
    run. *)

(** A handler that takes a reference to its argument and releases it
    again. *)
Definition sample_handler : nl_recvmsg_msg_cb_t :=
  fun _ arg =>
    match arg with
    | Some c => [AddRef c; ReleaseRef c]
    | None => []
    end.

(** A handler that releases a reference to its argument which it has not
    taken. *)
Definition sample_releasing_handler : nl_recvmsg_msg_cb_t :=
  fun _ arg =>
    match arg with
    | Some c => [ReleaseRef c]
    | None => []
    end.

Definition sample_registration (vendor sub : Z) (c : ptr) : cb_info :=
  {| nl_cmd := 103; vendor_id := vendor; vendor_subcmd := sub;
     cb_func := Some sample_handler; cb_arg := Some c |}.

Definition sample_session (cbs : list cb_info) : hal_info :=
  {| cmd_sock := Some {| s_local_port := 2701136436; s_fd := 7; s_memberships := [] |};
     event_sock := Some {| s_local_port := 2705330740; s_fd := 8; s_memberships := [] |};
     cleanup_socks := (5, 6);
     ioctl_sock := 9;
     clean_up := false;
     in_event_loop := false;
     event_cb := cbs;
     alloc_event_cb := 64;
     cmd := [];
     alloc_cmd := 64;
     nl80211_family_id := 25;
     interfaces := [];
     num_interfaces := 0;
     cleaned_up_handler := None |}.

Definition sample_releasing_registration (vendor sub : Z) (c : ptr) : cb_info :=
  {| nl_cmd := 103; vendor_id := vendor; vendor_subcmd := sub;
     cb_func := Some sample_releasing_handler; cb_arg := Some c |}.

(** Three registrations: (V1, S2), (V2, S1) and (V1, S1), with V1 =
    0x001A11, V2 = 0x1234, S1 = 11 and S2 = 12. *)
Definition sample_table : list cb_info :=
  [sample_registration 0x001A11 12 7;
   sample_registration 0x1234 11 8;
   sample_registration 0x001A11 11 5].

(** A vendor event (V1, S1) with the payload {rssi = -40}. *)
Definition sample_event : nl_msg :=
  {| parse_result := 0; genl_cmd := 103;
     attr_vendor_id := 0x001A11; attr_vendor_subcmd := 11;
     attr_vendor_data := Some []; vendor_data_len := 7;
     vendor_data := [216; 0; 17; 34; 51; 68; 85];
     memory_after_data := fun i => 160 + Z.of_nat i |}.

(** The reply of scenario A: version = 3, an attribute with an id the
    command does not know, max_len = 2048. *)
Definition sample_capabilities_reply : nl_msg :=
  {| parse_result := 0; genl_cmd := 103;
     attr_vendor_id := 0x001A11; attr_vendor_subcmd := 0x1031;
     attr_vendor_data :=
       Some [ {| nla_type := 0; nla_u32 := 3; nla_len := 4 |};
              {| nla_type := 9; nla_u32 := 77; nla_len := 4 |};
              {| nla_type := 1; nla_u32 := 2048; nla_len := 4 |} ];
     vendor_data_len := 24;
     vendor_data := [];
     memory_after_data := fun _ => 0 |}.

(** A codec that never fails and a driver that answers [res], without a
    reply, to every request. *)
Definition sample_transport (res : Z) : transport :=
  {| create_result := fun _ _ => 0;
     put_result := fun _ _ => 0;
     new_ok := fun _ => true;
     exchange := fun _ => ([], res) |}.

Definition sample_handle : wifi_interface_handle :=
  {| h_family_id := 25; h_iface_id := 3 |}.

Definition sample_world (cbs : list cb_info) : world :=
  {| w_words := ∅; w_bufs := ∅; w_refs := ∅; w_sent := [];
     w_info := sample_session cbs |}.

Definition sample_rssi_command : SetRSSIMonitorCommand :=
  {| rssi_id := 1; rssi_handle := sample_handle; mMax_rssi := -40; mMin_rssi := -80 |}.

(** The request [cancel] of [sample_rssi_command] builds. *)
Definition sample_stop_request : WifiRequest :=
  {| rq_family := 25; rq_iface := 3; rq_vendor_id := 0x001A11; rq_subcmd := 0x1016;
     rq_attrs := [WU8 1 0; WU8 2 0; WU8 3 0]; rq_open := false |}.

(** The nl80211 family as a kernel without the "vendor" multicast group
    announces it. *)
Definition sample_groups : list mcast_grp :=
  [ {| grp_name := Some ("config"%string, 7%nat); grp_id := Some 2 |};
    {| grp_name := Some ("scan"%string, 5%nat); grp_id := Some 3 |};
    {| grp_name := Some ("regulatory"%string, 11%nat); grp_id := Some 4 |};
    {| grp_name := Some ("mlme"%string, 5%nat); grp_id := Some 5 |} ].

(** An environment in which every call succeeds; [family] is what
    [genl_ctrl_resolve] answers. *)
Definition sample_env (family : Z) : init_env :=
  {| env_getpid := 4660;
     env_malloc_info := true;
     env_socketpair := 0;
     env_cleanup_socks := (5, 6);
     env_nl_socket_alloc := fun _ => true;
     env_nl_connect := fun _ => 0;
     env_nl_socket_get_fd := fun port => if port =? 2701136436 then 7 else 8;
     env_socket := 9;
     env_nl_socket_get_cb := true;
     env_genl_ctrl_resolve := fun _ => family;
     env_getfamily := fun _ => (0, Some (Some sample_groups));
     env_nl_socket_add_membership := fun _ => 0;
     env_opendir := fun _ => Some ["."%string; ".."%string; "lo"%string; "wlan0"%string; "p2p0"%string];
     env_if_nametoindex := fun _ => 1 |}.

(** Poll results: the event socket reports [revents], the cleanup socket
    nothing. *)
Definition sample_poll (revents : Z) : poll_result :=
  {| poll_ret := 1; revents0 := revents; revents1 := 0;
     incoming := []; cleanup_called := false; cleanup_handler := None |}.

Definition sample_apf_command : AndroidPktFilterCommand :=
  {| apf_handle := sample_handle; apf := ApfGetCapabilities 10 11 |}.

(** ** Vocabulary of the further statements *)

(** The events of the teardown path. *)
Definition is_teardown (e : event) : bool :=
  match e with
  | EvClose _ | EvSocketFree _ | EvCleanedUp | EvFree => true
  | _ => false
  end.

Section LoopVocabulary.
Context {P : Platform}.

(** A pass in which the loop takes the POLLHUP branch: [poll] succeeded
    and the event socket reports POLLHUP and no POLLERR. *)
Definition hangup_pass (p : poll_result) : Prop :=
  0 <= poll_ret p
  /\ Z.land (revents0 p) POLLERR = 0
  /\ Z.land (revents0 p) POLLHUP <> 0.

End LoopVocabulary.

(** The multicast groups [wifi_add_membership] joins for a group name: the
    id of the group when it is resolved and the join succeeds, nothing
    otherwise. *)
Definition joined_group (env : init_env) (group : string) : list Z :=
  let id := wifi_get_multicast_id env "nl80211" group in
  if (id <? 0) || (env_nl_socket_add_membership env id <? 0) then [] else [id].

(** Whether a multicast-group entry carries the name [group]. *)
Definition group_named (group : string) (g : mcast_grp) : bool :=
  match grp_name g with
  | Some (nm, _) => String.eqb nm group
  | None => false
  end.

(** An entry as the kernel sends it: a NUL-terminated name, whose attribute
    length counts the terminator, and an id. *)
Definition group_well_formed (g : mcast_grp) : Prop :=
  (exists nm, grp_name g = Some (nm, S (String.length nm)))
  /\ exists id, grp_id g = Some id.

(** Whether the two listings of /sys/class/net disagree so that the
    interface code of [wifi_initialize] makes an undefined access: the
    second listing has more wifi interfaces than the first (a store past the
    array), or fewer than the slots the log loop reads. *)
Definition interfaces_mislisted (env : init_env) : bool :=
  match env_opendir env 0, env_opendir env 1 with
  | Some d, Some d' =>
      let n := length (listed_interfaces d) in
      let m := length (listed_interfaces d') in
      (n <? m)%nat || (m <? Nat.min n 10)%nat
  | _, _ => false
  end.

(** A name that is not hidden and begins with one of the four interface
    prefixes, as a test. *)
Definition wifi_interface_nameb (name : string) : bool :=
  negb (starts_with_dot name)
  && (String.prefix "wlan" name || String.prefix "p2p" name
      || String.prefix "wifi" name || String.prefix "swlan" name).

(** The names [wifi_init_interfaces] keeps: not hidden, and beginning with
    one of the four interface prefixes. *)
Definition wifi_interface_name (name : string) : Prop :=
  starts_with_dot name = false
  /\ (String.prefix "wlan" name = true \/ String.prefix "p2p" name = true
      \/ String.prefix "wifi" name = true \/ String.prefix "swlan" name = true).

(** ** Further functions of wifi_hal.cpp *)

(** Further constants of headers that are not part of the sources
    (wifi_hal.h and the vendor header common.h). *)
Class PlatformMore : Type := {
  WIFI_ERROR_UNINITIALIZED : Z;
  WIFI_ERROR_NOT_SUPPORTED : Z;
  SLSI_NL80211_VENDOR_SUBCMD_GET_USABLE_CHANNELS : Z
}.

Definition sample_platform_more : PlatformMore := {|
  WIFI_ERROR_UNINITIALIZED := -2;
  WIFI_ERROR_NOT_SUPPORTED := -3;
  SLSI_NL80211_VENDOR_SUBCMD_GET_USABLE_CHANNELS := 0x1040
|}.

(** [s8]: conversion of a byte to [signed char]. *)
Definition s8 (z : Z) : Z := (z + 2 ^ 7) mod 2 ^ 8 - 2 ^ 7.

(** [enum slsi_usable_channel_attr] *)
Definition SLSI_UC_ATTRIBUTE_BAND : Z := 1.
Definition SLSI_UC_ATTRIBUTE_IFACE_MODE : Z := 2.
Definition SLSI_UC_ATTRIBUTE_FILTER : Z := 3.
Definition SLSI_UC_ATTRIBUTE_MAX_NUM : Z := 4.
Definition SLSI_UC_ATTRIBUTE_NUM_CHANNELS : Z := 5.
Definition SLSI_UC_ATTRIBUTE_CHANNEL_LIST : Z := 6.
Definition SLSI_UC_ATTRIBUTE_MAX : Z := 7.

(** [enum slsi_uc_iface_mode], the two enumerators the code tests. *)
Definition SLSI_UC_ITERFACE_SOFTAP : Z := Z.shiftl 1 1.
Definition SLSI_UC_ITERFACE_UNKNOWN : Z := -1.

(** The steps of [wifi_cleanup], in program order. *)
Inductive cleanup_step : Set :=
| CuLock                        (* pthread_mutex_lock(&info->cb_lock) *)
| CuUnlock                      (* pthread_mutex_unlock(&info->cb_lock) *)
| CuCancel (c : ptr)            (* cmd->cancel() *)
| CuReleaseRef (c : ptr)        (* cmd->releaseRef() *)
| CuLeaked (arg : option ptr)   (* ALOGE("Leaked command %p", cmd) *)
| CuWriteExit (fd : Z).         (* write(info->cleanup_socks[0], "Exit", 4) *)

(** The [while (info->num_cmd > bad_commands)] loop of [wifi_cleanup].
    [cancel c info] is the session after the virtual [cancel()] of command
    [c] has returned (a [cancel] may unregister the command and its
    handlers).  The loop has no bound of its own: [fuel] bounds the number
    of turns, and [None] is a run that needs more. *)
Fixpoint cleanup_commands (cancel : ptr -> hal_info -> hal_info) (fuel : nat)
    (info : hal_info) (bad_commands : nat) : option (hal_info * list cleanup_step) :=
  match fuel with
  | O => None
  | S fuel' =>
      if (bad_commands <? length (cmd info))%nat then
        let num_cmd := length (cmd info) in
        match cmd info !! bad_commands with
        | Some cmdi =>
            match cmd_ptr cmdi with
            | Some c =>
                let info' := cancel c info in
                let bad_commands' :=
                  if (num_cmd =? length (cmd info'))%nat
                  then S bad_commands else bad_commands in
                match cleanup_commands cancel fuel' info' bad_commands' with
                | Some (info'', tr) =>
                    Some (info'', [CuUnlock; CuCancel c; CuLock; CuReleaseRef c] ++ tr)
                | None => None
                end
            | None => cleanup_commands cancel fuel' info bad_commands
            end
        | None => None
        end
      else Some (info, [])
  end.

(** [wifi_cleanup]: the session and the steps when the call returns.  The
    handler is stored in [info->cleaned_up_handler] first; it is the one the
    teardown of the event loop calls. *)
Definition wifi_cleanup (cancel : ptr -> hal_info -> hal_info) (fuel : nat)
    (info : hal_info) (handler : option ptr)
    : option (hal_info * list cleanup_step) :=
  let info := set_cleaned_up_handler handler info in
  match cleanup_commands cancel fuel info 0 with
  | Some (info, tr) =>
      Some (set_clean_up true info,
            [CuLock] ++ tr
            ++ map (fun cbi => CuLeaked (cb_arg cbi)) (event_cb info)
            ++ [CuUnlock; CuWriteExit (fst (cleanup_socks info))])
  | None => None
  end.

(** The number of [cancel()] calls among the steps. *)
Definition cancels (tr : list cleanup_step) : nat :=
  length (List.filter (fun s => match s with CuCancel _ => true | _ => false end) tr).

Section FurtherCommands.
Context {P : Platform}.

(** [wifi_set_packet_filter] *)
Definition wifi_set_packet_filter (t : transport) (cmd : option ptr)
    (handle : wifi_interface_handle) (program : list Z) (len : Z) (w : world)
    : Z * world :=
  match cmd with
  | None => (WIFI_ERROR_OUT_OF_MEMORY, w)
  | Some cmd =>
      let c := {| apf_handle := handle; apf := ApfSetProgram program len |} in
      let w := with_refs (insert cmd 1) w in
      let '(result, w) := AndroidPktFilterCommand_start t c w in
      (result, with_refs (releaseRef cmd) w)
  end.

(** [wifi_read_packet_filter] *)
Definition wifi_read_packet_filter (t : transport) (cmd : option ptr)
    (handle : wifi_interface_handle) (src_offset : Z) (host_dst : ptr)
    (length : Z) (w : world) : Z * world :=
  match cmd with
  | None => (WIFI_ERROR_OUT_OF_MEMORY, w)
  | Some cmd =>
      let c := {| apf_handle := handle;
                  apf := ApfReadProgram src_offset host_dst length |} in
      let w := with_refs (insert cmd 1) w in
      let '(result, w) := AndroidPktFilterCommand_start t c w in
      (result, with_refs (releaseRef cmd) w)
  end.

(** [wifi_stop_rssi_monitoring].  [cmd] is the address [new] yields for the
    command of the [id == -1] branch; [wifi_cancel_cmd] (common.cpp is not
    among the sources) is a parameter. *)
Definition wifi_stop_rssi_monitoring (t : transport)
    (wifi_cancel_cmd : Z -> wifi_interface_handle -> world -> Z * world)
    (cmd : ptr) (id : Z) (iface : wifi_interface_handle) (w : world) : Z * world :=
  if id =? -1 then
    let c := {| rssi_id := id; rssi_handle := iface; mMax_rssi := 0; mMin_rssi := 0 |} in
    let w := with_refs (insert cmd 1) w in
    let w := snd (SetRSSIMonitorCommand_cancel t c w) in
    (WIFI_SUCCESS, with_refs (releaseRef cmd) w)
  else wifi_cancel_cmd id iface w.

(** [SetRSSIMonitorCommand::handleEvent]: the value returned and, when the
    callback [on_rssi_threshold_breached] is called, its arguments (id,
    BSSID, cur_rssi).  [has_handler] is whether the callback is set.  The
    payload is read as [struct { s8 cur_rssi; mac_addr BSSID; }]: the byte
    at the start of the vendor data and the six bytes after it, whatever
    the length of the payload. *)
Definition SetRSSIMonitorCommand_handleEvent (c : SetRSSIMonitorCommand)
    (has_handler : bool) (event : nl_msg) : Z * option (Z * list Z * Z) :=
  let len := vendor_data_len event in
  match attr_vendor_data event with
  | None => (NL_SKIP, None)                    (* RSSI monitor: No data *)
  | Some _ =>
      if len =? 0 then (NL_SKIP, None)
      else
        if has_handler
        then (NL_SKIP,
              Some (rssi_id c, data_bytes event 1 6, s8 (data_byte event 0)))
        else (NL_SKIP, None)                   (* No RSSI monitor handler registered *)
  end.

End FurtherCommands.

Section UsableChannels.
Context {P : Platform} {M : PlatformMore}.

(** [wifi_usable_channel] (declared in wifi_hal.h) and its all-zero
    value. *)
Context {wifi_usable_channel : Type}.
Variable zero_channel : wifi_usable_channel.

(** One attribute of the vendor data of a usable-channels reply, as
    [nl_iterator] presents it: [get_type()], [get_u32()], [get_len()] and
    the channels [get_data()] points to. *)
Record uc_attr : Type := {
  uc_type : Z;
  uc_u32 : Z;
  uc_len : Z;
  uc_data : list wifi_usable_channel
}.

(** [GetUsableChannelsCommand::create] on the command's [mMsg]. *)
Definition GetUsableChannelsCommand_create (t : transport)
    (mBand mIfaceMode mFilter mMaxNum : Z) (mMsg : WifiRequest) : Z * WifiRequest :=
  let '(ret, mMsg) :=
    request_create t mMsg GOOGLE_OUI SLSI_NL80211_VENDOR_SUBCMD_GET_USABLE_CHANNELS in
  if ret <? 0 then (ret, mMsg)
  else
    let mMsg := attr_start mMsg in
    let '(ret, mMsg) := request_put t mMsg (WU32 SLSI_UC_ATTRIBUTE_BAND (u32 mBand)) in
    if ret <? 0 then (ret, mMsg)
    else
      let '(ret, mMsg) :=
        request_put t mMsg (WU32 SLSI_UC_ATTRIBUTE_IFACE_MODE (u32 mIfaceMode)) in
      if ret <? 0 then (ret, mMsg)
      else
        let '(ret, mMsg) :=
          request_put t mMsg (WU32 SLSI_UC_ATTRIBUTE_FILTER (u32 mFilter)) in
        if ret <? 0 then (ret, mMsg)
        else
          let '(ret, mMsg) :=
            request_put t mMsg (WU32 SLSI_UC_ATTRIBUTE_MAX_NUM (u32 mMaxNum)) in
          if ret <? 0 then (ret, mMsg)
          else (0, attr_end mMsg).

(** The state of the attribute loop of [handleResponse]: the local
    [num_channels_to_copy] (an [int]), [*mNumChannels] and the buffer
    [mChannels]. *)
Definition uc_state : Type := Z * (Z * list wifi_usable_channel).

(** One pass of the loop.  [memcpy] copies [num_channels_to_copy] channels
    from the data of the attribute to the start of the buffer.  An attribute
    that holds fewer channels than were announced makes the C code read past
    its data; the model copies the channels that are there. *)
Definition uc_attr_step (mMaxNum : Z) (st : uc_state) (it : uc_attr) : uc_state :=
  let '(num_channels_to_copy, (num_channels, channels)) := st in
  if uc_type it =? SLSI_UC_ATTRIBUTE_NUM_CHANNELS then
    let num_channels_to_copy := s32 (u32 (uc_u32 it)) in
    let num_channels_to_copy :=
      if u32 num_channels_to_copy >? u32 mMaxNum then s32 (u32 mMaxNum)
      else num_channels_to_copy in
    (num_channels_to_copy, (u32 num_channels_to_copy, channels))
  else if (uc_type it =? SLSI_UC_ATTRIBUTE_CHANNEL_LIST)
          && truthy num_channels_to_copy then
    let src := firstn (Z.to_nat num_channels_to_copy) (uc_data it) in
    (num_channels_to_copy, (num_channels, src ++ skipn (length src) channels))
  else st.   (* Ignoring invalid attribute type *)

(** [GetUsableChannelsCommand::handleResponse] on a reply whose vendor data
    holds the attributes [attrs]: the value returned, [*mNumChannels] and
    the buffer. *)
Definition GetUsableChannelsCommand_handleResponse (mMaxNum : Z)
    (reply : nl_msg) (attrs : list uc_attr)
    (out : Z * list wifi_usable_channel) : Z * (Z * list wifi_usable_channel) :=
  if negb (genl_cmd reply =? NL80211_CMD_VENDOR) then (NL_SKIP, out)
  else
    let len := vendor_data_len reply in
    match attr_vendor_data reply with
    | None => (NL_SKIP, out)
    | Some _ =>
        if len =? 0 then (NL_SKIP, out)
        else (NL_OK, snd (fold_left (uc_attr_step mMaxNum) attrs (0, out)))
    end.

(** [wifi_get_usable_channels].  [replies] is what the driver answers to
    the request: the replies handed to [handleResponse], each with the
    attributes of its vendor data, and the value [requestResponse] returns.
    The result is the value returned, [*num_channels] and [channels], and
    the requests sent.  The constructor of the command clears [max_num]
    entries of the buffer (the buffer is taken to have that many); its
    [requestResponse()] is the one of
    [requestResponse_create]: the request is built, and sent when it could
    be built. *)
Definition wifi_get_usable_channels (t : transport)
    (replies : WifiRequest -> list (nl_msg * list uc_attr) * Z)
    (info : hal_info) (band iface_mode filter max_num : Z)
    (out : Z * list wifi_usable_channel) (sent : list WifiRequest)
    : Z * (Z * list wifi_usable_channel) * list WifiRequest :=
  let ihandle_num := num_interfaces info in
  if ihandle_num <=? 0 then (WIFI_ERROR_UNINITIALIZED, out, sent)
  else if (u32 iface_mode =? u32 SLSI_UC_ITERFACE_UNKNOWN)
          || negb (truthy (Z.land (u32 iface_mode) SLSI_UC_ITERFACE_SOFTAP))
  then (WIFI_ERROR_NOT_SUPPORTED, out, sent)
  else
    let handle :=
      {| h_family_id := nl80211_family_id info;
         h_iface_id := match interfaces info with
                       | itf :: _ => if_id itf
                       | [] => 0
                       end |} in
    let cleared :=
      repeat zero_channel (Z.to_nat (u32 max_num))
      ++ skipn (Z.to_nat (u32 max_num)) (snd out) in
    let out := (fst out, cleared) in
    let '(err, mMsg) :=
      GetUsableChannelsCommand_create t band iface_mode filter max_num
        (new_request handle) in
    if err <? 0 then (err, out, sent)
    else
      let '(rs, res) := replies mMsg in
      (res,
       fold_left
         (fun o r => snd (GetUsableChannelsCommand_handleResponse (u32 max_num)
                            (fst r) (snd r) o))
         rs out,
       sent ++ [mMsg]).

End UsableChannels.

Section CommandVocabulary.
Context {P : Platform}.

(** The vendor subcommand and the vendor-data attributes of the request of
    a packet-filter command. *)
Definition apf_request_subcmd (c : AndroidPktFilterCommand) : Z :=
  match apf c with
  | ApfGetCapabilities _ _ => SLSI_NL80211_VENDOR_SUBCMD_APF_GET_CAPABILITIES
  | ApfSetProgram _ _ => SLSI_NL80211_VENDOR_SUBCMD_APF_SET_FILTER
  | ApfReadProgram _ _ _ => SLSI_NL80211_VENDOR_SUBCMD_APF_READ_FILTER
  end.

Definition apf_request_attrs (c : AndroidPktFilterCommand) : list wire_attr :=
  match apf c with
  | ApfSetProgram mProgram mProgramLen =>
      [WU32 APF_ATTRIBUTE_PROGRAM_LEN (u32 mProgramLen);
       WBytes APF_ATTRIBUTE_PROGRAM (firstn (Z.to_nat mProgramLen) mProgram)]
  | _ => []
  end.

End CommandVocabulary.

(** The steps of [wifi_cleanup] read against [cb_lock]: [held] says whether
    the calling thread holds the lock.  The lock is taken only when free and
    released only when held; [cancel()] and the write to the cleanup socket
    run without the lock; [releaseRef()] and the leak log run under it. *)
Fixpoint cleanup_discipline (held : bool) (tr : list cleanup_step) : bool :=
  match tr with
  | [] => true
  | CuLock :: rest => negb held && cleanup_discipline true rest
  | CuUnlock :: rest => held && cleanup_discipline false rest
  | CuCancel _ :: rest => negb held && cleanup_discipline held rest
  | CuWriteExit _ :: rest => negb held && cleanup_discipline held rest
  | CuReleaseRef _ :: rest => held && cleanup_discipline held rest
  | CuLeaked _ :: rest => held && cleanup_discipline held rest
  end.

(** No entry of the command table is NULL. *)
Definition commands_present (info : hal_info) : Prop :=
  Forall (fun cmdi => cmd_ptr cmdi <> None) (cmd info).

Definition set_cmd (l : list cmd_info) (info : hal_info) : hal_info :=
  {| cmd_sock := cmd_sock info; event_sock := event_sock info;
     cleanup_socks := cleanup_socks info; ioctl_sock := ioctl_sock info;
     clean_up := clean_up info; in_event_loop := in_event_loop info;
     event_cb := event_cb info; alloc_event_cb := alloc_event_cb info;
     cmd := l; alloc_cmd := alloc_cmd info;
     nl80211_family_id := nl80211_family_id info;
     interfaces := interfaces info; num_interfaces := num_interfaces info;
     cleaned_up_handler := cleaned_up_handler info |}.

(** A [cancel()] that takes its command out of the table when the command
    is the one with pointer 11, and leaves the table alone otherwise. *)
Definition sample_cancel (c : ptr) (info : hal_info) : hal_info :=
  if Pos.eqb c 11 then
    set_cmd (List.filter (fun cmdi => negb (bool_decide (cmd_ptr cmdi = Some c)))
                         (cmd info)) info
  else info.

(** A session with two commands in flight and one registration. *)
Definition sample_cleanup_session : hal_info :=
  set_cmd [ {| cmd_id := 1; cmd_ptr := Some 11%positive |};
            {| cmd_id := 2; cmd_ptr := Some 12%positive |} ]
          (sample_session [sample_registration 6673 11 12]).

(** A session whose first command entry is NULL. *)
Definition sample_null_entry_session : hal_info :=
  set_cmd [ {| cmd_id := 1; cmd_ptr := None |} ] (sample_session []).

(** A read of four bytes from offset 5 of the filter memory into the
    caller's buffer 20, and a world that holds this buffer, six bytes
    long. *)
Definition sample_read_command : AndroidPktFilterCommand :=
  {| apf_handle := sample_handle; apf := ApfReadProgram 5 20 4 |}.

Definition sample_read_world : world :=
  {| w_words := ∅; w_bufs := {[ 20%positive := [9; 9; 9; 9; 9; 9] ]}; w_refs := ∅;
     w_sent := []; w_info := sample_session [] |}.

(** A usable-channels reply that announces five channels and carries
    them, channels being numbers here. *)
Definition sample_uc_attrs : list (@uc_attr Z) :=
  [ {| uc_type := SLSI_UC_ATTRIBUTE_NUM_CHANNELS; uc_u32 := 5; uc_len := 4;
       uc_data := [] |};
    {| uc_type := SLSI_UC_ATTRIBUTE_CHANNEL_LIST; uc_u32 := 0; uc_len := 60;
       uc_data := [2412; 2437; 2462; 5180; 5200] |} ].

(** * Properties *)

(** ** Local ports *)

Lemma land_pid_mask_range (pid : Z) : 0 <= Z.land pid 0x3FFFFF < 2 ^ 22.
Proof.
  change 0x3FFFFF with (Z.ones 22).
  rewrite Z.land_ones by lia.
  apply Z.mod_pos_bound. lia.
Qed.

Lemma u32_small (z : Z) : 0 <= z < 2 ^ 32 -> u32 z = z.
Proof. intros Hz. unfold u32. apply Z.mod_small. exact Hz. Qed.

Lemma u32_idem (z : Z) : u32 (u32 z) = u32 z.
Proof. unfold u32. apply Z.mod_mod. lia. Qed.

(** The port is the C expression [pid + (port << 22)] evaluated in
    [uint32_t]. *)
Lemma local_port_formula (pid port : Z) :
  wifi_socket_set_local_port pid port
  = (Z.land pid 0x3FFFFF + Z.shiftl port 22) mod 2 ^ 32.
Proof.
  unfold wifi_socket_set_local_port, u32.
  rewrite !Z.shiftl_mul_pow2 by lia.
  rewrite Z.mul_mod_idemp_l by lia.
  rewrite Z.add_mod_idemp_l by lia.
  rewrite Z.add_mod_idemp_r by lia.
  reflexivity.
Qed.

Lemma local_port_small_seed (pid port : Z) :
  0 <= port < 2 ^ 10 ->
  wifi_socket_set_local_port pid port = Z.land pid 0x3FFFFF + Z.shiftl port 22.
Proof.
  intros Hport. rewrite local_port_formula.
  pose proof (land_pid_mask_range pid) as Hpid.
  rewrite Z.shiftl_mul_pow2 in * by lia.
  apply Z.mod_small.
  change (2 ^ 32) with (2 ^ 10 * 2 ^ 22). nia.
Qed.

(** C9.  For every process id the local port is
    [(pid & 0x3FFFFF) + (port << 22)], computed in [uint32_t], a function of
    the process id alone; for the seeds 644 (command socket) and 645 (event
    socket) nothing wraps and the two ports of a process differ. *)
Theorem local_ports_distinct (pid : Z) :
  (forall port, wifi_socket_set_local_port pid port
                = (Z.land pid 0x3FFFFF + Z.shiftl port 22) mod 2 ^ 32)
  /\ wifi_socket_set_local_port pid WIFI_HAL_CMD_SOCK_PORT
     = Z.land pid 0x3FFFFF + Z.shiftl 644 22
  /\ wifi_socket_set_local_port pid WIFI_HAL_EVENT_SOCK_PORT
     = Z.land pid 0x3FFFFF + Z.shiftl 645 22
  /\ wifi_socket_set_local_port pid WIFI_HAL_CMD_SOCK_PORT
     <> wifi_socket_set_local_port pid WIFI_HAL_EVENT_SOCK_PORT.
Proof.
  split; [intros port; apply local_port_formula|].
  unfold WIFI_HAL_CMD_SOCK_PORT, WIFI_HAL_EVENT_SOCK_PORT.
  rewrite !local_port_small_seed by lia.
  repeat split.
  rewrite !Z.shiftl_mul_pow2 by lia. lia.
Qed.

(** The command port of one process is not the event port of another
    either: the seed occupies the bits above the 22 bits of the pid. *)
Lemma ports_of_two_processes_differ (pid pid' : Z) :
  wifi_socket_set_local_port pid WIFI_HAL_CMD_SOCK_PORT
  <> wifi_socket_set_local_port pid' WIFI_HAL_EVENT_SOCK_PORT.
Proof.
  unfold WIFI_HAL_CMD_SOCK_PORT, WIFI_HAL_EVENT_SOCK_PORT.
  rewrite !local_port_small_seed by lia.
  pose proof (land_pid_mask_range pid). pose proof (land_pid_mask_range pid').
  rewrite !Z.shiftl_mul_pow2 by lia. lia.
Qed.

Example local_port_pid_4660 :
  wifi_socket_set_local_port 4660 WIFI_HAL_CMD_SOCK_PORT = 2701136436
  /\ wifi_socket_set_local_port 4660 WIFI_HAL_EVENT_SOCK_PORT = 2705330740.
Proof. split; reflexivity. Qed.

(** ** Reference counts along a trace *)

Lemma refs_after_app (tr tr' : list event) (refs : gmap ptr Z) :
  refs_after (tr ++ tr') refs = refs_after tr' (refs_after tr refs).
Proof. unfold refs_after. apply fold_left_app. Qed.

Lemma net_refs_app (c : ptr) (tr tr' : list event) :
  net_refs c (tr ++ tr') = net_refs c tr + net_refs c tr'.
Proof. induction tr as [|e tr IH]; simpl; [reflexivity | rewrite IH; lia]. Qed.

Lemma addRef_lookup (c c' : ptr) (refs : gmap ptr Z) (n : Z) :
  refs !! c = Some n ->
  addRef c' refs !! c = Some (n + (if decide (c' = c) then 1 else 0)).
Proof.
  intros Hc. unfold addRef. destruct (decide (c' = c)) as [->|Hne].
  - rewrite Hc. apply lookup_insert_eq.
  - rewrite Z.add_0_r. destruct (refs !! c'); [|exact Hc].
    rewrite lookup_insert_ne by exact Hne. exact Hc.
Qed.

Lemma releaseRef_lookup (c c' : ptr) (refs : gmap ptr Z) (n : Z) :
  refs !! c = Some n ->
  0 < n + (if decide (c' = c) then -1 else 0) ->
  releaseRef c' refs !! c = Some (n + (if decide (c' = c) then -1 else 0)).
Proof.
  intros Hc Hpos. unfold releaseRef. destruct (decide (c' = c)) as [->|Hne].
  - rewrite Hc. destruct (Z.eqb_spec (n - 1) 0) as [Hz|Hz]; [lia|].
    apply lookup_insert_eq.
  - rewrite Z.add_0_r. destruct (refs !! c') as [m|]; [|exact Hc].
    destruct (m - 1 =? 0).
    + rewrite lookup_delete_ne by exact Hne. exact Hc.
    + rewrite lookup_insert_ne by exact Hne. exact Hc.
Qed.

(** One event moves the count of a live command by its [ref_delta], as long
    as the count stays positive. *)
Lemma ref_step_lookup (c : ptr) (e : event) (refs : gmap ptr Z) (n : Z) :
  refs !! c = Some n ->
  0 < n + ref_delta c e ->
  ref_step refs e !! c = Some (n + ref_delta c e).
Proof.
  intros Hc Hpos.
  destruct e as [| |c'|c'| |[c'|c']| | | | | | |]; simpl in *;
    try (rewrite Z.add_0_r; exact Hc).
  - apply addRef_lookup; exact Hc.
  - apply releaseRef_lookup; assumption.
  - apply addRef_lookup; exact Hc.
  - apply releaseRef_lookup; assumption.
Qed.

(** Along a trace that never brings the count of [c] down to zero, the
    count of [c] is its initial value plus the net references taken. *)
Lemma refs_after_lookup (c : ptr) (tr : list event) :
  forall (refs : gmap ptr Z) (n : Z),
    refs !! c = Some n ->
    (forall k, (k <= length tr)%nat -> 0 < n + net_refs c (take k tr)) ->
    refs_after tr refs !! c = Some (n + net_refs c tr).
Proof.
  induction tr as [|e tr IH]; intros refs n Hc Hpos.
  - simpl. rewrite Z.add_0_r. exact Hc.
  - change (refs_after (e :: tr) refs) with (refs_after tr (ref_step refs e)).
    simpl net_refs. rewrite Z.add_assoc.
    apply IH.
    + apply ref_step_lookup; [exact Hc|].
      assert (H1 : (1 <= length (e :: tr))%nat) by (simpl; lia).
      specialize (Hpos 1%nat H1). simpl in Hpos. lia.
    + intros k Hk.
      assert (HS : (S k <= length (e :: tr))%nat) by (simpl; lia).
      specialize (Hpos (S k) HS). simpl in Hpos. lia.
Qed.

(** ** Event dispatch *)

Section DispatchProperties.
Context {P : Platform}.

Lemma cb_selected_spec (msg : nl_msg) (cbi : cb_info) :
  cb_selected (genl_cmd msg) (event_vendor_id msg) (event_subcmd msg) cbi = true
  <-> signature_matches msg cbi.
Proof.
  unfold cb_selected, signature_matches.
  destruct (Z.eqb_spec (genl_cmd msg) (nl_cmd cbi)) as [Hc|Hc];
    destruct (Z.eqb_spec (genl_cmd msg) NL80211_CMD_VENDOR) as [Hv|Hv];
    destruct (Z.eqb_spec (event_vendor_id msg) (vendor_id cbi)) as [Hi|Hi];
    destruct (Z.eqb_spec (event_subcmd msg) (vendor_subcmd cbi)) as [Hs|Hs];
    simpl; split; intros H; try discriminate; try reflexivity;
    try (split; [congruence | intros; split; congruence]);
    destruct H as [H1 H2]; try congruence;
    destruct (H2 Hv); congruence.
Qed.

Lemma cb_selected_false (msg : nl_msg) (cbi : cb_info) :
  cb_selected (genl_cmd msg) (event_vendor_id msg) (event_subcmd msg) cbi = false
  <-> ~ signature_matches msg cbi.
Proof.
  rewrite <- cb_selected_spec.
  destruct (cb_selected _ _ _ cbi); split; congruence.
Qed.

(** One turn of the loop. *)
Lemma dispatch_from_cons (msg : nl_msg) (cmd v s : Z) (i : nat)
    (cbi : cb_info) (rest : list cb_info) :
  dispatch_from msg cmd v s i (cbi :: rest)
  = if cb_selected cmd v s cbi then (NL_OK, deliver msg i cbi)
    else dispatch_from msg cmd v s (S i) rest.
Proof.
  simpl. unfold cb_selected.
  destruct (cmd =? nl_cmd cbi); [|reflexivity].
  destruct ((cmd =? NL80211_CMD_VENDOR)
            && (negb (v =? vendor_id cbi) || negb (s =? vendor_subcmd cbi)));
    reflexivity.
Qed.

(** The loop delivers to the first selected registration. *)
Lemma dispatch_from_first (msg : nl_msg) (cmd v s : Z) (cbs : list cb_info) :
  forall (i0 j : nat) (cbi : cb_info),
    cbs !! j = Some cbi ->
    cb_selected cmd v s cbi = true ->
    (forall k cbk, (k < j)%nat -> cbs !! k = Some cbk ->
                   cb_selected cmd v s cbk = false) ->
    dispatch_from msg cmd v s i0 cbs = (NL_OK, deliver msg (i0 + j) cbi).
Proof.
  induction cbs as [|cb rest IH]; intros i0 j cbi Hj Hsel Hbefore.
  - discriminate Hj.
  - rewrite dispatch_from_cons. destruct j as [|j].
    + injection Hj as ->. rewrite Hsel. rewrite Nat.add_0_r. reflexivity.
    + rewrite (Hbefore 0%nat cb) by first [lia | reflexivity].
      replace (i0 + S j)%nat with (S i0 + j)%nat by lia.
      apply IH; [exact Hj | exact Hsel |].
      intros k cbk Hk Hlk. apply (Hbefore (S k)); [lia | exact Hlk].
Qed.

Lemma handler_events_calls (msg : nl_msg) (i k : nat) (cbi : cb_info) :
  In (EvCall k) (handler_events msg i cbi) -> k = i.
Proof.
  unfold handler_events. destruct (cb_func cbi) as [f|]; [|intros []].
  intros H. simpl in H. destruct H as [H|H]; [congruence|].
  apply in_app_iff in H as [H|H].
  - apply in_map_iff in H as [o [Ho _]]. discriminate Ho.
  - destruct H as [H|[]]. discriminate H.
Qed.

Lemma deliver_calls (msg : nl_msg) (i k : nat) (cbi : cb_info) :
  In (EvCall k) (deliver msg i cbi) -> k = i.
Proof.
  unfold deliver. intros H.
  apply in_app_iff in H as [H|H].
  { destruct (cb_arg cbi); [destruct H as [H|[]]; discriminate H | destruct H]. }
  apply in_app_iff in H as [H|H].
  { destruct H as [H|[]]. discriminate H. }
  apply in_app_iff in H as [H|H].
  { eapply handler_events_calls. exact H. }
  destruct (cb_arg cbi); [destruct H as [H|[]]; discriminate H | destruct H].
Qed.

(** A call in the trace of the loop is the call of the first selected
    registration, and the trace is that of its delivery. *)
Lemma dispatch_from_call (msg : nl_msg) (cmd v s : Z) (cbs : list cb_info) :
  forall (i0 k : nat),
    In (EvCall k) (snd (dispatch_from msg cmd v s i0 cbs)) ->
    exists j cbi,
      k = (i0 + j)%nat /\ cbs !! j = Some cbi
      /\ cb_selected cmd v s cbi = true
      /\ (forall j' cb', (j' < j)%nat -> cbs !! j' = Some cb' ->
                         cb_selected cmd v s cb' = false)
      /\ dispatch_from msg cmd v s i0 cbs = (NL_OK, deliver msg k cbi).
Proof.
  induction cbs as [|cb rest IH]; intros i0 k Hin.
  - simpl in Hin. destruct Hin as [H|[]]. discriminate H.
  - rewrite dispatch_from_cons in Hin |- *.
    destruct (cb_selected cmd v s cb) eqn:Hsel.
    + simpl in Hin. apply deliver_calls in Hin. subst k.
      exists 0%nat, cb. rewrite Nat.add_0_r.
      repeat split; try assumption. intros j' cb' Hlt. lia.
    + destruct (IH (S i0) k Hin) as (j & cbi & Hk & Hj & Hs & Hb & Heq).
      exists (S j), cbi. repeat split; try assumption; [lia|].
      intros [|j'] cb' Hlt Hl.
      * injection Hl as <-. exact Hsel.
      * apply (Hb j'); [lia | exact Hl].
Qed.

(** C1.  The handler of a registration is invoked only if the registration
    is the first one of the table whose [nl_cmd] equals the command of the
    message and, when that command is [NL80211_CMD_VENDOR], whose
    [vendor_id] and [vendor_subcmd] equal the vendor id and subcommand of
    the message; no other handler is invoked for the message.  A vendor
    event is never delivered to a registration that differs from it in the
    vendor id or in the subcommand. *)
Theorem event_dispatch_demultiplexes (info : hal_info) (msg : nl_msg) :
  let tr := snd (internal_valid_message_handler info msg) in
  (forall i, In (EvCall i) tr ->
     exists cbi, first_match info msg i cbi
                 /\ forall j, In (EvCall j) tr -> j = i)
  /\ (forall i cbi,
        event_cb info !! i = Some cbi ->
        genl_cmd msg = NL80211_CMD_VENDOR ->
        vendor_id cbi <> u32 (attr_vendor_id msg)
        \/ vendor_subcmd cbi <> s32 (attr_vendor_subcmd msg) ->
        ~ In (EvCall i) tr).
Proof.
  assert (Hcall : forall i,
    In (EvCall i) (snd (internal_valid_message_handler info msg)) ->
    exists cbi, first_match info msg i cbi
      /\ snd (internal_valid_message_handler info msg) = EvLock :: deliver msg i cbi).
  { intros i Hin. unfold internal_valid_message_handler in *.
    destruct (parse_result msg <? 0).
    { simpl in Hin. destruct Hin as [H|[]]. discriminate H. }
    simpl in Hin. destruct Hin as [H|Hin]; [discriminate H|].
    destruct (dispatch_from_call _ _ _ _ _ _ _ Hin)
      as (j & cbi & Hk & Hj & Hs & Hb & Heq).
    simpl in Hk. subst j. exists cbi. split.
    - split; [exact Hj|]. split; [apply cb_selected_spec; exact Hs|].
      intros j cbj Hlt Hl. apply cb_selected_false. apply (Hb j); assumption.
    - simpl. rewrite Heq. reflexivity. }
  split.
  - intros i Hin. destruct (Hcall i Hin) as (cbi & Hfirst & Htr).
    exists cbi. split; [exact Hfirst|].
    intros j Hj. rewrite Htr in Hj. destruct Hj as [H|Hj]; [discriminate H|].
    eapply deliver_calls. exact Hj.
  - intros i cbi Hl Hvendor Hdiff Hin.
    destruct (Hcall i Hin) as (cbi' & (Hl' & (_ & Hm) & _) & _).
    rewrite Hl in Hl'. injection Hl' as <-.
    destruct (Hm Hvendor) as [Hid Hsub].
    unfold event_vendor_id, event_subcmd in Hid, Hsub.
    rewrite Hvendor, Z.eqb_refl in Hid, Hsub.
    destruct Hdiff; congruence.
Qed.

(** The trace of dispatch when registration [i] is the first match. *)
Lemma dispatch_first_match (info : hal_info) (msg : nl_msg) (i : nat) (cbi : cb_info) :
  0 <= parse_result msg ->
  first_match info msg i cbi ->
  internal_valid_message_handler info msg = (NL_OK, EvLock :: deliver msg i cbi).
Proof.
  intros Hparse (Hl & Hm & Hb). unfold internal_valid_message_handler.
  destruct (Z.ltb_spec (parse_result msg) 0) as [Hlt|_]; [lia|].
  rewrite (dispatch_from_first msg _ _ _ (event_cb info) 0 i cbi Hl).
  - reflexivity.
  - apply cb_selected_spec. exact Hm.
  - intros k cbk Hk Hlk. apply cb_selected_false. apply (Hb k); assumption.
Qed.

(** C2, as the code has it.  For a matched registration whose bound
    command [c] is not NULL the handler takes a reference to [c] under the
    lock, before it unlocks and calls, and releases it only after the call
    has returned.  With [c] live at count [n] before dispatch, the count is
    [n + 1] when the handler is called, and at every point of the call it is
    [n + 1] plus the handler's own balance so far (references to [c] it has
    taken minus references it has released), as long as the handler has not
    released more than the [n] references that existed before dispatch: up
    to there [c] is not destroyed during the call.  The count is at least
    [n + 1] at the points up to which the handler's balance was never
    negative.  After the release that follows the call the count is [n]
    plus the balance of the handler, and [c] is destroyed then when this is
    zero. *)
Theorem dispatch_holds_reference (info : hal_info) (msg : nl_msg) (i : nat)
    (cbi : cb_info) (c : ptr) (n : Z) (refs : gmap ptr Z) :
  0 <= parse_result msg ->
  first_match info msg i cbi ->
  cb_arg cbi = Some c ->
  refs !! c = Some n ->
  0 < n ->
  let tr := snd (internal_valid_message_handler info msg) in
  let handler := handler_events msg i cbi in
  let before_call := [EvLock; EvAddRef c; EvUnlock] in
  tr = before_call ++ handler ++ [EvReleaseRef c]
  /\ refs_after before_call refs !! c = Some (n + 1)
  /\ (forall k,
        (forall j, (j <= k)%nat -> - n <= net_refs c (take j handler)) ->
        refs_after (before_call ++ take k handler) refs !! c
        = Some (n + 1 + net_refs c (take k handler))
        /\ 1 <= n + 1 + net_refs c (take k handler))
  /\ (forall k,
        (forall j, (j <= k)%nat -> 0 <= net_refs c (take j handler)) ->
        exists m,
          refs_after (before_call ++ take k handler) refs !! c = Some m
          /\ n + 1 <= m)
  /\ ((forall j, - n <= net_refs c (take j handler)) ->
      refs_after tr refs !! c
      = if n + net_refs c handler =? 0 then None
        else Some (n + net_refs c handler)).
Proof.
  intros Hparse Hfirst Harg Hc Hn tr handler before_call.
  assert (Htr : tr = before_call ++ handler ++ [EvReleaseRef c]).
  { subst tr handler before_call.
    rewrite (dispatch_first_match info msg i cbi Hparse Hfirst).
    simpl. unfold deliver. rewrite Harg. reflexivity. }
  assert (Hpre : refs_after before_call refs !! c = Some (n + 1)).
  { subst before_call. simpl. pose proof (addRef_lookup c c refs n Hc) as H.
    destruct (decide (c = c)); [exact H | congruence]. }
  assert (Hduring : forall k,
    (forall j, (j <= k)%nat -> - n <= net_refs c (take j handler)) ->
    refs_after (before_call ++ take k handler) refs !! c
    = Some (n + 1 + net_refs c (take k handler))).
  { intros k Hown. rewrite refs_after_app.
    apply refs_after_lookup; [exact Hpre|].
    intros j _. rewrite take_take.
    specialize (Hown (Nat.min j k) ltac:(lia)). lia. }
  split; [exact Htr|]. split; [exact Hpre|]. split; [|split].
  - intros k Hown. split; [apply Hduring; exact Hown|].
    specialize (Hown k ltac:(lia)). lia.
  - intros k Hbal. eexists. split.
    + apply Hduring. intros j Hj. specialize (Hbal j Hj). lia.
    + specialize (Hbal k ltac:(lia)). lia.
  - intros Hown. rewrite Htr. rewrite app_assoc, refs_after_app.
    pose proof (Hduring (length handler) ltac:(intros j _; apply Hown)) as Hall.
    rewrite firstn_all in Hall.
    pose proof (Hown (length handler)) as Hfin. rewrite firstn_all in Hfin.
    set (r := refs_after (before_call ++ handler) refs) in *.
    change (refs_after [EvReleaseRef c] r) with (releaseRef c r).
    destruct (Z.eqb_spec (n + net_refs c handler) 0) as [Hzero|Hleft].
    + unfold releaseRef. rewrite Hall.
      replace (n + 1 + net_refs c handler - 1 =? 0) with true
        by (symmetry; apply Z.eqb_eq; lia).
      apply lookup_delete_eq.
    + pose proof (releaseRef_lookup c c r _ Hall) as H.
      destruct (decide (c = c)); [|congruence].
      rewrite H by lia. f_equal. lia.
Qed.

End DispatchProperties.

(** ** Initialisation *)

Section InitProperties.
Context {P : Platform}.

Lemma wifi_create_nl_socket_with_groups gf am (env : init_env) (port : Z) :
  wifi_create_nl_socket (with_groups gf am env) port = wifi_create_nl_socket env port.
Proof. reflexivity. Qed.

Lemma wifi_add_membership_interfaces (env : init_env) (info : hal_info)
    (group : string) :
  interfaces (snd (wifi_add_membership env info group)) = interfaces info
  /\ num_interfaces (snd (wifi_add_membership env info group)) = num_interfaces info.
Proof.
  unfold wifi_add_membership.
  destruct (wifi_get_multicast_id env "nl80211" group <? 0); [split; reflexivity|].
  destruct (env_nl_socket_add_membership env _ <? 0); split; reflexivity.
Qed.

(** How the interface code of [wifi_initialize] ends, on a session that
    has no interfaces yet. *)
Lemma wifi_initialize_interfaces_end (env : init_env) (info : hal_info) :
  interfaces info = [] ->
  num_interfaces info = 0 ->
  fst (match wifi_init_interfaces env info with
       | Undefined => (Undefined, Some info)
       | Returns (_, info') =>
           match interface_names_logged info' with
           | Undefined => (Undefined, Some info')
           | Returns _ => (Returns WIFI_SUCCESS, Some info')
           end
       end)
  = if interfaces_mislisted env then Undefined else Returns WIFI_SUCCESS.
Proof.
  intros Hnone Hzero.
  assert (Hlog : interface_names_logged info = Returns tt).
  { unfold interface_names_logged. rewrite Hnone, Hzero. reflexivity. }
  unfold wifi_init_interfaces, interfaces_mislisted.
  destruct (env_opendir env 0) as [d|]; [|rewrite Hlog; reflexivity].
  destruct (env_opendir env 1) as [d'|]; [|rewrite Hlog; reflexivity].
  cbv zeta.
  destruct (Nat.ltb_spec (length (listed_interfaces d))
              (length (listed_interfaces d'))) as [Hover|Hfits];
    [reflexivity|].
  unfold interface_names_logged. simpl. rewrite length_map.
  set (n := length (listed_interfaces d)) in *.
  set (m := length (listed_interfaces d')) in *.
  destruct (Nat.ltb_spec m (Nat.min n 10)) as [Hshort|Hall];
    destruct (Z.ltb_spec (Z.of_nat n) 10);
    match goal with
    | |- context [Z.of_nat m <? ?b] => destruct (Z.ltb_spec (Z.of_nat m) b)
    end; simpl; first [reflexivity | lia].
Qed.

(** Every path of [wifi_initialize] that stores no handle returns
    [WIFI_ERROR_UNKNOWN]; on the other paths the family id is resolved, and
    the call returns [WIFI_SUCCESS] unless the interface code makes an
    undefined access. *)
Lemma wifi_initialize_values (env : init_env) :
  (fst (wifi_initialize env) = Returns WIFI_ERROR_UNKNOWN
   /\ snd (wifi_initialize env) = None)
  \/ (fst (wifi_initialize env)
      = (if interfaces_mislisted env then Undefined else Returns WIFI_SUCCESS)
      /\ 0 <= env_genl_ctrl_resolve env "nl80211"
      /\ exists info, snd (wifi_initialize env) = Some info).
Proof.
  unfold wifi_initialize.
  destruct (env_malloc_info env); cbn [negb]; [|left; split; reflexivity].
  destruct (env_socketpair env =? -1); [left; split; reflexivity|].
  destruct (wifi_create_nl_socket env WIFI_HAL_CMD_SOCK_PORT);
    [|left; split; reflexivity].
  destruct (wifi_create_nl_socket env WIFI_HAL_EVENT_SOCK_PORT);
    [|left; split; reflexivity].
  cbv zeta.
  destruct (env_socket env <? 0); [left; split; reflexivity|].
  destruct (env_nl_socket_get_cb env); cbn [negb]; [|left; split; reflexivity].
  cbn [nl80211_family_id].
  destruct (Z.ltb_spec (env_genl_ctrl_resolve env "nl80211") 0) as [Hlt|Hge];
    [left; split; reflexivity|].
  right. split.
  { apply wifi_initialize_interfaces_end.
    - rewrite !(proj1 (wifi_add_membership_interfaces _ _ _)). reflexivity.
    - rewrite !(proj2 (wifi_add_membership_interfaces _ _ _)). reflexivity. }
  split; [exact Hge|].
  destruct (wifi_init_interfaces env _) as [[r i]|];
    [destruct (interface_names_logged i)|]; eexists; reflexivity.
Qed.

Lemma interfaces_mislisted_with_groups gf am (env : init_env) :
  interfaces_mislisted (with_groups gf am env) = interfaces_mislisted env.
Proof. reflexivity. Qed.

(** How [wifi_initialize] ends is decided without the results of the
    multicast-group lookups and joins. *)
Lemma wifi_initialize_ignores_groups gf am (env : init_env) :
  fst (wifi_initialize (with_groups gf am env)) = fst (wifi_initialize env).
Proof.
  unfold wifi_initialize.
  rewrite !wifi_create_nl_socket_with_groups.
  change (env_malloc_info (with_groups gf am env)) with (env_malloc_info env).
  change (env_socketpair (with_groups gf am env)) with (env_socketpair env).
  change (env_socket (with_groups gf am env)) with (env_socket env).
  change (env_nl_socket_get_cb (with_groups gf am env)) with (env_nl_socket_get_cb env).
  change (env_genl_ctrl_resolve (with_groups gf am env)) with (env_genl_ctrl_resolve env).
  destruct (env_malloc_info env); cbn [negb]; [|reflexivity].
  destruct (env_socketpair env =? -1); [reflexivity|].
  destruct (wifi_create_nl_socket env WIFI_HAL_CMD_SOCK_PORT); [|reflexivity].
  destruct (wifi_create_nl_socket env WIFI_HAL_EVENT_SOCK_PORT); [|reflexivity].
  cbv zeta.
  destruct (env_socket env <? 0); [reflexivity|].
  destruct (env_nl_socket_get_cb env); cbn [negb]; [|reflexivity].
  cbn [nl80211_family_id].
  destruct (env_genl_ctrl_resolve env "nl80211" <? 0); [reflexivity|].
  rewrite !wifi_initialize_interfaces_end.
  - reflexivity.
  - rewrite !(proj1 (wifi_add_membership_interfaces _ _ _)). reflexivity.
  - rewrite !(proj2 (wifi_add_membership_interfaces _ _ _)). reflexivity.
  - rewrite !(proj1 (wifi_add_membership_interfaces _ _ _)). reflexivity.
  - rewrite !(proj2 (wifi_add_membership_interfaces _ _ _)). reflexivity.
Qed.

(** C3, as the code has it.  [wifi_initialize] does not return
    [WIFI_SUCCESS] when the nl80211 family id cannot be resolved: it returns
    [WIFI_ERROR_UNKNOWN] and stores no handle.  What the lookups and joins
    of the four multicast groups yield has no influence on the value
    returned: the results of [wifi_add_membership] are discarded. *)
Theorem wifi_initialize_family_fatal_groups_ignored (env : init_env) :
  WIFI_ERROR_UNKNOWN <> WIFI_SUCCESS ->
  (env_genl_ctrl_resolve env "nl80211" < 0 ->
   fst (wifi_initialize env) = Returns WIFI_ERROR_UNKNOWN
   /\ fst (wifi_initialize env) <> Returns WIFI_SUCCESS
   /\ snd (wifi_initialize env) = None)
  /\ (forall getfamily add_membership,
        fst (wifi_initialize (with_groups getfamily add_membership env))
        = fst (wifi_initialize env)).
Proof.
  intros Hdistinct. split.
  - intros Hfam.
    destruct (wifi_initialize_values env) as [[Hr Hh]|(_ & Hge & _)]; [|lia].
    rewrite Hr. split; [reflexivity|]. split; [|exact Hh].
    intros Heq. apply Hdistinct. injection Heq as Heq. exact Heq.
  - intros gf am. apply wifi_initialize_ignores_groups.
Qed.

End InitProperties.

(** ** The event loop *)

Section EventLoopProperties.
Context {P : Platform}.

Lemma truthy_true (z : Z) : truthy z = true <-> z <> 0.
Proof. unfold truthy. destruct (Z.eqb_spec z 0); simpl; split; congruence. Qed.

Lemma truthy_false (z : Z) : truthy z = false <-> z = 0.
Proof. unfold truthy. destruct (Z.eqb_spec z 0); simpl; split; congruence. Qed.

(** One pass of the loop followed by the rest of the run. *)
Lemma event_loop_run_cons (info : hal_info) (p : poll_result)
    (rest : list poll_result) :
  event_loop_run info (p :: rest)
  = let info' := seen_cleanup p info in
    let body := event_loop_body info p in
    let teardown := (fst (internal_cleaned_up_handler info'), None,
                     snd body ++ snd (internal_cleaned_up_handler info')) in
    match fst body with
    | Break => teardown
    | Continue =>
        if clean_up info' then teardown
        else let '(e, i, tr') := event_loop_run info' rest in
             (e, i, snd body ++ tr')
    end.
Proof.
  cbn [event_loop_run]. cbv zeta.
  destruct (event_loop_body info p) as [ctl tr].
  destruct (internal_cleaned_up_handler (seen_cleanup p info)) as [exit teardown].
  reflexivity.
Qed.

(** How the teardown ends: it completes when a handler is stored, and
    otherwise stops at the call through the NULL pointer, after the sockets
    were closed and before the session is freed. *)
Lemma internal_cleaned_up_handler_exit (info : hal_info) :
  (cleaned_up_handler info <> None ->
   fst (internal_cleaned_up_handler info) = CleanedUp
   /\ exists sockets,
        snd (internal_cleaned_up_handler info) = sockets ++ [EvCleanedUp; EvFree]
        /\ forall e, In e sockets -> exists x, e = EvClose x \/ e = EvSocketFree x)
  /\ (cleaned_up_handler info = None ->
      fst (internal_cleaned_up_handler info) = Faulted
      /\ forall e, In e (snd (internal_cleaned_up_handler info)) ->
                   exists x, e = EvClose x \/ e = EvSocketFree x).
Proof.
  unfold internal_cleaned_up_handler.
  assert (Hsock : forall e,
            In e (match cmd_sock info with
                  | Some _ =>
                      [EvClose (fst (cleanup_socks info));
                       EvClose (snd (cleanup_socks info));
                       EvSocketFree (sock_port (cmd_sock info));
                       EvSocketFree (sock_port (event_sock info))]
                  | None => []
                  end) ->
            exists x, e = EvClose x \/ e = EvSocketFree x).
  { intros e. destruct (cmd_sock info); [|intros []].
    intros [<-|[<-|[<-|[<-|[]]]]]; eexists; first [left; reflexivity | right; reflexivity]. }
  destruct (cleaned_up_handler info) as [h|]; split.
  - intros _. split; [reflexivity|]. eexists. split; [reflexivity | exact Hsock].
  - discriminate.
  - intros H. destruct (H eq_refl).
  - intros _. split; [reflexivity | exact Hsock].
Qed.

Lemma seen_cleanup_in_event_loop (p : poll_result) (info : hal_info) :
  in_event_loop (seen_cleanup p info) = in_event_loop info.
Proof. unfold seen_cleanup. destruct (cleanup_called p); reflexivity. Qed.

(** The loop leaves [in_event_loop] alone, and while it has not torn the
    session down the thread is in [poll]. *)
Lemma event_loop_run_in_poll (script : list poll_result) :
  forall info e info' tr,
    event_loop_run info script = (e, Some info', tr) ->
    e = InPoll /\ in_event_loop info' = in_event_loop info.
Proof.
  induction script as [|p rest IH]; intros info e info' tr Hrun.
  - simpl in Hrun. inversion Hrun; subst. split; reflexivity.
  - rewrite event_loop_run_cons in Hrun. cbv zeta in Hrun.
    destruct (fst (event_loop_body info p)); [discriminate Hrun|].
    destruct (clean_up (seen_cleanup p info)); [discriminate Hrun|].
    destruct (event_loop_run (seen_cleanup p info) rest) as [[e1 i1] tr1] eqn:Hrest.
    inversion Hrun; subst.
    destruct (IH _ _ _ _ Hrest) as [He Hi].
    split; [exact He|]. rewrite Hi. apply seen_cleanup_in_event_loop.
Qed.

(** C5.  A call of [wifi_event_loop] on a handle whose [in_event_loop] is
    set returns at once: no poll result is consumed, nothing is done and the
    session is unchanged.  A call on a handle whose flag is clear sets the
    flag and then runs the loop; the session a running loop works on has the
    flag set, so a further call on it returns at once. *)
Theorem wifi_event_loop_reentry (info : hal_info) (script : list poll_result) :
  (in_event_loop info = true ->
   wifi_event_loop info script = (NotEntered, Some info, []))
  /\ (in_event_loop info = false ->
      wifi_event_loop info script
      = event_loop_run (set_in_event_loop true info) script
      /\ in_event_loop (set_in_event_loop true info) = true
      /\ forall e info' tr,
           wifi_event_loop info script = (e, Some info', tr) ->
           e = InPoll
           /\ in_event_loop info' = true
           /\ forall script', wifi_event_loop info' script'
                              = (NotEntered, Some info', [])).
Proof.
  split.
  - intros Hflag. unfold wifi_event_loop. rewrite Hflag. reflexivity.
  - intros Hflag. unfold wifi_event_loop at 1 2. rewrite Hflag.
    split; [reflexivity|]. split; [reflexivity|].
    intros e info' tr Hrun.
    destruct (event_loop_run_in_poll _ _ _ _ _ Hrun) as [He Hi].
    simpl in Hi. repeat split; [exact He | exact Hi |].
    intros script'. unfold wifi_event_loop. rewrite Hi. reflexivity.
Qed.

(** C4, as the code has it.  In one pass of the loop on poll result [p]:
    when [poll] succeeded and the event socket reports POLLHUP without
    POLLERR, the loop is left and the teardown is entered; the teardown
    completes when a [cleaned_up_handler] has been stored, and calls through
    a NULL pointer, after closing the sockets, when none has.  When [poll]
    failed or the event socket reports POLLERR (with or without POLLHUP),
    the pass logs and ends without [break], so the loop goes on to the next
    pass unless [clean_up] has been set, in which case it ends as after any
    pass. *)
Theorem event_loop_hangup_and_errors (info : hal_info) (p : poll_result)
    (rest : list poll_result) :
  let info' := seen_cleanup p info in
  let teardown := internal_cleaned_up_handler info' in
  (0 <= poll_ret p ->
   Z.land (revents0 p) POLLERR = 0 ->
   Z.land (revents0 p) POLLHUP <> 0 ->
   event_loop_run info (p :: rest)
   = (fst teardown, None, EvLog "Remote side hung up" :: snd teardown)
   /\ (cleaned_up_handler info' <> None ->
       fst teardown = CleanedUp
       /\ exists sockets, snd teardown = sockets ++ [EvCleanedUp; EvFree])
   /\ (cleaned_up_handler info' = None ->
       fst teardown = Faulted
       /\ ~ In EvCleanedUp (snd teardown) /\ ~ In EvFree (snd teardown)))
  /\ (poll_ret p < 0 \/ Z.land (revents0 p) POLLERR <> 0 ->
      exists tr,
        event_loop_body info p = (Continue, tr)
        /\ (exists s, In (EvLog s) tr)
        /\ (clean_up info' = false ->
            event_loop_run info (p :: rest)
            = (let '(e, i, tr') := event_loop_run info' rest in (e, i, tr ++ tr')))
        /\ (clean_up info' = true ->
            event_loop_run info (p :: rest)
            = (fst teardown, None, tr ++ snd teardown))).
Proof.
  intros info' teardown. split.
  - intros Hret Herr Hhup. split.
    { rewrite event_loop_run_cons. cbv zeta. unfold event_loop_body.
      destruct (Z.ltb_spec (poll_ret p) 0) as [Hlt|_]; [lia|].
      rewrite (proj2 (truthy_false _) Herr).
      rewrite (proj2 (truthy_true _) Hhup).
      reflexivity. }
    destruct (internal_cleaned_up_handler_exit info') as [Hset Hnull]. split.
    + intros Hh. destruct (Hset Hh) as (Hexit & sockets & Htr & _).
      split; [exact Hexit|]. exists sockets. exact Htr.
    + intros Hh. destruct (Hnull Hh) as (Hexit & Hev).
      split; [exact Hexit|].
      split; intros Hin; destruct (Hev _ Hin) as (x & [Hx|Hx]); discriminate Hx.
  - intros Hcase.
    assert (Hbody : exists tr, event_loop_body info p = (Continue, tr)
                               /\ exists s, In (EvLog s) tr).
    { unfold event_loop_body.
      destruct (Z.ltb_spec (poll_ret p) 0) as [Hlt|Hge].
      - eexists. split; [reflexivity|]. eexists. left. reflexivity.
      - destruct Hcase as [Hlt|Herr]; [lia|].
        rewrite (proj2 (truthy_true _) Herr).
        eexists. split; [reflexivity|]. eexists. right. left. reflexivity. }
    destruct Hbody as (tr & Hbody & Hlog).
    exists tr. split; [exact Hbody|]. split; [exact Hlog|].
    split; intros Hclean; rewrite event_loop_run_cons; cbv zeta;
      rewrite Hbody; fold info'; rewrite Hclean; reflexivity.
Qed.

End EventLoopProperties.

(** ** Commands *)

Lemma reply_attr_u32_absent (id : Z) (attrs : list nlattr) :
  forall dflt,
    (forall it, In it attrs -> nla_type it <> id) ->
    reply_attr_u32 id attrs dflt = dflt.
Proof.
  induction attrs as [|it rest IH]; intros dflt Habs; [reflexivity|].
  simpl. destruct (Z.eqb_spec (nla_type it) id) as [Heq|_].
  - exfalso. apply (Habs it); [left; reflexivity | exact Heq].
  - apply IH. intros it' Hin. apply Habs. right. exact Hin.
Qed.

Lemma reply_attr_u32_agree (id v : Z) (attrs : list nlattr) :
  forall dflt,
    (forall it, In it attrs -> nla_type it = id -> u32 (nla_u32 it) = v) ->
    reply_attr_u32 id attrs dflt = dflt \/ reply_attr_u32 id attrs dflt = v.
Proof.
  induction attrs as [|it rest IH]; intros dflt Hv; [left; reflexivity|].
  simpl. destruct (Z.eqb_spec (nla_type it) id) as [Heq|_].
  - rewrite (Hv it) by (first [left; reflexivity | exact Heq]).
    destruct (IH v) as [H|H]; [|right; exact H|right; exact H].
    intros it' Hin. apply Hv. right. exact Hin.
  - apply IH. intros it' Hin. apply Hv. right. exact Hin.
Qed.

Lemma reply_attr_u32_present (id v : Z) (attrs : list nlattr) :
  forall dflt,
    (exists it, In it attrs /\ nla_type it = id) ->
    (forall it, In it attrs -> nla_type it = id -> u32 (nla_u32 it) = v) ->
    reply_attr_u32 id attrs dflt = v.
Proof.
  induction attrs as [|it rest IH]; intros dflt (it0 & Hin & Hty) Hv.
  - destruct Hin.
  - assert (Hrest : forall it', In it' rest -> nla_type it' = id ->
                                u32 (nla_u32 it') = v).
    { intros it' Hin'. apply Hv. right. exact Hin'. }
    simpl. destruct (Z.eqb_spec (nla_type it) id) as [Heq|Hne].
    + rewrite (Hv it) by (first [left; reflexivity | exact Heq]).
      destruct (reply_attr_u32_agree id v rest v Hrest) as [H|H]; exact H.
    + destruct Hin as [->|Hin]; [contradiction|].
      apply IH; [exists it0; split; assumption | exact Hrest].
Qed.

Section CommandProperties.
Context {P : Platform}.

(** What one pass of the attribute loop of [handleResponse] leaves in the
    two output objects and elsewhere. *)
Lemma apf_capability_attr_step (mVersion mMaxLen : ptr) (it : nlattr)
    (w : world) (v m : Z) :
  mVersion <> mMaxLen ->
  w_words w !! mVersion = Some v ->
  w_words w !! mMaxLen = Some m ->
  let w' := apf_capability_attr mVersion mMaxLen w it in
  w_words w' !! mVersion
  = Some (if nla_type it =? APF_ATTRIBUTE_VERSION then u32 (nla_u32 it) else v)
  /\ w_words w' !! mMaxLen
     = Some (if nla_type it =? APF_ATTRIBUTE_MAX_LEN then u32 (nla_u32 it) else m)
  /\ (forall p, p <> mVersion -> p <> mMaxLen -> w_words w' !! p = w_words w !! p).
Proof.
  intros Hne Hv Hm. unfold apf_capability_attr.
  unfold APF_ATTRIBUTE_VERSION, APF_ATTRIBUTE_MAX_LEN.
  destruct (Z.eqb_spec (nla_type it) 0) as [H0|H0];
    destruct (Z.eqb_spec (nla_type it) 1) as [H1|H1]; try lia; simpl.
  - split; [apply lookup_insert_eq|].
    split; [rewrite lookup_insert_ne by exact Hne; exact Hm|].
    intros p Hpv Hpm. apply lookup_insert_ne. congruence.
  - split; [rewrite lookup_insert_ne by congruence; exact Hv|].
    split; [apply lookup_insert_eq|].
    intros p Hpv Hpm. apply lookup_insert_ne. congruence.
  - repeat split; assumption.
Qed.

(** What the attribute loop leaves in the two output objects and
    elsewhere. *)
Lemma apf_capability_loop (mVersion mMaxLen : ptr) (attrs : list nlattr) :
  mVersion <> mMaxLen ->
  forall (w : world) (v m : Z),
    w_words w !! mVersion = Some v ->
    w_words w !! mMaxLen = Some m ->
    let w' := fold_left (apf_capability_attr mVersion mMaxLen) attrs w in
    w_words w' !! mVersion = Some (reply_attr_u32 APF_ATTRIBUTE_VERSION attrs v)
    /\ w_words w' !! mMaxLen = Some (reply_attr_u32 APF_ATTRIBUTE_MAX_LEN attrs m)
    /\ (forall p, p <> mVersion -> p <> mMaxLen -> w_words w' !! p = w_words w !! p).
Proof.
  intros Hne. induction attrs as [|it rest IH]; intros w v m Hv Hm.
  - simpl. repeat split; assumption.
  - destruct (apf_capability_attr_step mVersion mMaxLen it w v m Hne Hv Hm)
      as (Sv & Sm & Sp).
    destruct (IH _ _ _ Sv Sm) as (IHv & IHm & IHp).
    cbn [fold_left reply_attr_u32].
    split; [exact IHv|]. split; [exact IHm|].
    intros p Hpv Hpm. rewrite IHp by assumption. apply Sp; assumption.
Qed.

(** C7.  A vendor reply with vendor data, handled in GET_APF_CAPABILITIES
    mode, is accepted ([NL_OK]) and leaves in [*mVersion] and [*mMaxLen] the
    values the reply carries for APF_ATTRIBUTE_VERSION and
    APF_ATTRIBUTE_MAX_LEN, 0 for one the reply does not carry; attributes
    with other ids change nothing.  In particular a reply whose version
    attribute is 3 and whose max_len attribute is 2048 yields 3 and 2048. *)
Theorem apf_capabilities_from_reply (c : AndroidPktFilterCommand)
    (mVersion mMaxLen : ptr) (reply : nl_msg) (attrs : list nlattr) (w : world) :
  apf c = ApfGetCapabilities mVersion mMaxLen ->
  mVersion <> mMaxLen ->
  genl_cmd reply = NL80211_CMD_VENDOR ->
  attr_vendor_data reply = Some attrs ->
  vendor_data_len reply <> 0 ->
  let r := AndroidPktFilterCommand_handleResponse c reply w in
  let version := w_words (snd r) !! mVersion in
  let max_len := w_words (snd r) !! mMaxLen in
  fst r = NL_OK
  /\ version = Some (reply_attr_u32 APF_ATTRIBUTE_VERSION attrs 0)
  /\ max_len = Some (reply_attr_u32 APF_ATTRIBUTE_MAX_LEN attrs 0)
  /\ (forall p, p <> mVersion -> p <> mMaxLen ->
                w_words (snd r) !! p = w_words w !! p)
  /\ ((forall it, In it attrs -> nla_type it <> APF_ATTRIBUTE_VERSION) ->
      version = Some 0)
  /\ ((forall it, In it attrs -> nla_type it <> APF_ATTRIBUTE_MAX_LEN) ->
      max_len = Some 0)
  /\ (forall v,
        (exists it, In it attrs /\ nla_type it = APF_ATTRIBUTE_VERSION) ->
        (forall it, In it attrs -> nla_type it = APF_ATTRIBUTE_VERSION ->
                    u32 (nla_u32 it) = v) ->
        version = Some v)
  /\ (forall v,
        (exists it, In it attrs /\ nla_type it = APF_ATTRIBUTE_MAX_LEN) ->
        (forall it, In it attrs -> nla_type it = APF_ATTRIBUTE_MAX_LEN ->
                    u32 (nla_u32 it) = v) ->
        max_len = Some v).
Proof.
  intros Hmode Hne Hcmd Hdata Hlen r version max_len.
  assert (Hr : r = (NL_OK,
                    fold_left (apf_capability_attr mVersion mMaxLen) attrs
                      (store mMaxLen 0 (store mVersion 0 w)))).
  { subst r. unfold AndroidPktFilterCommand_handleResponse.
    rewrite Hcmd, Z.eqb_refl, Hdata. simpl.
    destruct (Z.eqb_spec (vendor_data_len reply) 0) as [H0|_]; [contradiction|].
    rewrite Hmode. reflexivity. }
  destruct (apf_capability_loop mVersion mMaxLen attrs Hne
              (store mMaxLen 0 (store mVersion 0 w)) 0 0)
    as (Hv & Hm & Hp).
  { simpl. rewrite lookup_insert_ne by congruence. apply lookup_insert_eq. }
  { simpl. apply lookup_insert_eq. }
  assert (Hversion : version = Some (reply_attr_u32 APF_ATTRIBUTE_VERSION attrs 0)).
  { subst version. rewrite Hr. exact Hv. }
  assert (Hmax : max_len = Some (reply_attr_u32 APF_ATTRIBUTE_MAX_LEN attrs 0)).
  { subst max_len. rewrite Hr. exact Hm. }
  split; [rewrite Hr; reflexivity|].
  split; [exact Hversion|]. split; [exact Hmax|].
  split.
  { intros p Hpv Hpm. rewrite Hr. simpl snd. rewrite Hp by assumption.
    simpl. rewrite !lookup_insert_ne by congruence. reflexivity. }
  split.
  { intros Habs. rewrite Hversion. f_equal. apply reply_attr_u32_absent. exact Habs. }
  split.
  { intros Habs. rewrite Hmax. f_equal. apply reply_attr_u32_absent. exact Habs. }
  split.
  - intros v Hex Hall. rewrite Hversion. f_equal.
    apply reply_attr_u32_present; assumption.
  - intros v Hex Hall. rewrite Hmax. f_equal.
    apply reply_attr_u32_present; assumption.
Qed.

(** C6.  [wifi_configure_nd_offload] returns [WIFI_SUCCESS] when the
    request-response of its command returns [-EPERM], and the value of the
    request-response otherwise, for every [enable]; it does nothing besides
    the request-response. *)
Theorem nd_offload_permission_denied_is_success (t : transport)
    (handle : wifi_interface_handle) (enable : Z) (w : world) :
  let rr := SetNdoffloadCommand_requestResponse t handle enable w in
  fst (wifi_configure_nd_offload t handle enable w)
  = (if fst rr =? - EPERM then WIFI_SUCCESS else fst rr)
  /\ snd (wifi_configure_nd_offload t handle enable w) = snd rr.
Proof.
  intros rr. unfold wifi_configure_nd_offload. fold rr.
  destruct rr as [ret w']. simpl.
  destruct (Z.eqb_spec ret WIFI_SUCCESS) as [Hs|Hs];
    destruct (Z.eqb_spec ret (- EPERM)) as [He|He]; simpl; auto.
Qed.

(** C10.  [wifi_get_packet_filter_capabilities] returns
    [WIFI_ERROR_OUT_OF_MEMORY], having done nothing, when the command cannot
    be allocated, and [WIFI_SUCCESS] in every other case, whatever [start]
    returned; when [start] did not return [WIFI_SUCCESS] both [*version] and
    [*max_len] are 0 on return. *)
Theorem packet_filter_capabilities_hides_failure (t : transport)
    (cmd : option ptr) (handle : wifi_interface_handle)
    (version max_len : ptr) (w : world) :
  let r := wifi_get_packet_filter_capabilities t cmd handle version max_len w in
  (cmd = None -> r = (WIFI_ERROR_OUT_OF_MEMORY, w))
  /\ (forall c, cmd = Some c ->
        let started :=
          AndroidPktFilterCommand_start t
            {| apf_handle := handle; apf := ApfGetCapabilities version max_len |}
            (with_refs (insert c 1) w) in
        fst r = WIFI_SUCCESS
        /\ (fst started <> WIFI_SUCCESS ->
            w_words (snd r) !! version = Some 0
            /\ w_words (snd r) !! max_len = Some 0)
        /\ (fst started = WIFI_SUCCESS ->
            w_words (snd r) = w_words (snd started)))
  /\ (fst r = WIFI_SUCCESS \/ (cmd = None /\ fst r = WIFI_ERROR_OUT_OF_MEMORY)).
Proof.
  intros r. subst r. unfold wifi_get_packet_filter_capabilities.
  destruct cmd as [c|].
  - split; [discriminate|].
    assert (Hall : forall started : Z * world,
      let r := (let '(result, w0) := started in
                let '(result0, w1) :=
                  if result =? WIFI_SUCCESS then (result, w0)
                  else (WIFI_SUCCESS, store max_len 0 (store version 0 w0)) in
                (result0, with_refs (releaseRef c) w1)) in
      fst r = WIFI_SUCCESS
      /\ (fst started <> WIFI_SUCCESS ->
          w_words (snd r) !! version = Some 0 /\ w_words (snd r) !! max_len = Some 0)
      /\ (fst started = WIFI_SUCCESS -> w_words (snd r) = w_words (snd started))).
    { intros [result w0]. simpl.
      destruct (Z.eqb_spec result WIFI_SUCCESS) as [Hs|Hs]; simpl.
      - repeat split; [exact Hs | contradiction | contradiction].
      - repeat split; try contradiction.
        + destruct (decide (max_len = version)) as [->|Hd].
          * apply lookup_insert_eq.
          * rewrite lookup_insert_ne by exact Hd. apply lookup_insert_eq.
        + apply lookup_insert_eq. }
    split.
    + intros c' Hc'. injection Hc' as <-. apply Hall.
    + left. apply Hall.
  - split; [reflexivity|]. split; [discriminate|].
    right. split; reflexivity.
Qed.

End CommandProperties.

(** ** Cancelling the RSSI monitor *)

Lemma unregister_event_handler_absent (cmd v s : Z) (cbs : list cb_info) :
  registrations cmd v s cbs = 0%nat ->
  unregister_event_handler cmd v s cbs = cbs.
Proof.
  unfold registrations. induction cbs as [|cbi rest IH]; intros Hnone.
  - reflexivity.
  - simpl in *. fold (is_registration cmd v s cbi) in *.
    destruct (is_registration cmd v s cbi).
    + discriminate Hnone.
    + f_equal. apply IH. exact Hnone.
Qed.

Lemma registrations_unregister (cmd v s : Z) (cbs : list cb_info) :
  registrations cmd v s (unregister_event_handler cmd v s cbs)
  = Nat.pred (registrations cmd v s cbs).
Proof.
  unfold registrations. induction cbs as [|cbi rest IH].
  - reflexivity.
  - simpl. fold (is_registration cmd v s cbi).
    destruct (is_registration cmd v s cbi) eqn:Hreg.
    + reflexivity.
    + simpl. rewrite Hreg. exact IH.
Qed.

(** In a table with at most one registration of the signature a second
    removal changes nothing. *)
Lemma unregister_event_handler_twice (cmd v s : Z) (cbs : list cb_info) :
  (registrations cmd v s cbs <= 1)%nat ->
  unregister_event_handler cmd v s (unregister_event_handler cmd v s cbs)
  = unregister_event_handler cmd v s cbs.
Proof.
  intros Hone. apply unregister_event_handler_absent.
  rewrite registrations_unregister. lia.
Qed.

Section CancelProperties.
Context {P : Platform}.

Lemma rssi_replies_ignored (replies : list nl_msg) (w : world) :
  fold_left (fun w r => snd (SetRSSIMonitorCommand_handleResponse r w)) replies w = w.
Proof. induction replies as [|r rest IH]; simpl; [reflexivity | exact IH]. Qed.

(** [cancel] sends the stop request when it can be built, then removes the
    registration; nothing else changes. *)
Lemma rssi_cancel_effect (t : transport) (c : SetRSSIMonitorCommand) (w : world) :
  let built := SetRSSIMonitorCommand_createRequest t c (new_request (rssi_handle c)) 0 in
  SetRSSIMonitorCommand_cancel t c w
  = (WIFI_SUCCESS,
     unregisterVendorHandler GOOGLE_OUI WIFI_RSSI_REPORT_EVENT
       (if fst built =? WIFI_SUCCESS then send (snd built) w else w)).
Proof.
  intros built. unfold SetRSSIMonitorCommand_cancel. fold built.
  destruct built as [result request]. simpl.
  destruct (result =? WIFI_SUCCESS); simpl; [|reflexivity].
  unfold requestResponse. destruct (exchange t request) as [replies res].
  simpl. rewrite rssi_replies_ignored. reflexivity.
Qed.

(** C8, as the code has it.  [cancel] of the RSSI monitor returns
    [WIFI_SUCCESS] on each of two successive calls, and the second call
    leaves the registration table as the first left it when the table held
    at most one registration of the RSSI signature.  The second call is not
    without effect on the transport: whenever the stop request can be built,
    each call sends it on the command socket. *)
Theorem rssi_cancel_twice (t : transport) (c : SetRSSIMonitorCommand) (w : world) :
  let r1 := SetRSSIMonitorCommand_cancel t c w in
  let r2 := SetRSSIMonitorCommand_cancel t c (snd r1) in
  let built := SetRSSIMonitorCommand_createRequest t c (new_request (rssi_handle c)) 0 in
  fst r1 = WIFI_SUCCESS
  /\ fst r2 = WIFI_SUCCESS
  /\ ((registrations NL80211_CMD_VENDOR GOOGLE_OUI WIFI_RSSI_REPORT_EVENT
         (event_cb (w_info w)) <= 1)%nat ->
      w_info (snd r2) = w_info (snd r1))
  /\ w_words (snd r2) = w_words (snd r1)
  /\ w_bufs (snd r2) = w_bufs (snd r1)
  /\ w_refs (snd r2) = w_refs (snd r1)
  /\ (fst built = WIFI_SUCCESS ->
      w_sent (snd r1) = w_sent w ++ [snd built]
      /\ w_sent (snd r2) = w_sent (snd r1) ++ [snd built])
  /\ (fst built <> WIFI_SUCCESS ->
      w_sent (snd r1) = w_sent w /\ w_sent (snd r2) = w_sent (snd r1)).
Proof.
  intros r1 r2 built. subst r1 r2.
  rewrite !rssi_cancel_effect. fold built. simpl fst. simpl snd.
  split; [reflexivity|]. split; [reflexivity|].
  split.
  { intros Hone. unfold unregisterVendorHandler, with_info. simpl.
    destruct (fst built =? WIFI_SUCCESS); simpl;
      rewrite unregister_event_handler_twice by exact Hone; reflexivity. }
  split; [destruct (fst built =? WIFI_SUCCESS); reflexivity|].
  split; [destruct (fst built =? WIFI_SUCCESS); reflexivity|].
  split; [destruct (fst built =? WIFI_SUCCESS); reflexivity|].
  split.
  - intros Hok. rewrite Hok, Z.eqb_refl. simpl. split; reflexivity.
  - intros Hfail. destruct (Z.eqb_spec (fst built) WIFI_SUCCESS) as [H|_];
      [contradiction|]. simpl. split; reflexivity.
Qed.

End CancelProperties.

(** * The model on concrete inputs *)

Lemma balanced_from_sound (c : ptr) (tr : list event) :
  forall acc,
    balanced_from c acc tr = true ->
    forall k, 0 <= acc + net_refs c (take k tr).
Proof.
  induction tr as [|e tr IH]; intros acc Hb k.
  - simpl in Hb. apply Z.leb_le in Hb. rewrite firstn_nil. simpl. lia.
  - simpl in Hb. apply andb_true_iff in Hb as [Hacc Hrest].
    apply Z.leb_le in Hacc. destruct k as [|k]; simpl; [lia|].
    specialize (IH _ Hrest k). lia.
Qed.

(** The event (V1, S1) on the table [(V1, S2); (V2, S1); (V1, S1)]: the
    handler of the third registration is called, those of the first two are
    not. *)
Lemma event_dispatch_demultiplexes_witness :
  In (EvCall 2)
     (snd (@internal_valid_message_handler sample_platform
             (sample_session sample_table) sample_event))
  /\ (exists cbi,
        @first_match sample_platform (sample_session sample_table) sample_event 2 cbi
        /\ forall j,
             In (EvCall j)
                (snd (@internal_valid_message_handler sample_platform
                        (sample_session sample_table) sample_event)) ->
             j = 2%nat)
  /\ ~ In (EvCall 0)
         (snd (@internal_valid_message_handler sample_platform
                 (sample_session sample_table) sample_event))
  /\ ~ In (EvCall 1)
         (snd (@internal_valid_message_handler sample_platform
                 (sample_session sample_table) sample_event)).
Proof.
  pose proof (@event_dispatch_demultiplexes sample_platform
                (sample_session sample_table) sample_event) as [Honly Hnever].
  assert (Hin : In (EvCall 2)
                   (snd (@internal_valid_message_handler sample_platform
                           (sample_session sample_table) sample_event))).
  { vm_compute. do 3 right. left. reflexivity. }
  split; [exact Hin|]. split; [exact (Honly 2%nat Hin)|]. split.
  - apply (Hnever 0%nat (sample_registration 0x001A11 12 7)).
    + reflexivity.
    + reflexivity.
    + right. vm_compute. discriminate.
  - apply (Hnever 1%nat (sample_registration 0x1234 11 8)).
    + reflexivity.
    + reflexivity.
    + left. vm_compute. discriminate.
Defined.

(** A handler that takes a reference and releases it again: the command,
    live at count 1 before dispatch, is at count 2 when the handler is
    called, at count 3 inside it, and back at count 1 after dispatch. *)
Lemma dispatch_holds_reference_witness :
  snd (@internal_valid_message_handler sample_platform
         (sample_session [sample_registration 0x001A11 11 5]) sample_event)
  = [EvLock; EvAddRef 5; EvUnlock; EvCall 0; EvInHandler (AddRef 5);
     EvInHandler (ReleaseRef 5); EvReturn 0; EvReleaseRef 5]
  /\ refs_after [EvLock; EvAddRef 5; EvUnlock] {[ 5%positive := 1 ]} !! 5%positive
     = Some 2
  /\ refs_after [EvLock; EvAddRef 5; EvUnlock; EvCall 0; EvInHandler (AddRef 5)]
       {[ 5%positive := 1 ]} !! 5%positive = Some 3
  /\ refs_after
       (snd (@internal_valid_message_handler sample_platform
               (sample_session [sample_registration 0x001A11 11 5]) sample_event))
       {[ 5%positive := 1 ]} !! 5%positive = Some 1.
Proof.
  assert (Hfirst : @first_match sample_platform
                     (sample_session [sample_registration 0x001A11 11 5])
                     sample_event 0 (sample_registration 0x001A11 11 5)).
  { split; [reflexivity|]. split.
    - split; [reflexivity|]. intros _. split; reflexivity.
    - intros j cbj Hlt. lia. }
  assert (Hbal : forall k,
            0 <= net_refs 5 (take k (handler_events sample_event 0
                                       (sample_registration 0x001A11 11 5)))).
  { intros k.
    apply (balanced_from_sound 5 (handler_events sample_event 0
                                    (sample_registration 0x001A11 11 5)) 0).
    reflexivity. }
  destruct (@dispatch_holds_reference sample_platform
              (sample_session [sample_registration 0x001A11 11 5]) sample_event
              0 (sample_registration 0x001A11 11 5) 5 1 {[ 5%positive := 1 ]}
              ltac:(simpl; lia) Hfirst eq_refl ltac:(apply lookup_singleton_eq) ltac:(lia))
    as (Htr & Hpre & Hduring & _ & Hafter).
  split; [exact Htr|]. split; [exact Hpre|]. split.
  - exact (proj1 (Hduring 2%nat
                    ltac:(intros j _; specialize (Hbal j); lia))).
  - exact (Hafter ltac:(intros j; specialize (Hbal j); lia)).
Defined.

(** A handler that releases a reference to its command: the command, live
    at count 2 before dispatch, is at count 3 when the handler is called
    and at count 2 (not one more than before dispatch) for the rest of the
    call; it is not destroyed during the call, and is at count 1 after
    dispatch. *)
Lemma handler_release_lowers_count :
  snd (@internal_valid_message_handler sample_platform
         (sample_session [sample_releasing_registration 0x001A11 11 5])
         sample_event)
  = [EvLock; EvAddRef 5; EvUnlock; EvCall 0; EvInHandler (ReleaseRef 5);
     EvReturn 0; EvReleaseRef 5]
  /\ ({[ 5%positive := 2 ]} : gmap ptr Z) !! 5%positive = Some 2
  /\ refs_after [EvLock; EvAddRef 5; EvUnlock] {[ 5%positive := 2 ]} !! 5%positive
     = Some 3
  /\ refs_after [EvLock; EvAddRef 5; EvUnlock; EvCall 0; EvInHandler (ReleaseRef 5)]
       {[ 5%positive := 2 ]} !! 5%positive = Some 2
  /\ refs_after
       (snd (@internal_valid_message_handler sample_platform
               (sample_session [sample_releasing_registration 0x001A11 11 5])
               sample_event))
       {[ 5%positive := 2 ]} !! 5%positive = Some 1.
Proof.
  split; [reflexivity|]. split; [apply lookup_singleton_eq|].
  assert (Hpre : refs_after [EvLock; EvAddRef 5; EvUnlock]
                   ({[ 5%positive := 2 ]} : gmap ptr Z) !! 5%positive = Some 3).
  { apply (refs_after_lookup 5 [EvLock; EvAddRef 5; EvUnlock] _ 2);
      [apply lookup_singleton_eq|].
    intros [|[|[|[|k]]]] _; simpl; lia. }
  split; [exact Hpre|]. split.
  - apply (refs_after_lookup 5
             [EvLock; EvAddRef 5; EvUnlock; EvCall 0; EvInHandler (ReleaseRef 5)] _ 2);
      [apply lookup_singleton_eq|].
    intros [|[|[|[|[|[|k]]]]]] _; simpl; lia.
  - apply (refs_after_lookup 5
             [EvLock; EvAddRef 5; EvUnlock; EvCall 0; EvInHandler (ReleaseRef 5);
              EvReturn 0; EvReleaseRef 5] _ 2);
      [apply lookup_singleton_eq|].
    intros [|[|[|[|[|[|[|[|k]]]]]]]] _; simpl; lia.
Qed.

(** With the family unresolved initialisation fails; with the family
    resolved its result is the same whether or not a group can be found or
    joined. *)
Lemma wifi_initialize_family_fatal_witness :
  env_genl_ctrl_resolve (sample_env (-1)) "nl80211" < 0
  /\ fst (@wifi_initialize sample_platform (sample_env (-1)))
     = Returns (@WIFI_ERROR_UNKNOWN sample_platform)
  /\ fst (@wifi_initialize sample_platform
            (with_groups (fun _ => (-1, None)) (fun _ => -1) (sample_env 25)))
     = fst (@wifi_initialize sample_platform (sample_env 25)).
Proof.
  assert (Hdistinct : @WIFI_ERROR_UNKNOWN sample_platform
                      <> @WIFI_SUCCESS sample_platform)
    by (vm_compute; discriminate).
  assert (Hfam : env_genl_ctrl_resolve (sample_env (-1)) "nl80211" < 0)
    by (simpl; lia).
  destruct (@wifi_initialize_family_fatal_groups_ignored sample_platform
              (sample_env (-1)) Hdistinct) as [Hfatal _].
  destruct (@wifi_initialize_family_fatal_groups_ignored sample_platform
              (sample_env 25) Hdistinct) as [_ Hgroups].
  split; [exact Hfam|]. split.
  - exact (proj1 (Hfatal Hfam)).
  - apply Hgroups.
Defined.

(** The "vendor" group cannot be resolved, [wifi_add_membership] reports
    it, and [wifi_initialize] returns [WIFI_SUCCESS] with a session whose
    event socket has joined the other three groups only. *)
Lemma wifi_initialize_succeeds_without_vendor_group :
  wifi_get_multicast_id (sample_env 25) "nl80211" "vendor" = -1
  /\ fst (wifi_add_membership (sample_env 25) (sample_session []) "vendor") = -1
  /\ fst (@wifi_initialize sample_platform (sample_env 25))
     = Returns (@WIFI_SUCCESS sample_platform)
  /\ exists info,
       snd (@wifi_initialize sample_platform (sample_env 25)) = Some info
       /\ option_map s_memberships (event_sock info) = Some [3; 5; 4].
Proof.
  split; [reflexivity|]. split; [reflexivity|]. split; [reflexivity|].
  eexists. split; reflexivity.
Qed.

(** The event socket reports POLLHUP alone: the loop is left at once, the
    second poll result is not consumed.  On a session for which
    [wifi_cleanup] has stored a handler the teardown completes; on a session
    as [wifi_initialize] leaves it the teardown closes the sockets and then
    calls through the NULL handler.  The event socket reports POLLERR alone:
    the pass logs and the loop polls again. *)
Lemma event_loop_hangup_witness :
  @event_loop_run sample_platform
    (set_cleaned_up_handler (Some 31%positive) (sample_session sample_table))
    [sample_poll 16; sample_poll 1]
  = (CleanedUp, None,
     [EvLog "Remote side hung up"; EvClose 5; EvClose 6;
      EvSocketFree 2701136436; EvSocketFree 2705330740; EvCleanedUp; EvFree])
  /\ @event_loop_run sample_platform (sample_session sample_table)
       [sample_poll 16; sample_poll 1]
     = (Faulted, None,
        [EvLog "Remote side hung up"; EvClose 5; EvClose 6;
         EvSocketFree 2701136436; EvSocketFree 2705330740])
  /\ exists tr,
       @event_loop_body sample_platform (sample_session sample_table) (sample_poll 8)
       = (Continue, tr)
       /\ (exists s, In (EvLog s) tr)
       /\ @event_loop_run sample_platform (sample_session sample_table)
            [sample_poll 8; sample_poll 16]
          = (Faulted, None,
             tr ++ [EvLog "Remote side hung up"; EvClose 5; EvClose 6;
                    EvSocketFree 2701136436; EvSocketFree 2705330740]).
Proof.
  split; [|split].
  - destruct (proj1 (@event_loop_hangup_and_errors sample_platform
                       (set_cleaned_up_handler (Some 31%positive)
                          (sample_session sample_table))
                       (sample_poll 16) [sample_poll 1]))
      as (Hrun & _).
    + simpl. lia.
    + reflexivity.
    + vm_compute. discriminate.
    + rewrite Hrun. reflexivity.
  - destruct (proj1 (@event_loop_hangup_and_errors sample_platform
                       (sample_session sample_table)
                       (sample_poll 16) [sample_poll 1]))
      as (Hrun & _).
    + simpl. lia.
    + reflexivity.
    + vm_compute. discriminate.
    + rewrite Hrun. reflexivity.
  - destruct (proj2 (@event_loop_hangup_and_errors sample_platform
                       (sample_session sample_table) (sample_poll 8) [sample_poll 16]))
      as (tr & Hbody & Hlog & Hnext & _).
    + right. vm_compute. discriminate.
    + exists tr. split; [exact Hbody|]. split; [exact Hlog|].
      rewrite (Hnext eq_refl). reflexivity.
Defined.

(** The event socket reports POLLHUP together with POLLERR after a
    successful poll: the loop is not left and no teardown runs; the thread
    is back in poll with the session as it was. *)
Lemma pollhup_with_pollerr_keeps_polling :
  0 <= poll_ret (sample_poll 24)
  /\ Z.land (revents0 (sample_poll 24)) (@POLLHUP sample_platform) = 16
  /\ Z.land (revents0 (sample_poll 24)) (@POLLERR sample_platform) = 8
  /\ @event_loop_run sample_platform (sample_session sample_table) [sample_poll 24]
     = (InPoll, Some (sample_session sample_table),
        [EvRead 8; EvLog "Poll err | Read after POLL returned"])
  /\ @wifi_event_loop sample_platform (sample_session sample_table)
       [sample_poll 24; sample_poll 24]
     = (InPoll, Some (set_in_event_loop true (sample_session sample_table)),
        [EvRead 8; EvLog "Poll err | Read after POLL returned";
         EvRead 8; EvLog "Poll err | Read after POLL returned"]).
Proof.
  split; [simpl; lia|]. repeat split; reflexivity.
Qed.

(** A second call while the flag is set, and a first call. *)
Lemma wifi_event_loop_reentry_witness :
  @wifi_event_loop sample_platform
    (set_in_event_loop true (sample_session sample_table)) [sample_poll 16]
  = (NotEntered, Some (set_in_event_loop true (sample_session sample_table)), [])
  /\ @wifi_event_loop sample_platform (sample_session sample_table) [sample_poll 24]
     = @event_loop_run sample_platform
         (set_in_event_loop true (sample_session sample_table)) [sample_poll 24].
Proof.
  split.
  - apply (proj1 (@wifi_event_loop_reentry sample_platform
                    (set_in_event_loop true (sample_session sample_table))
                    [sample_poll 16])).
    reflexivity.
  - apply (proj2 (@wifi_event_loop_reentry sample_platform
                    (sample_session sample_table) [sample_poll 24])).
    reflexivity.
Defined.

(** Scenario A: version = 3 and max_len = 2048, with an attribute of an
    unknown id in between. *)
Lemma apf_capabilities_scenario_A :
  fst (@AndroidPktFilterCommand_handleResponse sample_platform sample_apf_command
         sample_capabilities_reply (sample_world []))
  = @NL_OK sample_platform
  /\ w_words (snd (@AndroidPktFilterCommand_handleResponse sample_platform
                     sample_apf_command sample_capabilities_reply (sample_world [])))
     !! 10%positive = Some 3
  /\ w_words (snd (@AndroidPktFilterCommand_handleResponse sample_platform
                     sample_apf_command sample_capabilities_reply (sample_world [])))
     !! 11%positive = Some 2048.
Proof.
  destruct (@apf_capabilities_from_reply sample_platform sample_apf_command 10 11
              sample_capabilities_reply
              [ {| nla_type := 0; nla_u32 := 3; nla_len := 4 |};
                {| nla_type := 9; nla_u32 := 77; nla_len := 4 |};
                {| nla_type := 1; nla_u32 := 2048; nla_len := 4 |} ]
              (sample_world []) eq_refl ltac:(discriminate) eq_refl eq_refl
              ltac:(simpl; lia))
    as (Hok & _ & _ & _ & _ & _ & Hversion & Hmax).
  split; [exact Hok|]. split.
  - apply Hversion.
    + eexists. split; [left; reflexivity | reflexivity].
    + intros it [<-|[<-|[<-|[]]]] Hty; first [reflexivity | discriminate Hty].
  - apply Hmax.
    + eexists. split; [right; right; left; reflexivity | reflexivity].
    + intros it [<-|[<-|[<-|[]]]] Hty; first [reflexivity | discriminate Hty].
Defined.

(** The driver answers "operation not supported" (-95): the caller sees
    [WIFI_SUCCESS] and zeroes. *)
Lemma packet_filter_capabilities_hides_failure_witness :
  fst (@AndroidPktFilterCommand_start sample_platform (sample_transport (-95))
         sample_apf_command (with_refs (insert 20%positive 1) (sample_world [])))
  = -95
  /\ fst (@wifi_get_packet_filter_capabilities sample_platform (sample_transport (-95))
            (Some 20%positive) sample_handle 10 11 (sample_world []))
     = @WIFI_SUCCESS sample_platform
  /\ w_words (snd (@wifi_get_packet_filter_capabilities sample_platform
                     (sample_transport (-95)) (Some 20%positive) sample_handle 10 11
                     (sample_world []))) !! 10%positive = Some 0
  /\ w_words (snd (@wifi_get_packet_filter_capabilities sample_platform
                     (sample_transport (-95)) (Some 20%positive) sample_handle 10 11
                     (sample_world []))) !! 11%positive = Some 0.
Proof.
  destruct (@packet_filter_capabilities_hides_failure sample_platform
              (sample_transport (-95)) (Some 20%positive) sample_handle 10 11
              (sample_world [])) as (_ & Hsome & _).
  destruct (Hsome 20%positive eq_refl) as (Hok & Hzero & _).
  split; [reflexivity|]. split; [exact Hok|].
  apply Hzero. vm_compute. discriminate.
Defined.

(** Two successive cancels on a table with one RSSI registration: both
    return [WIFI_SUCCESS] and the table is the same after the second as after
    the first. *)
Lemma rssi_cancel_twice_witness :
  fst (@SetRSSIMonitorCommand_cancel sample_platform (sample_transport 0)
         sample_rssi_command (sample_world sample_table))
  = @WIFI_SUCCESS sample_platform
  /\ w_info (snd (@SetRSSIMonitorCommand_cancel sample_platform (sample_transport 0)
                    sample_rssi_command
                    (snd (@SetRSSIMonitorCommand_cancel sample_platform
                            (sample_transport 0) sample_rssi_command
                            (sample_world sample_table)))))
     = w_info (snd (@SetRSSIMonitorCommand_cancel sample_platform (sample_transport 0)
                      sample_rssi_command (sample_world sample_table))).
Proof.
  destruct (@rssi_cancel_twice sample_platform (sample_transport 0)
              sample_rssi_command (sample_world sample_table))
    as (Hfirst & _ & Htable & _).
  split; [exact Hfirst|].
  apply Htable. vm_compute. lia.
Defined.

(** The second cancel sends the stop request a second time: the requests
    sent on the command socket after the second call are not those after
    the first. *)
Lemma rssi_cancel_sends_again :
  fst (@SetRSSIMonitorCommand_cancel sample_platform (sample_transport 0)
         sample_rssi_command (sample_world sample_table)) = 0
  /\ w_sent (snd (@SetRSSIMonitorCommand_cancel sample_platform (sample_transport 0)
                    sample_rssi_command (sample_world sample_table)))
     = [sample_stop_request]
  /\ w_sent (snd (@SetRSSIMonitorCommand_cancel sample_platform (sample_transport 0)
                    sample_rssi_command
                    (snd (@SetRSSIMonitorCommand_cancel sample_platform
                            (sample_transport 0) sample_rssi_command
                            (sample_world sample_table)))))
     = [sample_stop_request; sample_stop_request].
Proof. repeat split; reflexivity. Qed.

(** * Further properties *)

(** ** Event dispatch: the lock, unmatched events, the matching handler *)

Section DispatchFurther.
Context {P : Platform}.

Lemma handler_events_kind (msg : nl_msg) (i : nat) (cbi : cb_info) (e : event) :
  In e (handler_events msg i cbi) ->
  e = EvCall i \/ e = EvReturn i \/ exists o, e = EvInHandler o.
Proof.
  unfold handler_events. destruct (cb_func cbi) as [f|]; [|intros []].
  intros H. simpl in H. destruct H as [H|H]; [left; congruence|].
  apply in_app_iff in H as [H|H].
  - apply in_map_iff in H as (o & Ho & _). right. right. exists o. congruence.
  - destruct H as [H|[]]. right. left. congruence.
Qed.

(** The trace of the loop: at most a reference taken, the unlock, then
    events among which the lock does not occur. *)
Lemma dispatch_from_shape (msg : nl_msg) (cmd v s : Z) (cbs : list cb_info) :
  forall i0,
    fst (dispatch_from msg cmd v s i0 cbs) = NL_OK
    /\ exists pre post,
         snd (dispatch_from msg cmd v s i0 cbs) = pre ++ EvUnlock :: post
         /\ (forall e, In e pre -> exists c, e = EvAddRef c)
         /\ (forall e, In e post -> e <> EvLock /\ e <> EvUnlock).
Proof.
  induction cbs as [|cb rest IH]; intros i0.
  - simpl. split; [reflexivity|]. exists [], [].
    split; [reflexivity|]. split; intros e0 [].
  - rewrite dispatch_from_cons. destruct (cb_selected cmd v s cb); [|apply IH].
    split; [reflexivity|]. unfold deliver. simpl snd.
    exists (match cb_arg cb with Some c => [EvAddRef c] | None => [] end),
           (handler_events msg i0 cb
            ++ match cb_arg cb with Some c => [EvReleaseRef c] | None => [] end).
    split; [reflexivity|]. split.
    + intros e He. destruct (cb_arg cb) as [c|]; [|destruct He].
      destruct He as [<-|[]]. exists c. reflexivity.
    + intros e He. apply in_app_iff in He as [He|He].
      * apply handler_events_kind in He as [->|[->|[o ->]]]; split; discriminate.
      * destruct (cb_arg cb) as [c|]; [|destruct He].
        destruct He as [<-|[]]. split; discriminate.
Qed.

(** X1.  [internal_valid_message_handler] never calls a handler while it
    holds the registry mutex, and never returns holding it.  A message that
    does not parse is skipped ([NL_SKIP]) without the mutex being taken; for
    any other message the handler returns [NL_OK] and its trace is: lock,
    at most the [addRef] of the bound command, unlock, and then events
    among which there is no lock or unlock (the call of the handler and the
    [releaseRef]). *)
Theorem dispatch_lock_discipline (info : hal_info) (msg : nl_msg) :
  let r := internal_valid_message_handler info msg in
  (parse_result msg < 0
   /\ fst r = NL_SKIP
   /\ forall e, In e (snd r) -> exists s, e = EvLog s)
  \/ (0 <= parse_result msg
      /\ fst r = NL_OK
      /\ exists pre post,
           snd r = EvLock :: pre ++ EvUnlock :: post
           /\ (forall e, In e pre -> exists c, e = EvAddRef c)
           /\ (forall e, In e post -> e <> EvLock /\ e <> EvUnlock)).
Proof.
  unfold internal_valid_message_handler.
  destruct (Z.ltb_spec (parse_result msg) 0) as [Hlt|Hge].
  - left. split; [exact Hlt|]. split; [reflexivity|].
    intros e [<-|[]]. eexists. reflexivity.
  - right. split; [exact Hge|].
    destruct (dispatch_from_shape msg (genl_cmd msg) (event_vendor_id msg)
                (event_subcmd msg) (event_cb info) 0)
      as (Hret & pre & post & Htr & Hpre & Hpost).
    split; [exact Hret|]. exists pre, post. simpl. rewrite Htr.
    split; [reflexivity|]. split; [exact Hpre | exact Hpost].
Qed.

Lemma dispatch_from_none (msg : nl_msg) (cmd v s : Z) (cbs : list cb_info) :
  forall i0,
    (forall cbi, In cbi cbs -> cb_selected cmd v s cbi = false) ->
    dispatch_from msg cmd v s i0 cbs = (NL_OK, [EvUnlock]).
Proof.
  induction cbs as [|cb rest IH]; intros i0 Hnone; [reflexivity|].
  rewrite dispatch_from_cons.
  rewrite (Hnone cb) by (left; reflexivity).
  apply IH. intros cbi Hin. apply Hnone. right. exact Hin.
Qed.

(** X2.  An event that parses and whose signature matches no registration
    of the table is dropped: the handler takes and releases the mutex,
    calls nothing, touches no reference count and returns [NL_OK]. *)
Theorem unmatched_event_is_dropped (info : hal_info) (msg : nl_msg) :
  0 <= parse_result msg ->
  (forall cbi, In cbi (event_cb info) -> ~ signature_matches msg cbi) ->
  internal_valid_message_handler info msg = (NL_OK, [EvLock; EvUnlock]).
Proof.
  intros Hparse Hnone. unfold internal_valid_message_handler.
  destruct (Z.ltb_spec (parse_result msg) 0) as [Hlt|_]; [lia|].
  rewrite dispatch_from_none; [reflexivity|].
  intros cbi Hin. apply cb_selected_false. apply Hnone. exact Hin.
Qed.

(** X3.  For a message that parses and a registration [i] with a handler:
    the handler is called if and only if [i] is the first registration
    whose signature matches, and then the trace is exactly lock, [addRef]
    of the bound command if there is one, unlock, the one call of the
    handler with the message and [cb_arg], [releaseRef]. *)
Theorem handler_called_iff_first_match (info : hal_info) (msg : nl_msg)
    (i : nat) (cbi : cb_info) (f : nl_recvmsg_msg_cb_t) :
  0 <= parse_result msg ->
  event_cb info !! i = Some cbi ->
  cb_func cbi = Some f ->
  let r := internal_valid_message_handler info msg in
  (In (EvCall i) (snd r) <-> first_match info msg i cbi)
  /\ (first_match info msg i cbi ->
      r = (NL_OK,
           [EvLock]
           ++ match cb_arg cbi with Some c => [EvAddRef c] | None => [] end
           ++ [EvUnlock; EvCall i]
           ++ map EvInHandler (f msg (cb_arg cbi))
           ++ [EvReturn i]
           ++ match cb_arg cbi with Some c => [EvReleaseRef c] | None => [] end)).
Proof.
  intros Hparse Hi Hf r.
  assert (Htrace : first_match info msg i cbi ->
    r = (NL_OK,
         [EvLock]
         ++ match cb_arg cbi with Some c => [EvAddRef c] | None => [] end
         ++ [EvUnlock; EvCall i]
         ++ map EvInHandler (f msg (cb_arg cbi))
         ++ [EvReturn i]
         ++ match cb_arg cbi with Some c => [EvReleaseRef c] | None => [] end)).
  { intros Hfirst. subst r.
    rewrite (dispatch_first_match info msg i cbi Hparse Hfirst).
    unfold deliver, handler_events. rewrite Hf.
    destruct (cb_arg cbi); simpl; rewrite <- ?app_assoc; reflexivity. }
  split; [|exact Htrace]. split.
  - intros Hin. subst r. unfold internal_valid_message_handler in Hin.
    destruct (Z.ltb_spec (parse_result msg) 0) as [Hlt|_]; [lia|].
    simpl in Hin. destruct Hin as [H|Hin]; [discriminate H|].
    destruct (dispatch_from_call _ _ _ _ _ _ _ Hin)
      as (j & cbi' & Hk & Hj & Hs & Hb & _).
    simpl in Hk. subst j. rewrite Hi in Hj. injection Hj as <-.
    split; [exact Hi|]. split; [apply cb_selected_spec; exact Hs|].
    intros j cbj Hlt Hl. apply cb_selected_false. apply (Hb j); assumption.
  - intros Hfirst. rewrite (Htrace Hfirst). simpl.
    right. apply in_app_iff. right. right. left. reflexivity.
Qed.

End DispatchFurther.

(** ** The event loop: what ends it and what the teardown is *)

Section EventLoopFurther.
Context {P : Platform}.

Lemma deliver_no_teardown (msg : nl_msg) (i : nat) (cbi : cb_info) (e : event) :
  In e (deliver msg i cbi) -> is_teardown e = false.
Proof.
  unfold deliver. intros H.
  apply in_app_iff in H as [H|H].
  { destruct (cb_arg cbi); [destruct H as [<-|[]]; reflexivity | destruct H]. }
  apply in_app_iff in H as [H|H].
  { destruct H as [<-|[]]. reflexivity. }
  apply in_app_iff in H as [H|H].
  { apply handler_events_kind in H as [->|[->|[o ->]]]; reflexivity. }
  destruct (cb_arg cbi); [destruct H as [<-|[]]; reflexivity | destruct H].
Qed.

Lemma dispatch_from_no_teardown (msg : nl_msg) (cmd v s : Z) (cbs : list cb_info)
    (e : event) :
  forall i0, In e (snd (dispatch_from msg cmd v s i0 cbs)) -> is_teardown e = false.
Proof.
  induction cbs as [|cb rest IH]; intros i0 Hin.
  - destruct Hin as [<-|[]]. reflexivity.
  - rewrite dispatch_from_cons in Hin. destruct (cb_selected cmd v s cb).
    + eapply deliver_no_teardown. exact Hin.
    + eapply IH. exact Hin.
Qed.

Lemma dispatch_no_teardown (info : hal_info) (msg : nl_msg) (e : event) :
  In e (snd (internal_valid_message_handler info msg)) -> is_teardown e = false.
Proof.
  unfold internal_valid_message_handler.
  destruct (parse_result msg <? 0).
  - intros [<-|[]]. reflexivity.
  - intros [<-|Hin]; [reflexivity|].
    eapply dispatch_from_no_teardown. exact Hin.
Qed.

Lemma pollin_no_teardown (info : hal_info) (msgs : list nl_msg) (e : event) :
  In e (internal_pollin_handler info msgs) -> is_teardown e = false.
Proof.
  unfold internal_pollin_handler. intros Hin.
  apply in_concat in Hin as (tr & Htr & He).
  apply in_map_iff in Htr as (m & <- & _).
  eapply dispatch_no_teardown. exact He.
Qed.

(** No pass of the loop closes or frees anything. *)
Lemma event_loop_body_no_teardown (info : hal_info) (p : poll_result) (e : event) :
  In e (snd (event_loop_body info p)) -> is_teardown e = false.
Proof.
  unfold event_loop_body.
  destruct (poll_ret p <? 0); [intros [<-|[]]; reflexivity|].
  destruct (truthy (Z.land (revents0 p) POLLERR));
    [intros [<-|[<-|[]]]; reflexivity|].
  destruct (truthy (Z.land (revents0 p) POLLHUP)); [intros [<-|[]]; reflexivity|].
  destruct (truthy (Z.land (revents0 p) POLLIN)); [apply pollin_no_teardown|].
  destruct (truthy (Z.land (revents1 p) POLLIN));
    [intros [<-|[<-|[]]]; reflexivity|].
  intros [<-|[]]; reflexivity.
Qed.

(** The pass is left by [break] exactly in a hang-up pass. *)
Lemma event_loop_body_break (info : hal_info) (p : poll_result) :
  fst (event_loop_body info p) = Break <-> hangup_pass p.
Proof.
  unfold event_loop_body, hangup_pass.
  destruct (Z.ltb_spec (poll_ret p) 0) as [Hlt|Hge].
  { simpl. split; [discriminate | intros [H _]; lia]. }
  destruct (truthy (Z.land (revents0 p) POLLERR)) eqn:Herr.
  { simpl. split; [discriminate|]. intros (_ & H0 & _).
    apply truthy_true in Herr. contradiction. }
  apply truthy_false in Herr.
  destruct (truthy (Z.land (revents0 p) POLLHUP)) eqn:Hhup.
  { simpl. apply truthy_true in Hhup. split; [intros _|reflexivity].
    repeat split; assumption. }
  apply truthy_false in Hhup.
  assert (Hno : ~ (0 <= poll_ret p /\ Z.land (revents0 p) POLLERR = 0
                   /\ Z.land (revents0 p) POLLHUP <> 0)).
  { intros (_ & _ & H). contradiction. }
  destruct (truthy (Z.land (revents0 p) POLLIN)); simpl;
    [split; [discriminate | intros H; destruct (Hno H)]|].
  destruct (truthy (Z.land (revents1 p) POLLIN)); simpl;
    split; first [discriminate | intros H; destruct (Hno H)].
Qed.

Lemma cleaned_up_handler_set_clean_up (b : bool) (info : hal_info) :
  internal_cleaned_up_handler (set_clean_up b info) = internal_cleaned_up_handler info.
Proof. reflexivity. Qed.

Lemma seen_cleanup_sockets (p : poll_result) (info : hal_info) :
  cmd_sock (seen_cleanup p info) = cmd_sock info
  /\ event_sock (seen_cleanup p info) = event_sock info
  /\ cleanup_socks (seen_cleanup p info) = cleanup_socks info.
Proof. unfold seen_cleanup. destruct (cleanup_called p); repeat split. Qed.

(** The loop goes on to a further pass only when no cleanup was seen. *)
Lemma seen_cleanup_clear (p : poll_result) (info : hal_info) :
  clean_up (seen_cleanup p info) = false -> seen_cleanup p info = info.
Proof.
  unfold seen_cleanup. destruct (cleanup_called p); [discriminate | reflexivity].
Qed.

(** X4.  However a run of the loop ends, the teardown is entered at most
    once and last.  While the thread is in [poll] the session exists and
    nothing has been closed or freed.  When the loop was left, the trace is a
    trace without any close or free followed by the steps of
    [internal_cleaned_up_handler] on the session as the last pass [p] left
    it, which has the sockets of the session at the start.  With a handler
    stored the run ends with the call of the handler and the free of the
    session; with none the sockets are closed, the call goes through the
    NULL pointer, and neither a handler is called nor the session freed. *)
Theorem event_loop_teardown_once (info : hal_info) (script : list poll_result) :
  let r := event_loop_run info script in
  (fst (fst r) = InPoll
   /\ (exists info', snd (fst r) = Some info')
   /\ forall e, In e (snd r) -> is_teardown e = false)
  \/ (snd (fst r) = None
      /\ exists tr0 p,
           In p script
           /\ snd r = tr0 ++ snd (internal_cleaned_up_handler (seen_cleanup p info))
           /\ fst (fst r) = fst (internal_cleaned_up_handler (seen_cleanup p info))
           /\ (forall e, In e tr0 -> is_teardown e = false)
           /\ cmd_sock (seen_cleanup p info) = cmd_sock info
           /\ event_sock (seen_cleanup p info) = event_sock info
           /\ cleanup_socks (seen_cleanup p info) = cleanup_socks info
           /\ (cleaned_up_handler (seen_cleanup p info) <> None ->
               fst (fst r) = CleanedUp
               /\ exists steps, snd r = steps ++ [EvCleanedUp; EvFree]
                                /\ ~ In EvCleanedUp steps /\ ~ In EvFree steps)
           /\ (cleaned_up_handler (seen_cleanup p info) = None ->
               fst (fst r) = Faulted
               /\ ~ In EvCleanedUp (snd r) /\ ~ In EvFree (snd r))).
Proof.
  assert (Hleft : forall p tr0,
    (forall e, In e tr0 -> is_teardown e = false) ->
    let td := internal_cleaned_up_handler (seen_cleanup p info) in
    (cleaned_up_handler (seen_cleanup p info) <> None ->
     fst td = CleanedUp
     /\ exists steps, tr0 ++ snd td = steps ++ [EvCleanedUp; EvFree]
                      /\ ~ In EvCleanedUp steps /\ ~ In EvFree steps)
    /\ (cleaned_up_handler (seen_cleanup p info) = None ->
        fst td = Faulted
        /\ ~ In EvCleanedUp (tr0 ++ snd td) /\ ~ In EvFree (tr0 ++ snd td))).
  { intros p tr0 Hno td. subst td.
    destruct (internal_cleaned_up_handler_exit (seen_cleanup p info)) as [Hset Hnull].
    assert (Hpure : forall l,
              (forall e, In e l -> exists x, e = EvClose x \/ e = EvSocketFree x) ->
              ~ In EvCleanedUp (tr0 ++ l) /\ ~ In EvFree (tr0 ++ l)).
    { intros l Hl. split; intros Hin; apply in_app_iff in Hin as [Hin|Hin];
        first [ apply Hno in Hin; discriminate Hin
              | destruct (Hl _ Hin) as (x & [Hx|Hx]); discriminate Hx ]. }
    split.
    - intros Hh. destruct (Hset Hh) as (Hexit & sockets & Htd & Hsock).
      split; [exact Hexit|]. exists (tr0 ++ sockets).
      rewrite Htd, app_assoc. split; [reflexivity | exact (Hpure sockets Hsock)].
    - intros Hh. destruct (Hnull Hh) as (Hexit & Hsock).
      split; [exact Hexit | exact (Hpure _ Hsock)]. }
  induction script as [|p rest IH].
  - left. simpl. split; [reflexivity|]. split; [eexists; reflexivity|]. intros e [].
  - intros r. subst r. rewrite event_loop_run_cons. cbv zeta.
    assert (Htr : forall e, In e (snd (event_loop_body info p)) ->
                            is_teardown e = false).
    { intros e He. apply (event_loop_body_no_teardown info p). exact He. }
    destruct (seen_cleanup_sockets p info) as (Hs1 & Hs2 & Hs3).
    assert (Hend : forall x,
      x = (fst (internal_cleaned_up_handler (seen_cleanup p info)),
           @None hal_info,
           snd (event_loop_body info p)
           ++ snd (internal_cleaned_up_handler (seen_cleanup p info))) ->
      snd (fst x) = None
      /\ exists tr0 q,
           In q (p :: rest)
           /\ snd x = tr0 ++ snd (internal_cleaned_up_handler (seen_cleanup q info))
           /\ fst (fst x) = fst (internal_cleaned_up_handler (seen_cleanup q info))
           /\ (forall e, In e tr0 -> is_teardown e = false)
           /\ cmd_sock (seen_cleanup q info) = cmd_sock info
           /\ event_sock (seen_cleanup q info) = event_sock info
           /\ cleanup_socks (seen_cleanup q info) = cleanup_socks info
           /\ (cleaned_up_handler (seen_cleanup q info) <> None ->
               fst (fst x) = CleanedUp
               /\ exists steps, snd x = steps ++ [EvCleanedUp; EvFree]
                                /\ ~ In EvCleanedUp steps /\ ~ In EvFree steps)
           /\ (cleaned_up_handler (seen_cleanup q info) = None ->
               fst (fst x) = Faulted
               /\ ~ In EvCleanedUp (snd x) /\ ~ In EvFree (snd x))).
    { intros x ->. cbn [fst snd]. split; [reflexivity|].
      exists (snd (event_loop_body info p)), p.
      split; [left; reflexivity|]. split; [reflexivity|]. split; [reflexivity|].
      split; [exact Htr|]. split; [exact Hs1|]. split; [exact Hs2|].
      split; [exact Hs3|].
      exact (Hleft p _ Htr). }
    destruct (fst (event_loop_body info p)).
    + right. apply Hend. reflexivity.
    + destruct (clean_up (seen_cleanup p info)) eqn:Hclean.
      * right. apply Hend. reflexivity.
      * rewrite (seen_cleanup_clear p info Hclean).
        cbv zeta in IH.
        destruct (event_loop_run info rest) as [[e1 i1] tr1]. cbn [fst snd] in *.
        destruct IH as [(He & Hi & Hno)
                       |(Hi & tr0 & q & Hq & Heq & He & Hno & Hq1 & Hq2 & Hq3 & Hset & Hnull)].
        -- left. split; [exact He|]. split; [exact Hi|].
           intros e Hin. apply in_app_iff in Hin as [Hin|Hin]; auto.
        -- right. split; [exact Hi|].
           assert (Hno' : forall e, In e (snd (event_loop_body info p) ++ tr0) ->
                                    is_teardown e = false).
           { intros e Hin. apply in_app_iff in Hin as [Hin|Hin]; auto. }
           exists (snd (event_loop_body info p) ++ tr0), q.
           split; [right; exact Hq|].
           split; [rewrite Heq, app_assoc; reflexivity|].
           split; [exact He|]. split; [exact Hno'|].
           split; [exact Hq1|]. split; [exact Hq2|]. split; [exact Hq3|].
           rewrite Heq, app_assoc, He.
           exact (Hleft q _ Hno').
Qed.

(** X5.  Only a hang-up pass or a cleanup ends the loop.  On a session
    whose [clean_up] is clear, a script without hang-up pass in which no
    cleanup is called is consumed to its end, whatever else [poll] and the
    sockets report and whatever messages arrive (messages that do not parse
    or match nothing included): the thread is back in [poll], the session is
    as it was, and the trace is that of the passes in order. *)
Theorem event_loop_keeps_running (info : hal_info) (script : list poll_result) :
  clean_up info = false ->
  (forall p, In p script -> cleanup_called p = false /\ ~ hangup_pass p) ->
  event_loop_run info script
  = (InPoll, Some info, concat (map (fun p => snd (event_loop_body info p)) script)).
Proof.
  intros Hclean. induction script as [|p rest IH]; intros Hall; [reflexivity|].
  destruct (Hall p (or_introl eq_refl)) as [Hcalled Hnohup].
  rewrite event_loop_run_cons. cbv zeta.
  unfold seen_cleanup. rewrite Hcalled, Hclean.
  destruct (fst (event_loop_body info p)) eqn:Hctl.
  - exfalso. apply Hnohup. apply (event_loop_body_break info p). exact Hctl.
  - rewrite IH by (intros q Hq; apply Hall; right; exact Hq).
    reflexivity.
Qed.

(** X6.  A cleanup ends the loop with the current pass.  When [clean_up]
    is set on the session, or is set during the pass, the run ends with the
    teardown right after this pass, whatever [poll] returned in it; the
    pass itself is carried out first (pending messages of the pass are
    dispatched) and no further poll result is consumed.  The teardown is
    that of the session with the handler the cleanup stored; with a handler
    stored it ends with the call of the handler and the free of the
    session. *)
Theorem event_loop_ends_on_cleanup (info : hal_info) (p : poll_result)
    (rest : list poll_result) :
  clean_up info = true \/ cleanup_called p = true ->
  let teardown := internal_cleaned_up_handler (seen_cleanup p info) in
  event_loop_run info (p :: rest)
  = (fst teardown, None, snd (event_loop_body info p) ++ snd teardown)
  /\ (cleaned_up_handler (seen_cleanup p info) <> None ->
      exists sockets,
        event_loop_run info (p :: rest)
        = (CleanedUp, None,
           snd (event_loop_body info p) ++ sockets ++ [EvCleanedUp; EvFree])
        /\ forall e, In e sockets -> exists x, e = EvClose x \/ e = EvSocketFree x).
Proof.
  intros Hcase teardown.
  assert (Hflag : clean_up (seen_cleanup p info) = true).
  { unfold seen_cleanup. destruct Hcase as [H|H]; [|rewrite H; reflexivity].
    destruct (cleanup_called p); [reflexivity | exact H]. }
  assert (Hrun : event_loop_run info (p :: rest)
                 = (fst teardown, None, snd (event_loop_body info p) ++ snd teardown)).
  { rewrite event_loop_run_cons. cbv zeta. rewrite Hflag.
    destruct (fst (event_loop_body info p)); reflexivity. }
  split; [exact Hrun|].
  intros Hh.
  destruct (proj1 (internal_cleaned_up_handler_exit (seen_cleanup p info)) Hh)
    as (Hexit & sockets & Htd & Hsock).
  exists sockets. split; [|exact Hsock].
  rewrite Hrun. subst teardown. rewrite Hexit, Htd. reflexivity.
Qed.

End EventLoopFurther.

(** ** Initialisation: sockets, multicast groups, interfaces *)

Lemma strncmp_eq_terminated (a : string) :
  forall b, strncmp_eq a b (S (String.length a)) = true <-> a = b.
Proof.
  induction a as [|x a IH]; intros b.
  - destruct b; simpl; split; congruence.
  - destruct b as [|y b]; [simpl; split; congruence|].
    change (strncmp_eq (String x a) (String y b) (S (String.length (String x a))))
      with (if Ascii.eqb x y then strncmp_eq a b (S (String.length a)) else false).
    destruct (Ascii.eqb_spec x y) as [->|Hne].
    + rewrite IH. split; congruence.
    + split; congruence.
Qed.

Lemma strncmp_eq_prefix (p : string) :
  forall name, strncmp_eq name p (String.length p) = String.prefix p name.
Proof.
  induction p as [|y p IH]; intros name.
  - destruct name; reflexivity.
  - destruct name as [|x name]; [reflexivity|].
    simpl. destruct (Ascii.eqb_spec x y) as [->|Hne].
    + destruct (ascii_dec y y) as [_|Hn]; [apply IH | congruence].
    + destruct (ascii_dec y x) as [He|_]; [congruence | reflexivity].
Qed.

Lemma is_wifi_interface_prefix (name : string) :
  is_wifi_interface name
  = String.prefix "wlan" name || String.prefix "p2p" name
    || String.prefix "wifi" name || String.prefix "swlan" name.
Proof.
  unfold is_wifi_interface.
  change (strncmp_eq name "wlan" 4)
    with (strncmp_eq name "wlan" (String.length "wlan")).
  change (strncmp_eq name "p2p" 3)
    with (strncmp_eq name "p2p" (String.length "p2p")).
  change (strncmp_eq name "wifi" 4)
    with (strncmp_eq name "wifi" (String.length "wifi")).
  change (strncmp_eq name "swlan" 5)
    with (strncmp_eq name "swlan" (String.length "swlan")).
  rewrite !strncmp_eq_prefix.
  destruct (String.prefix "wlan" name), (String.prefix "p2p" name),
    (String.prefix "wifi" name), (String.prefix "swlan" name); reflexivity.
Qed.

Lemma scan_well_formed (group : string) (grps : list mcast_grp) (mId : Z) :
  (forall g, In g grps -> group_well_formed g) ->
  GetMulticastIdCommand_scan group grps mId
  = match List.find (group_named group) grps with
    | Some g => match grp_id g with Some id => s32 (u32 id) | None => mId end
    | None => mId
    end.
Proof.
  induction grps as [|g rest IH]; intros Hwf; [reflexivity|].
  destruct (Hwf g (or_introl eq_refl)) as [[nm Hnm] [id Hid]].
  simpl. unfold group_named at 1. rewrite Hnm, Hid.
  destruct (String.eqb_spec nm group) as [->|Hne].
  - rewrite (proj2 (strncmp_eq_terminated group group) eq_refl).
    rewrite ?Hid. reflexivity.
  - destruct (strncmp_eq nm group (S (String.length nm))) eqn:Hcmp.
    + apply strncmp_eq_terminated in Hcmp. contradiction.
    + apply IH. intros g' Hin. apply Hwf. right. exact Hin.
Qed.

(** X7.  [wifi_get_multicast_id] looks a group up by its exact name.  When
    the exchange failed its negative result is returned; when it succeeded
    but no reply with a group list was handled, or (for a list of
    well-formed entries) no entry has the name, the result is -1; otherwise
    it is the id of the first entry with the name. *)
Theorem wifi_get_multicast_id_lookup (env : init_env) (name group : string) :
  let res := fst (env_getfamily env name) in
  let reply := snd (env_getfamily env name) in
  (res < 0 -> wifi_get_multicast_id env name group = res)
  /\ (0 <= res -> reply = None \/ reply = Some None ->
      wifi_get_multicast_id env name group = -1)
  /\ (forall grps,
        0 <= res -> reply = Some (Some grps) ->
        (forall g, In g grps -> group_well_formed g) ->
        wifi_get_multicast_id env name group
        = match List.find (group_named group) grps with
          | Some g => match grp_id g with Some id => s32 (u32 id) | None => -1 end
          | None => -1
          end).
Proof.
  unfold wifi_get_multicast_id.
  destruct (env_getfamily env name) as [res reply]. simpl.
  split; [|split].
  - intros Hres. destruct (Z.ltb_spec res 0); [reflexivity | lia].
  - intros Hres Hreply. destruct (Z.ltb_spec res 0); [lia|].
    destruct Hreply as [->| ->]; reflexivity.
  - intros grps Hres -> Hwf. destruct (Z.ltb_spec res 0); [lia|].
    simpl. apply scan_well_formed. exact Hwf.
Qed.

Section InitFurther.
Context {P : Platform}.

(** What [wifi_add_membership] does to a session with an event socket. *)
Lemma wifi_add_membership_effect (env : init_env) (info : hal_info)
    (group : string) (es : nl_sock) :
  event_sock info = Some es ->
  snd (wifi_add_membership env info group)
  = set_event_sock
      (Some {| s_local_port := s_local_port es; s_fd := s_fd es;
               s_memberships := s_memberships es ++ joined_group env group |})
      info
  \/ (joined_group env group = []
      /\ snd (wifi_add_membership env info group) = info).
Proof.
  intros Hes. unfold wifi_add_membership, joined_group.
  destruct (wifi_get_multicast_id env "nl80211" group <? 0); simpl;
    [right; split; reflexivity|].
  destruct (env_nl_socket_add_membership env
              (wifi_get_multicast_id env "nl80211" group) <? 0); simpl;
    [right; split; reflexivity|].
  left. rewrite Hes. reflexivity.
Qed.

(** The session after [wifi_add_membership]: the same but for the groups
    the event socket has joined. *)
Lemma wifi_add_membership_session (env : init_env) (info : hal_info)
    (group : string) (es : nl_sock) :
  event_sock info = Some es ->
  snd (wifi_add_membership env info group)
  = set_event_sock
      (Some {| s_local_port := s_local_port es; s_fd := s_fd es;
               s_memberships := s_memberships es ++ joined_group env group |})
      info
  \/ (s_memberships es ++ joined_group env group = s_memberships es
      /\ snd (wifi_add_membership env info group) = info).
Proof.
  intros Hes.
  destruct (wifi_add_membership_effect env info group es Hes) as [H|[Hj H]].
  - left. exact H.
  - right. rewrite Hj, app_nil_r. split; [reflexivity | exact H].
Qed.

(** The session [wifi_initialize] stores. *)
Lemma wifi_initialize_session (env : init_env) (info : hal_info) :
  snd (wifi_initialize env) = Some info ->
  fst (wifi_initialize env)
  = (if interfaces_mislisted env then Undefined else Returns WIFI_SUCCESS)
  /\ 0 <= env_genl_ctrl_resolve env "nl80211"
  /\ 0 <= env_socket env
  /\ exists cs es,
       wifi_create_nl_socket env WIFI_HAL_CMD_SOCK_PORT = Some cs
       /\ wifi_create_nl_socket env WIFI_HAL_EVENT_SOCK_PORT = Some es
       /\ cmd_sock info = Some cs
       /\ event_sock info
          = Some {| s_local_port := s_local_port es; s_fd := s_fd es;
                    s_memberships :=
                      joined_group env "scan" ++ joined_group env "mlme"
                      ++ joined_group env "regulatory" ++ joined_group env "vendor" |}
       /\ s_memberships es = []
       /\ clean_up info = false /\ in_event_loop info = false
       /\ event_cb info = [] /\ cmd info = []
       /\ nl80211_family_id info = env_genl_ctrl_resolve env "nl80211"
       /\ ioctl_sock info = env_socket env
       /\ cleanup_socks info = env_cleanup_socks env
       /\ cleaned_up_handler info = None.
Proof.
  intros Hinfo. split.
  { destruct (wifi_initialize_values env) as [[_ Hnone]|(Hr & _)];
      [congruence | exact Hr]. }
  revert Hinfo. unfold wifi_initialize.
  destruct (env_malloc_info env); cbn [negb]; [|discriminate].
  destruct (env_socketpair env =? -1); [discriminate|].
  destruct (wifi_create_nl_socket env WIFI_HAL_CMD_SOCK_PORT) as [cs|] eqn:Hcs;
    [|discriminate].
  destruct (wifi_create_nl_socket env WIFI_HAL_EVENT_SOCK_PORT) as [es|] eqn:Hes;
    [|discriminate].
  cbv zeta.
  destruct (Z.ltb_spec (env_socket env) 0) as [|Hsock]; [discriminate|].
  destruct (env_nl_socket_get_cb env); cbn [negb]; [|discriminate].
  cbn [nl80211_family_id].
  destruct (Z.ltb_spec (env_genl_ctrl_resolve env "nl80211") 0) as [|Hfam];
    [discriminate|].
  assert (Hempty : s_memberships es = []).
  { unfold wifi_create_nl_socket in Hes.
    destruct (env_nl_socket_alloc env WIFI_HAL_EVENT_SOCK_PORT); [|discriminate].
    destruct (truthy _); [discriminate|]. injection Hes as <-. reflexivity. }
  set (info0 := {| cmd_sock := Some cs; event_sock := Some es;
                   cleanup_socks := env_cleanup_socks env;
                   ioctl_sock := env_socket env; clean_up := false;
                   in_event_loop := false; event_cb := [];
                   alloc_event_cb := DEFAULT_EVENT_CB_SIZE; cmd := [];
                   alloc_cmd := DEFAULT_CMD_SIZE;
                   nl80211_family_id := env_genl_ctrl_resolve env "nl80211";
                   interfaces := []; num_interfaces := 0;
                   cleaned_up_handler := None |}).
  assert (Hstep : forall (i : hal_info) (ms : list Z) (g : string),
    cmd_sock i = Some cs ->
    event_sock i = Some {| s_local_port := s_local_port es; s_fd := s_fd es;
                           s_memberships := ms |} ->
    clean_up i = false -> in_event_loop i = false -> event_cb i = [] ->
    cmd i = [] -> nl80211_family_id i = env_genl_ctrl_resolve env "nl80211" ->
    ioctl_sock i = env_socket env -> cleanup_socks i = env_cleanup_socks env ->
    cleaned_up_handler i = None ->
    let i' := snd (wifi_add_membership env i g) in
    cmd_sock i' = Some cs
    /\ event_sock i' = Some {| s_local_port := s_local_port es; s_fd := s_fd es;
                               s_memberships := ms ++ joined_group env g |}
    /\ clean_up i' = false /\ in_event_loop i' = false /\ event_cb i' = []
    /\ cmd i' = [] /\ nl80211_family_id i' = env_genl_ctrl_resolve env "nl80211"
    /\ ioctl_sock i' = env_socket env /\ cleanup_socks i' = env_cleanup_socks env
    /\ cleaned_up_handler i' = None).
  { intros i ms g H1 H2 H3 H4 H5 H6 H7 H8 H9 H10 i'. subst i'.
    destruct (wifi_add_membership_session env i g _ H2) as [->|[Hsame ->]].
    - simpl. repeat split; assumption.
    - simpl in Hsame. rewrite Hsame. repeat split; assumption. }
  destruct (Hstep info0 [] "scan"%string) as (A1&A2&A3&A4&A5&A6&A7&A8&A9&A10);
    try reflexivity.
  { simpl. destruct es. simpl in Hempty. subst. reflexivity. }
  destruct (Hstep _ _ "mlme"%string A1 A2 A3 A4 A5 A6 A7 A8 A9 A10)
    as (B1&B2&B3&B4&B5&B6&B7&B8&B9&B10).
  destruct (Hstep _ _ "regulatory"%string B1 B2 B3 B4 B5 B6 B7 B8 B9 B10)
    as (C1&C2&C3&C4&C5&C6&C7&C8&C9&C10).
  destruct (Hstep _ _ "vendor"%string C1 C2 C3 C4 C5 C6 C7 C8 C9 C10)
    as (D1&D2&D3&D4&D5&D6&D7&D8&D9&D10).
  cbv zeta in D1, D2, D3, D4, D5, D6, D7, D8, D9, D10.
  fold info0.
  set (X := snd (wifi_add_membership env
                   (snd (wifi_add_membership env
                           (snd (wifi_add_membership env
                                   (snd (wifi_add_membership env info0 "scan"))
                                   "mlme")) "regulatory")) "vendor")) in *.
  intros Hinfo.
  assert (Hshape : info = X \/ exists l n, info = set_interfaces l n X).
  { revert Hinfo. unfold wifi_init_interfaces.
    destruct (env_opendir env 0); [destruct (env_opendir env 1)|]; cbv zeta;
      try destruct (_ <? _)%nat;
      try destruct (interface_names_logged _);
      cbn [snd]; intros [= <-];
      first [left; reflexivity | right; eexists _, _; reflexivity]. }
  split; [exact Hfam|]. split; [exact Hsock|].
  exists cs, es. split; [reflexivity|]. split; [reflexivity|].
  destruct Hshape as [->|(l & n & ->)]; cbn [set_interfaces cmd_sock event_sock
    clean_up in_event_loop event_cb cmd nl80211_family_id ioctl_sock cleanup_socks
    cleaned_up_handler];
    rewrite ?D1, ?D2, ?D3, ?D4, ?D5, ?D6, ?D7, ?D8, ?D9, ?D10, <- ?app_assoc;
    repeat split; try reflexivity; exact Hempty.
Qed.

(** X8.  Once [wifi_initialize] has stored a handle it does not report an
    error: it returns [WIFI_SUCCESS], unless the two listings of
    /sys/class/net disagree so that the interface code makes an undefined
    access (a second listing with more wifi interfaces than the first, or
    with fewer than the log loop reads).  The session stored is ready: the
    family id is resolved, the command and the event socket exist and are
    bound to the two different local ports derived from the pid, no handler
    and no command is registered, no [cleaned_up_handler] is stored,
    [clean_up] and [in_event_loop] are clear, and so the first call of
    [wifi_event_loop] on it enters the loop. *)
Theorem wifi_initialize_session_ready (env : init_env) (info : hal_info) :
  snd (wifi_initialize env) = Some info ->
  fst (wifi_initialize env)
  = (if interfaces_mislisted env then Undefined else Returns WIFI_SUCCESS)
  /\ nl80211_family_id info = env_genl_ctrl_resolve env "nl80211"
  /\ 0 <= nl80211_family_id info
  /\ (exists cs es,
        cmd_sock info = Some cs /\ event_sock info = Some es
        /\ s_local_port cs
           = wifi_socket_set_local_port (env_getpid env) WIFI_HAL_CMD_SOCK_PORT
        /\ s_local_port es
           = wifi_socket_set_local_port (env_getpid env) WIFI_HAL_EVENT_SOCK_PORT
        /\ s_local_port cs <> s_local_port es)
  /\ event_cb info = [] /\ cmd info = []
  /\ cleaned_up_handler info = None
  /\ clean_up info = false /\ in_event_loop info = false
  /\ forall script,
       wifi_event_loop info script
       = event_loop_run (set_in_event_loop true info) script.
Proof.
  intros Hinfo.
  destruct (wifi_initialize_session env info Hinfo)
    as (Hret & Hfam & _ & cs & es & Hcs & Hes & Hc & He & _ & Hclean & Hloop
        & Hcb & Hcmd & Hid & _ & _ & Hnull).
  assert (Hport : forall port s,
            wifi_create_nl_socket env port = Some s ->
            s_local_port s = wifi_socket_set_local_port (env_getpid env) port).
  { intros port s Hs. unfold wifi_create_nl_socket in Hs.
    destruct (env_nl_socket_alloc env port); [|discriminate].
    destruct (truthy _); [discriminate|]. injection Hs as <-. reflexivity. }
  split; [exact Hret|]. split; [exact Hid|]. split; [rewrite Hid; exact Hfam|].
  split.
  { eexists cs, _. split; [exact Hc|]. split; [exact He|]. simpl.
    rewrite (Hport _ _ Hcs), (Hport _ _ Hes).
    repeat split. apply ports_of_two_processes_differ. }
  split; [exact Hcb|]. split; [exact Hcmd|]. split; [exact Hnull|].
  split; [exact Hclean|]. split; [exact Hloop|].
  intros script. unfold wifi_event_loop. rewrite Hloop. reflexivity.
Qed.

(** X9.  The event socket of a session that [wifi_initialize] hands out
    has joined exactly the groups, among scan, mlme, regulatory and vendor in
    this order, whose id was resolved and whose join succeeded: every
    membership is a non-negative id that [nl_socket_add_membership]
    accepted, and there are at most four. *)
Theorem wifi_initialize_memberships (env : init_env) (info : hal_info) :
  snd (wifi_initialize env) = Some info ->
  exists es,
    event_sock info = Some es
    /\ s_memberships es
       = joined_group env "scan" ++ joined_group env "mlme"
         ++ joined_group env "regulatory" ++ joined_group env "vendor"
    /\ (length (s_memberships es) <= 4)%nat
    /\ forall m, In m (s_memberships es) ->
         0 <= m /\ 0 <= env_nl_socket_add_membership env m
         /\ exists group,
              In group ["scan"; "mlme"; "regulatory"; "vendor"]%string
              /\ wifi_get_multicast_id env "nl80211" group = m.
Proof.
  intros Hinfo.
  destruct (wifi_initialize_session env info Hinfo)
    as (_ & _ & _ & cs & es & _ & _ & _ & He & _).
  eexists. split; [exact He|]. simpl. split; [reflexivity|].
  assert (Hone : forall g m, In m (joined_group env g) ->
            joined_group env g = [m]
            /\ 0 <= m /\ 0 <= env_nl_socket_add_membership env m
            /\ wifi_get_multicast_id env "nl80211" g = m).
  { intros g m. unfold joined_group.
    destruct (Z.ltb_spec (wifi_get_multicast_id env "nl80211" g) 0) as [|Hid];
      simpl; [intros []|].
    destruct (Z.ltb_spec (env_nl_socket_add_membership env
                            (wifi_get_multicast_id env "nl80211" g)) 0) as [|Hadd];
      simpl; [intros []|].
    intros [<-|[]]. repeat split; assumption. }
  assert (Hlen : forall g, (length (joined_group env g) <= 1)%nat).
  { intros g. unfold joined_group. destruct (_ || _); simpl; lia. }
  split.
  { rewrite !length_app.
    pose proof (Hlen "scan"%string). pose proof (Hlen "mlme"%string).
    pose proof (Hlen "regulatory"%string). pose proof (Hlen "vendor"%string).
    lia. }
  intros m Hm.
  apply in_app_iff in Hm as [Hm|Hm]; [|apply in_app_iff in Hm as [Hm|Hm];
    [|apply in_app_iff in Hm as [Hm|Hm]]];
    destruct (Hone _ _ Hm) as (_ & H0 & Hadd & Hid);
    (split; [exact H0|]; split; [exact Hadd|]; eexists; split; [|exact Hid]);
    simpl; auto.
Qed.

Lemma listed_interfaces_names (d : list string) :
  listed_interfaces d = List.filter wifi_interface_nameb d.
Proof.
  unfold listed_interfaces. apply List.filter_ext. intros name.
  unfold wifi_interface_nameb. rewrite is_wifi_interface_prefix. reflexivity.
Qed.

Lemma wifi_interface_nameb_spec (name : string) :
  wifi_interface_nameb name = true <-> wifi_interface_name name.
Proof.
  unfold wifi_interface_nameb, wifi_interface_name.
  rewrite andb_true_iff, negb_true_iff, !orb_true_iff. tauto.
Qed.

(** X10.  [wifi_init_interfaces] fails with [WIFI_ERROR_UNKNOWN], leaving
    the session as it was, when /sys/class/net cannot be opened for either
    of its two passes.  Otherwise the names that count are those that are
    not hidden and begin with wlan, p2p, wifi or swlan.  When the second
    listing has more of them than the first, the call stores past the end of
    the array it allocated.  When it has at most as many, the call returns
    [WIFI_SUCCESS]; the slots written hold the interfaces of these names of
    the second listing, in listing order, each with its interface index;
    [num_interfaces] is the number of these names in the first listing, so
    every slot below [num_interfaces] is written exactly when the two
    listings have equally many; registrations, commands and sockets are
    untouched. *)
Theorem wifi_init_interfaces_result (env : init_env) (info : hal_info) :
  let r := wifi_init_interfaces env info in
  (env_opendir env 0 = None \/ env_opendir env 1 = None ->
   r = Returns (WIFI_ERROR_UNKNOWN, info))
  /\ (forall d d',
        env_opendir env 0 = Some d -> env_opendir env 1 = Some d' ->
        let counted := List.filter wifi_interface_nameb d in
        let stored := List.filter wifi_interface_nameb d' in
        ((length counted < length stored)%nat -> r = Undefined)
        /\ ((length stored <= length counted)%nat ->
            exists info',
              r = Returns (WIFI_SUCCESS, info')
              /\ interfaces info' = map (get_interface env) stored
              /\ num_interfaces info' = Z.of_nat (length counted)
              /\ (forall itf, In itf (interfaces info') <->
                    exists name, In name d' /\ wifi_interface_name name
                                 /\ itf = get_interface env name)
              /\ (Z.of_nat (length (interfaces info')) = num_interfaces info'
                  <-> length stored = length counted)
              /\ event_cb info' = event_cb info /\ cmd info' = cmd info
              /\ event_sock info' = event_sock info
              /\ cmd_sock info' = cmd_sock info
              /\ cleaned_up_handler info' = cleaned_up_handler info)).
Proof.
  intros r. subst r. unfold wifi_init_interfaces. split.
  - intros [H|H].
    + rewrite H. reflexivity.
    + destruct (env_opendir env 0); [rewrite H|]; reflexivity.
  - intros d d' Hd Hd'. rewrite Hd, Hd'. cbv zeta.
    rewrite !listed_interfaces_names.
    set (counted := List.filter wifi_interface_nameb d).
    set (stored := List.filter wifi_interface_nameb d').
    destruct (Nat.ltb_spec (length counted) (length stored)) as [Hover|Hfits].
    + split; [reflexivity | lia].
    + split; [lia|]. intros _. eexists. split; [reflexivity|].
      cbn [set_interfaces interfaces num_interfaces event_cb cmd event_sock
           cmd_sock cleaned_up_handler].
      split; [reflexivity|]. split; [reflexivity|]. split.
      * intros itf. rewrite in_map_iff. split.
        -- intros (name & <- & Hin). subst stored.
           apply filter_In in Hin as [Hin Hkeep].
           exists name. split; [exact Hin|]. split; [|reflexivity].
           apply wifi_interface_nameb_spec. exact Hkeep.
        -- intros (name & Hin & Hname & ->).
           exists name. split; [reflexivity|]. subst stored.
           apply filter_In. split; [exact Hin|].
           apply wifi_interface_nameb_spec. exact Hname.
      * rewrite length_map. split; [lia|]. repeat split; lia.
Qed.

End InitFurther.

(** ** The packet-filter commands: requests, bounds, command objects *)

Section ApfFurther.
Context {P : Platform}.

Lemma apf_capability_loop_frame (mVersion mMaxLen : ptr) (attrs : list nlattr) :
  forall w,
    let w' := fold_left (apf_capability_attr mVersion mMaxLen) attrs w in
    w_sent w' = w_sent w /\ w_refs w' = w_refs w /\ w_info w' = w_info w
    /\ w_bufs w' = w_bufs w.
Proof.
  induction attrs as [|it rest IH]; intros w; [repeat split|].
  simpl. destruct (IH (apf_capability_attr mVersion mMaxLen w it))
    as (H1 & H2 & H3 & H4).
  rewrite H1, H2, H3, H4. unfold apf_capability_attr.
  destruct (nla_type it =? APF_ATTRIBUTE_VERSION); [repeat split|].
  destruct (nla_type it =? APF_ATTRIBUTE_MAX_LEN); repeat split.
Qed.

(** [handleResponse] sends nothing and leaves the reference counts and the
    session alone. *)
Lemma apf_handleResponse_frame (c : AndroidPktFilterCommand) (reply : nl_msg)
    (w : world) :
  let w' := snd (AndroidPktFilterCommand_handleResponse c reply w) in
  w_sent w' = w_sent w /\ w_refs w' = w_refs w /\ w_info w' = w_info w.
Proof.
  unfold AndroidPktFilterCommand_handleResponse.
  destruct (negb (genl_cmd reply =? NL80211_CMD_VENDOR)); [repeat split|].
  destruct (attr_vendor_data reply) as [attrs|]; [|repeat split].
  destruct (vendor_data_len reply =? 0); [repeat split|].
  destruct (apf c) as [v m|prog len|off dst len]; simpl; [|repeat split..].
  destruct (apf_capability_loop_frame v m attrs (store m 0 (store v 0 w)))
    as (H1 & H2 & H3 & _).
  rewrite H1, H2, H3. repeat split.
Qed.

Lemma apf_replies_frame (c : AndroidPktFilterCommand) (replies : list nl_msg) :
  forall w,
    let w' := fold_left
                (fun w r => snd (AndroidPktFilterCommand_handleResponse c r w))
                replies w in
    w_sent w' = w_sent w /\ w_refs w' = w_refs w /\ w_info w' = w_info w.
Proof.
  induction replies as [|r rest IH]; intros w; [repeat split|].
  simpl. destruct (IH (snd (AndroidPktFilterCommand_handleResponse c r w)))
    as (H1 & H2 & H3).
  destruct (apf_handleResponse_frame c r w) as (F1 & F2 & F3).
  rewrite H1, H2, H3. repeat split; assumption.
Qed.

(** The request of a packet-filter command, when it can be built. *)
Lemma apf_createRequest_built (t : transport) (c : AndroidPktFilterCommand) :
  WIFI_ERROR_OUT_OF_MEMORY < 0 ->
  let built := AndroidPktFilterCommand_createRequest t c (new_request (apf_handle c)) in
  0 <= fst built ->
  snd built
  = {| rq_family := h_family_id (apf_handle c);
       rq_iface := h_iface_id (apf_handle c);
       rq_vendor_id := GOOGLE_OUI;
       rq_subcmd := apf_request_subcmd c;
       rq_attrs := apf_request_attrs c;
       rq_open := false |}.
Proof.
  intros Hoom. unfold AndroidPktFilterCommand_createRequest, apf_request_subcmd,
    apf_request_attrs.
  destruct (apf c) as [v m|prog len|off dst len];
    unfold createGetPktFilterCapabilitesRequest, createSetPktFilterRequest,
      createReadPktFilterRequest, request_create, request_put;
    cbv zeta; try (destruct (new_ok t len)); simpl;
    repeat match goal with
           | |- context [?x <? 0] => destruct (Z.ltb_spec x 0); simpl
           end;
    intros; first [lia | reflexivity].
Qed.

(** What [start] does to the world. *)
Lemma apf_start_effect (t : transport) (c : AndroidPktFilterCommand) (w : world) :
  let built := AndroidPktFilterCommand_createRequest t c (new_request (apf_handle c)) in
  let r := AndroidPktFilterCommand_start t c w in
  (fst built < 0 /\ r = (fst built, w))
  \/ (0 <= fst built
      /\ fst r = snd (exchange t (snd built))
      /\ w_sent (snd r) = w_sent w ++ [snd built]
      /\ w_refs (snd r) = w_refs w
      /\ w_info (snd r) = w_info w).
Proof.
  unfold AndroidPktFilterCommand_start.
  destruct (AndroidPktFilterCommand_createRequest t c (new_request (apf_handle c)))
    as [result request]. simpl.
  destruct (Z.ltb_spec result 0) as [Hlt|Hge]; [left; split; [exact Hlt | reflexivity]|].
  right. split; [exact Hge|]. unfold requestResponse.
  destruct (exchange t request) as [replies res]. simpl.
  destruct (apf_replies_frame c replies (send request w)) as (H1 & H2 & H3).
  rewrite H1, H2, H3. repeat split.
Qed.

(** X11.  [AndroidPktFilterCommand::start] sends at most one request, and
    only a complete one.  When the request cannot be built, the negative
    result is returned and nothing is sent or changed.  Otherwise exactly
    the built request is sent: for the interface of the command, with the
    Google OUI and the subcommand of the kind of the command, its
    vendor-data nesting closed, carrying the program length followed by the
    program for a set-program command and no attribute otherwise; [start]
    returns what the request-response returns. *)
Theorem apf_start_sends_built_request (t : transport) (c : AndroidPktFilterCommand)
    (w : world) :
  WIFI_ERROR_OUT_OF_MEMORY < 0 ->
  let built := AndroidPktFilterCommand_createRequest t c (new_request (apf_handle c)) in
  let r := AndroidPktFilterCommand_start t c w in
  (fst built < 0 /\ r = (fst built, w))
  \/ (0 <= fst built
      /\ snd built
         = {| rq_family := h_family_id (apf_handle c);
              rq_iface := h_iface_id (apf_handle c);
              rq_vendor_id := GOOGLE_OUI;
              rq_subcmd := apf_request_subcmd c;
              rq_attrs := apf_request_attrs c;
              rq_open := false |}
      /\ fst r = snd (exchange t (snd built))
      /\ w_sent (snd r) = w_sent w ++ [snd built]
      /\ w_refs (snd r) = w_refs w
      /\ w_info (snd r) = w_info w).
Proof.
  intros Hoom built r.
  destruct (apf_start_effect t c w) as [Hfail|(Hge & Hres & Hsent & Hrefs & Hinfo)].
  - left. exact Hfail.
  - right. split; [exact Hge|].
    split; [apply apf_createRequest_built; assumption|].
    repeat split; assumption.
Qed.

Lemma data_bytes_length (msg : nl_msg) (off n : nat) :
  length (data_bytes msg off n) = n.
Proof. unfold data_bytes. rewrite length_map. apply length_seq. Qed.

Lemma data_bytes_lookup (msg : nl_msg) (n : nat) :
  forall off i, (i < n)%nat ->
    data_bytes msg off n !! i = Some (data_byte msg (off + i)).
Proof.
  unfold data_bytes. induction n as [|n IH]; intros off i Hi; [lia|].
  destruct i as [|i]; simpl.
  - rewrite Nat.add_0_r. reflexivity.
  - rewrite (IH (S off) i) by lia. do 2 f_equal. lia.
Qed.

(** A byte of the vendor data read at an offset inside the payload is the
    payload byte; read past the payload it is a byte of the memory behind
    it. *)
Lemma data_byte_cases (msg : nl_msg) (i : nat) :
  ((i < length (vendor_data msg))%nat -> vendor_data msg !! i = Some (data_byte msg i))
  /\ ((length (vendor_data msg) <= i)%nat ->
      data_byte msg i = memory_after_data msg (i - length (vendor_data msg))).
Proof.
  unfold data_byte. split; intros Hi.
  - destruct (vendor_data msg !! i) as [b|] eqn:Hb; [reflexivity|].
    apply lookup_ge_None in Hb. lia.
  - rewrite (proj2 (lookup_ge_None _ _) Hi). reflexivity.
Qed.

(** X12.  The reply to a read-program command is copied into the host
    buffer without writing past [mLength] bytes, and without regard to the
    length of the payload.  With a buffer of at least [mLength] bytes:
    exactly [n] = min(len, mLength) bytes are written, to the start of the
    buffer; byte [i] written is the byte at offset [mSourceOffset + i] from
    the start of the vendor data, a payload byte when this offset lies in
    the payload and a byte of the memory behind the payload when it does
    not; the buffer keeps its length and its bytes from [n] on; the [u32]
    outputs and the other buffers are not touched. *)
Theorem apf_read_within_length (c : AndroidPktFilterCommand)
    (mSourceOffset : Z) (mHostDestination : ptr) (mLength : Z)
    (reply : nl_msg) (attrs : list nlattr) (buf : list Z) (w : world) :
  apf c = ApfReadProgram mSourceOffset mHostDestination mLength ->
  genl_cmd reply = NL80211_CMD_VENDOR ->
  attr_vendor_data reply = Some attrs ->
  vendor_data_len reply <> 0 ->
  w_bufs w !! mHostDestination = Some buf ->
  0 <= mLength <= Z.of_nat (length buf) ->
  let r := AndroidPktFilterCommand_handleResponse c reply w in
  let n := Z.to_nat (Z.min (u32 (vendor_data_len reply)) mLength) in
  let off := Z.to_nat mSourceOffset in
  let payload := vendor_data reply in
  fst r = NL_OK
  /\ (exists buf',
        w_bufs (snd r) !! mHostDestination = Some buf'
        /\ length buf' = length buf
        /\ (forall i, (i < n)%nat ->
              ((off + i < length payload)%nat ->
               buf' !! i = payload !! (off + i)%nat)
              /\ ((length payload <= off + i)%nat ->
                  buf' !! i
                  = Some (memory_after_data reply (off + i - length payload)%nat)))
        /\ skipn n buf' = skipn n buf
        /\ skipn (Z.to_nat mLength) buf' = skipn (Z.to_nat mLength) buf)
  /\ (Z.of_nat n <= mLength)
  /\ w_words (snd r) = w_words w
  /\ (forall p, p <> mHostDestination -> w_bufs (snd r) !! p = w_bufs w !! p).
Proof.
  intros Hmode Hcmd Hdata Hlen Hbuf Hbound r n off payload.
  assert (Hr : r = (NL_OK, store_buf mHostDestination
                             (data_bytes reply off n ++ skipn n buf) w)).
  { subst r n off. unfold AndroidPktFilterCommand_handleResponse.
    rewrite Hcmd, Z.eqb_refl, Hdata. cbn [negb].
    destruct (Z.eqb_spec (vendor_data_len reply) 0) as [H0|_]; [contradiction|].
    rewrite Hmode, Hbuf. reflexivity. }
  assert (Hn : (n <= Z.to_nat mLength)%nat) by (subst n; lia).
  rewrite Hr. cbn [fst snd store_buf w_bufs w_words]. split; [reflexivity|]. split.
  - eexists. split; [apply lookup_insert_eq|].
    split; [rewrite length_app, data_bytes_length, length_drop; lia|].
    split.
    { intros i Hi.
      assert (Hat : (data_bytes reply off n ++ skipn n buf) !! i
                    = Some (data_byte reply (off + i)%nat)).
      { rewrite lookup_app_l by (rewrite data_bytes_length; exact Hi).
        apply data_bytes_lookup. exact Hi. }
      destruct (data_byte_cases reply (off + i)%nat) as [Hin Hout].
      split; intros Hpos; rewrite Hat.
      - symmetry. apply Hin. exact Hpos.
      - f_equal. apply Hout. exact Hpos. }
    split.
    { rewrite drop_app_ge by (rewrite data_bytes_length; lia).
      rewrite data_bytes_length, Nat.sub_diag. reflexivity. }
    rewrite drop_app_ge by (rewrite data_bytes_length; exact Hn).
    rewrite data_bytes_length, drop_drop. f_equal. lia.
  - split; [lia|]. split; [reflexivity|].
    intros p Hp. apply lookup_insert_ne. congruence.
Qed.

Lemma release_fresh_command (cmd : ptr) (refs : gmap ptr Z) :
  refs !! cmd = None ->
  releaseRef cmd (<[cmd := 1]> refs) = refs.
Proof.
  intros Hfresh. unfold releaseRef. rewrite lookup_insert_eq. simpl.
  apply delete_insert_id. exact Hfresh.
Qed.

Lemma apf_start_refs (t : transport) (c : AndroidPktFilterCommand) (w : world) :
  w_refs (snd (AndroidPktFilterCommand_start t c w)) = w_refs w.
Proof.
  destruct (apf_start_effect t c w) as [[_ ->]|(_ & _ & _ & H & _)];
    [reflexivity | exact H].
Qed.

(** X13.  The three packet-filter entry points leave no command object
    behind: the command they create at a fresh address is destroyed before
    they return, whatever [start] returned, so the live commands and their
    reference counts are the same after the call as before.  Unlike
    [wifi_get_packet_filter_capabilities], [wifi_set_packet_filter] and
    [wifi_read_packet_filter] return the result of [start] as it is. *)
Theorem packet_filter_calls_release_command (t : transport) (cmd : ptr)
    (handle : wifi_interface_handle) (w : world) :
  w_refs w !! cmd = None ->
  (forall version max_len,
     w_refs (snd (wifi_get_packet_filter_capabilities t (Some cmd) handle
                    version max_len w)) = w_refs w)
  /\ (forall program len,
        let started :=
          AndroidPktFilterCommand_start t
            {| apf_handle := handle; apf := ApfSetProgram program len |}
            (with_refs (insert cmd 1) w) in
        let r := wifi_set_packet_filter t (Some cmd) handle program len w in
        fst r = fst started /\ w_refs (snd r) = w_refs w
        /\ w_sent (snd r) = w_sent (snd started)
        /\ w_words (snd r) = w_words (snd started)
        /\ w_bufs (snd r) = w_bufs (snd started))
  /\ (forall src_offset host_dst length,
        let started :=
          AndroidPktFilterCommand_start t
            {| apf_handle := handle;
               apf := ApfReadProgram src_offset host_dst length |}
            (with_refs (insert cmd 1) w) in
        let r := wifi_read_packet_filter t (Some cmd) handle src_offset host_dst
                   length w in
        fst r = fst started /\ w_refs (snd r) = w_refs w
        /\ w_sent (snd r) = w_sent (snd started)
        /\ w_words (snd r) = w_words (snd started)
        /\ w_bufs (snd r) = w_bufs (snd started)).
Proof.
  intros Hfresh.
  assert (Hrel : forall c,
    releaseRef cmd (w_refs (snd (AndroidPktFilterCommand_start t c
                                   (with_refs (insert cmd 1) w)))) = w_refs w).
  { intros c. rewrite apf_start_refs. simpl.
    apply release_fresh_command. exact Hfresh. }
  split; [|split].
  - intros version max_len. unfold wifi_get_packet_filter_capabilities.
    specialize (Hrel {| apf_handle := handle;
                        apf := ApfGetCapabilities version max_len |}).
    destruct (AndroidPktFilterCommand_start _ _ _) as [result w1].
    simpl in Hrel. destruct (result =? WIFI_SUCCESS); simpl; exact Hrel.
  - intros program len started r. subst started r.
    unfold wifi_set_packet_filter.
    specialize (Hrel {| apf_handle := handle; apf := ApfSetProgram program len |}).
    destruct (AndroidPktFilterCommand_start _ _ _) as [result w1].
    simpl in *. repeat split. exact Hrel.
  - intros off dst len started r. subst started r.
    unfold wifi_read_packet_filter.
    specialize (Hrel {| apf_handle := handle; apf := ApfReadProgram off dst len |}).
    destruct (AndroidPktFilterCommand_start _ _ _) as [result w1].
    simpl in *. repeat split. exact Hrel.
Qed.

End ApfFurther.

(** ** RSSI monitoring: thresholds, events, the wildcard stop *)

Lemma s8_range (z : Z) : -128 <= s8 z <= 127.
Proof.
  unfold s8. pose proof (Z.mod_pos_bound (z + 2 ^ 7) (2 ^ 8)) as H.
  change (2 ^ 7) with 128 in *. change (2 ^ 8) with 256 in *. lia.
Qed.

Lemma s8_u8 (z : Z) : -128 <= z <= 127 -> s8 (u8 z) = z.
Proof.
  intros Hz. unfold s8, u8.
  change (2 ^ 7) with 128. change (2 ^ 8) with 256.
  rewrite Z.add_mod_idemp_l by lia. rewrite Z.mod_small by lia. lia.
Qed.

Lemma s8_byte (b : Z) :
  0 <= b < 256 -> s8 b = if b <? 128 then b else b - 256.
Proof.
  intros Hb. unfold s8. change (2 ^ 7) with 128. change (2 ^ 8) with 256.
  destruct (Z.ltb_spec b 128).
  - rewrite Z.mod_small by lia. lia.
  - replace (b + 128) with (b - 128 + 1 * 256) by lia.
    rewrite Z.mod_add by lia. rewrite Z.mod_small by lia. lia.
Qed.

Lemma request_create_ok (t : transport) (rq : WifiRequest) (vendor subcmd r : Z)
    (q : WifiRequest) :
  request_create t rq vendor subcmd = (r, q) ->
  0 <= r ->
  q = {| rq_family := rq_family rq; rq_iface := rq_iface rq;
         rq_vendor_id := vendor; rq_subcmd := subcmd;
         rq_attrs := rq_attrs rq; rq_open := rq_open rq |}.
Proof.
  unfold request_create. intros Heq Hr.
  destruct (Z.ltb_spec (create_result t vendor subcmd) 0);
    injection Heq as <- <-; [lia | reflexivity].
Qed.

Lemma request_put_ok (t : transport) (rq : WifiRequest) (a : wire_attr) (r : Z)
    (q : WifiRequest) :
  request_put t rq a = (r, q) ->
  0 <= r ->
  q = {| rq_family := rq_family rq; rq_iface := rq_iface rq;
         rq_vendor_id := rq_vendor_id rq; rq_subcmd := rq_subcmd rq;
         rq_attrs := rq_attrs rq ++ [a]; rq_open := rq_open rq |}.
Proof.
  unfold request_put. intros Heq Hr.
  destruct (Z.ltb_spec (put_result t rq a) 0);
    injection Heq as <- <-; [lia | reflexivity].
Qed.

Section RssiFurther.
Context {P : Platform}.

(** X14.  [SetRSSIMonitorCommand::createRequest] either fails with the
    first negative result of the codec or builds a closed request with the
    Google OUI and the RSSI-monitor subcommand that carries, in this order,
    the maximum threshold, the minimum threshold and the start flag, each
    as one byte.  With [enable] non-zero the two thresholds are the
    two's-complement bytes of [mMax_rssi] and [mMin_rssi], from which the
    signed thresholds are recovered; with [enable] zero both bytes are 0
    whatever the thresholds are. *)
Theorem rssi_createRequest_thresholds (t : transport) (c : SetRSSIMonitorCommand)
    (enable : Z) :
  let built := SetRSSIMonitorCommand_createRequest t c
                 (new_request (rssi_handle c)) enable in
  fst built < 0
  \/ (0 <= fst built
      /\ exists max_byte min_byte,
           snd built
           = {| rq_family := h_family_id (rssi_handle c);
                rq_iface := h_iface_id (rssi_handle c);
                rq_vendor_id := GOOGLE_OUI;
                rq_subcmd := SLSI_NL80211_VENDOR_SUBCMD_SET_RSSI_MONITOR;
                rq_attrs := [WU8 RSSI_MONITOR_ATTRIBUTE_MAX_RSSI max_byte;
                             WU8 RSSI_MONITOR_ATTRIBUTE_MIN_RSSI min_byte;
                             WU8 RSSI_MONITOR_ATTRIBUTE_START (u8 enable)];
                rq_open := false |}
           /\ 0 <= max_byte < 256 /\ 0 <= min_byte < 256
           /\ (enable = 0 -> max_byte = 0 /\ min_byte = 0)
           /\ (enable <> 0 -> -128 <= mMax_rssi c <= 127 -> s8 max_byte = mMax_rssi c)
           /\ (enable <> 0 -> -128 <= mMin_rssi c <= 127 -> s8 min_byte = mMin_rssi c)).
Proof.
  unfold SetRSSIMonitorCommand_createRequest.
  destruct (request_create t (new_request (rssi_handle c)) GOOGLE_OUI
              SLSI_NL80211_VENDOR_SUBCMD_SET_RSSI_MONITOR) as [r0 q0] eqn:E0.
  destruct (Z.ltb_spec r0 0) as [|H0]; [left; assumption|].
  destruct (request_put t (attr_start q0) _) as [r1 q1] eqn:E1.
  destruct (Z.ltb_spec r1 0) as [|H1]; [left; assumption|].
  destruct (request_put t q1 _) as [r2 q2] eqn:E2.
  destruct (Z.ltb_spec r2 0) as [|H2]; [left; assumption|].
  destruct (request_put t q2 _) as [r3 q3] eqn:E3.
  destruct (Z.ltb_spec r3 0) as [|H3]; [left; assumption|].
  right. split; [assumption|].
  apply request_create_ok in E0; [|assumption].
  apply request_put_ok in E1; [|assumption].
  apply request_put_ok in E2; [|assumption].
  apply request_put_ok in E3; [|assumption].
  subst q3 q2 q1 q0. simpl.
  eexists _, _. split; [reflexivity|].
  split; [apply Z.mod_pos_bound; lia|]. split; [apply Z.mod_pos_bound; lia|].
  unfold truthy. destruct (Z.eqb_spec enable 0) as [->|Hen]; simpl.
  - split; [intros _; split; reflexivity|]. split; intros H; contradiction.
  - split; [intros H; contradiction|].
    split; intros _ Hrange; apply s8_u8; exact Hrange.
Qed.

(** X15.  [SetRSSIMonitorCommand::handleEvent] always returns [NL_SKIP],
    and calls the threshold callback at most once: exactly when the
    callback is set and the event has vendor data of a length other than 0.
    The callback gets the request id of the command, as [cur_rssi] the byte
    at the start of the vendor data read as a signed byte (between -128 and
    127; a byte of 128 or more is the byte minus 256), and as BSSID the six
    bytes after it.  The length of the payload is not checked against these
    seven bytes: a byte of the BSSID is a payload byte where the payload
    reaches that far, and a byte of the memory behind the payload where it
    does not. *)
Theorem rssi_handleEvent_callback (c : SetRSSIMonitorCommand) (has_handler : bool)
    (event : nl_msg) :
  let r := SetRSSIMonitorCommand_handleEvent c has_handler event in
  fst r = NL_SKIP
  /\ (snd r <> None <->
      has_handler = true /\ attr_vendor_data event <> None
      /\ vendor_data_len event <> 0)
  /\ forall id bssid rssi,
       snd r = Some (id, bssid, rssi) ->
       id = rssi_id c
       /\ -128 <= rssi <= 127
       /\ rssi = s8 (data_byte event 0)
       /\ length bssid = 6%nat
       /\ (forall i, (i < 6)%nat -> bssid !! i = Some (data_byte event (S i)))
       /\ forall b rest,
            vendor_data event = b :: rest -> 0 <= b < 256 ->
            rssi = (if b <? 128 then b else b - 256)
            /\ forall i, (i < 6)%nat ->
                 ((i < length rest)%nat -> bssid !! i = rest !! i)
                 /\ ((length rest <= i)%nat ->
                     bssid !! i
                     = Some (memory_after_data event (i - length rest)%nat)).
Proof.
  intros r. subst r.
  unfold SetRSSIMonitorCommand_handleEvent.
  destruct (attr_vendor_data event) as [attrs|]; simpl.
  2: { split; [reflexivity|]. split; [|discriminate].
       split; [congruence|]. intros (_ & H & _). congruence. }
  destruct (Z.eqb_spec (vendor_data_len event) 0) as [H0|H0]; simpl.
  { split; [reflexivity|]. split; [|discriminate].
    split; [congruence|]. intros (_ & _ & H). contradiction. }
  destruct has_handler; cbn [fst snd].
  2: { split; [reflexivity|]. split; [|discriminate].
       split; [congruence|]. intros (H & _). discriminate. }
  split; [reflexivity|]. split.
  { split; [intros _|discriminate]. repeat split; congruence. }
  intros id bssid rssi Hcall. injection Hcall as <- <- <-.
  assert (Hat : forall i, (i < 6)%nat ->
            data_bytes event 1 6 !! i = Some (data_byte event (S i))).
  { intros i Hi. rewrite (data_bytes_lookup event 6 1 i Hi). reflexivity. }
  split; [reflexivity|]. split; [apply s8_range|]. split; [reflexivity|].
  split; [apply data_bytes_length|]. split; [exact Hat|].
  intros b rest Hdata Hb. split.
  { unfold data_byte. rewrite Hdata. apply s8_byte. exact Hb. }
  intros i Hi. rewrite (Hat i Hi).
  destruct (data_byte_cases event (S i)) as [Hin Hout].
  rewrite Hdata in Hin, Hout. cbn [length] in Hin, Hout. split; intros Hpos.
  - symmetry. apply (Hin ltac:(lia)).
  - f_equal. rewrite (Hout ltac:(lia)). reflexivity.
Qed.

(** X16.  [wifi_stop_rssi_monitoring] with the wildcard id -1 consults no
    registered command and always returns [WIFI_SUCCESS], whatever the
    driver answers: it sends the stop request of a fresh command when that
    request can be built, removes the registration of the RSSI-report
    signature from the table of the session, and destroys the command it
    created.  With any other id it is [wifi_cancel_cmd] of that id. *)
Theorem wifi_stop_rssi_monitoring_wildcard (t : transport)
    (wifi_cancel_cmd : Z -> wifi_interface_handle -> world -> Z * world)
    (cmd : ptr) (iface : wifi_interface_handle) (w : world) :
  w_refs w !! cmd = None ->
  let c := {| rssi_id := -1; rssi_handle := iface; mMax_rssi := 0; mMin_rssi := 0 |} in
  let built := SetRSSIMonitorCommand_createRequest t c (new_request iface) 0 in
  let r := wifi_stop_rssi_monitoring t wifi_cancel_cmd cmd (-1) iface w in
  fst r = WIFI_SUCCESS
  /\ w_refs (snd r) = w_refs w
  /\ event_cb (w_info (snd r))
     = unregister_event_handler NL80211_CMD_VENDOR GOOGLE_OUI WIFI_RSSI_REPORT_EVENT
         (event_cb (w_info w))
  /\ w_sent (snd r)
     = w_sent w ++ (if fst built =? WIFI_SUCCESS then [snd built] else [])
  /\ w_words (snd r) = w_words w
  /\ forall id, id <> -1 ->
       wifi_stop_rssi_monitoring t wifi_cancel_cmd cmd id iface w
       = wifi_cancel_cmd id iface w.
Proof.
  intros Hfresh c built r. subst r. unfold wifi_stop_rssi_monitoring.
  simpl (-1 =? -1). cbv iota. fold c.
  rewrite rssi_cancel_effect. change (rssi_handle c) with iface. fold built.
  simpl fst. simpl snd.
  split; [reflexivity|]. split.
  { destruct (fst built =? WIFI_SUCCESS); simpl;
      apply release_fresh_command; exact Hfresh. }
  split; [destruct (fst built =? WIFI_SUCCESS); reflexivity|].
  split; [destruct (fst built =? WIFI_SUCCESS); simpl;
          [reflexivity | rewrite app_nil_r; reflexivity]|].
  split; [destruct (fst built =? WIFI_SUCCESS); reflexivity|].
  intros id Hid. destruct (Z.eqb_spec id (-1)); [contradiction | reflexivity].
Qed.

End RssiFurther.

(** ** Usable channels *)

Lemma u32_s32 (z : Z) : u32 (s32 z) = u32 z.
Proof.
  unfold u32, s32. rewrite Zminus_mod_idemp_l.
  f_equal. lia.
Qed.

Lemma s32_small (z : Z) : 0 <= z < 2 ^ 31 -> s32 z = z.
Proof.
  intros Hz. unfold s32. rewrite Z.mod_small; [lia|].
  change (2 ^ 32) with (2 * 2 ^ 31). lia.
Qed.

Section UsableChannelsProperties.
Context {P : Platform} {M : PlatformMore} {wifi_usable_channel : Type}.

(** The count the loop clamps a channel-count attribute to. *)
Lemma uc_count_clamped (mMaxNum v : Z) :
  0 <= mMaxNum < 2 ^ 31 ->
  let n := s32 (u32 v) in
  let n' := if u32 n >? u32 mMaxNum then s32 (u32 mMaxNum) else n in
  0 <= n' <= mMaxNum /\ u32 n' = n'.
Proof.
  intros HM n n'. subst n n'. rewrite u32_s32, u32_idem.
  assert (HMu : u32 mMaxNum = mMaxNum).
  { apply u32_small. change (2 ^ 32) with (2 * 2 ^ 31). lia. }
  rewrite HMu.
  pose proof (Z.mod_pos_bound v (2 ^ 32) ltac:(lia)) as Hv. fold (u32 v) in Hv.
  destruct (Z.gtb_spec (u32 v) mMaxNum) as [Hgt|Hle].
  - rewrite s32_small by lia. split; [lia|].
    apply u32_small. change (2 ^ 32) with (2 * 2 ^ 31). lia.
  - rewrite s32_small by lia. split; [lia|]. apply u32_idem.
Qed.

Lemma uc_attr_step_bounds (mMaxNum num0 : Z) (chans0 : list wifi_usable_channel)
    (st : uc_state) (it : uc_attr) :
  0 <= mMaxNum < 2 ^ 31 ->
  (Z.to_nat mMaxNum <= length chans0)%nat ->
  let inv := fun st : uc_state =>
    0 <= fst st <= mMaxNum
    /\ (fst (snd st) = num0 \/ 0 <= fst (snd st) <= mMaxNum)
    /\ length (snd (snd st)) = length chans0
    /\ skipn (Z.to_nat mMaxNum) (snd (snd st)) = skipn (Z.to_nat mMaxNum) chans0 in
  inv st -> inv (uc_attr_step mMaxNum st it).
Proof.
  intros HM Hbuf inv. subst inv. destruct st as [n [num chans]].
  simpl. intros (Hn & Hnum & Hlen & Htail).
  unfold uc_attr_step.
  destruct (uc_type it =? SLSI_UC_ATTRIBUTE_NUM_CHANNELS).
  - destruct (uc_count_clamped mMaxNum (uc_u32 it) HM) as [Hc Hu].
    cbv zeta in Hc, Hu. simpl. rewrite Hu.
    split; [exact Hc|]. split; [right; exact Hc|]. split; assumption.
  - destruct ((uc_type it =? SLSI_UC_ATTRIBUTE_CHANNEL_LIST) && truthy n); simpl.
    + set (src := take (Z.to_nat n) (uc_data it)).
      assert (Hsrc : (length src <= Z.to_nat mMaxNum)%nat).
      { subst src. rewrite length_take. lia. }
      split; [exact Hn|]. split; [exact Hnum|]. split.
      * rewrite length_app, length_drop. lia.
      * rewrite drop_app_ge by exact Hsrc. rewrite drop_drop.
        rewrite <- Htail. f_equal. lia.
    + split; [exact Hn|]. split; [exact Hnum|]. split; assumption.
Qed.

Lemma uc_loop_bounds (mMaxNum num0 : Z) (chans0 : list wifi_usable_channel)
    (attrs : list uc_attr) :
  0 <= mMaxNum < 2 ^ 31 ->
  (Z.to_nat mMaxNum <= length chans0)%nat ->
  forall st : uc_state,
    (0 <= fst st <= mMaxNum
     /\ (fst (snd st) = num0 \/ 0 <= fst (snd st) <= mMaxNum)
     /\ length (snd (snd st)) = length chans0
     /\ skipn (Z.to_nat mMaxNum) (snd (snd st)) = skipn (Z.to_nat mMaxNum) chans0) ->
    let st' := fold_left (uc_attr_step mMaxNum) attrs st in
    (fst (snd st') = num0 \/ 0 <= fst (snd st') <= mMaxNum)
    /\ length (snd (snd st')) = length chans0
    /\ skipn (Z.to_nat mMaxNum) (snd (snd st')) = skipn (Z.to_nat mMaxNum) chans0.
Proof.
  intros HM Hbuf. induction attrs as [|it rest IH]; intros st Hinv.
  - simpl. tauto.
  - simpl. apply IH.
    apply (uc_attr_step_bounds mMaxNum num0 chans0 st it HM Hbuf). exact Hinv.
Qed.

Lemma uc_loop_without_count (mMaxNum : Z) (attrs : list uc_attr)
    (out : Z * list wifi_usable_channel) :
  (forall it, In it attrs -> uc_type it <> SLSI_UC_ATTRIBUTE_NUM_CHANNELS) ->
  fold_left (uc_attr_step mMaxNum) attrs (0, out) = (0, out).
Proof.
  induction attrs as [|it rest IH]; intros Hno; [reflexivity|].
  destruct out as [num chans]. cbn [fold_left].
  assert (Hstep : uc_attr_step mMaxNum (0, (num, chans)) it = (0, (num, chans))).
  { unfold uc_attr_step.
    destruct (Z.eqb_spec (uc_type it) SLSI_UC_ATTRIBUTE_NUM_CHANNELS) as [He|_].
    { exfalso. apply (Hno it); [left; reflexivity | exact He]. }
    rewrite andb_false_r. reflexivity. }
  rewrite Hstep.
  apply IH. intros it' Hin. apply Hno. right. exact Hin.
Qed.

(** X17.  [GetUsableChannelsCommand::handleResponse] never reports more
    channels than the caller asked for and never writes outside the
    caller's buffer.  For [mMaxNum] below 2^31 and a buffer of at least
    [mMaxNum] channels: a reply that is no vendor reply or has no vendor data
    is skipped with both outputs unchanged; otherwise [*mNumChannels] is
    left as it was or is at most [mMaxNum] (a larger count in the reply is
    cut down to [mMaxNum]), the buffer keeps its length, and its entries
    from [mMaxNum] on are unchanged.  A channel list that no channel count
    precedes is ignored. *)
Theorem usable_channels_within_max (mMaxNum : Z) (reply : nl_msg)
    (attrs : list uc_attr) (num : Z) (chans : list wifi_usable_channel) :
  0 <= mMaxNum < 2 ^ 31 ->
  (Z.to_nat mMaxNum <= length chans)%nat ->
  let r := GetUsableChannelsCommand_handleResponse mMaxNum reply attrs (num, chans) in
  (fst r = NL_SKIP /\ snd r = (num, chans)
   /\ (genl_cmd reply <> NL80211_CMD_VENDOR \/ attr_vendor_data reply = None
       \/ vendor_data_len reply = 0))
  \/ (fst r = NL_OK
      /\ (fst (snd r) = num \/ 0 <= fst (snd r) <= mMaxNum)
      /\ length (snd (snd r)) = length chans
      /\ skipn (Z.to_nat mMaxNum) (snd (snd r)) = skipn (Z.to_nat mMaxNum) chans
      /\ ((forall it, In it attrs -> uc_type it <> SLSI_UC_ATTRIBUTE_NUM_CHANNELS) ->
          snd r = (num, chans))).
Proof.
  intros HM Hbuf r. subst r. unfold GetUsableChannelsCommand_handleResponse.
  destruct (Z.eqb_spec (genl_cmd reply) NL80211_CMD_VENDOR) as [Hcmd|Hcmd]; simpl.
  2: { left. repeat split. left. exact Hcmd. }
  destruct (attr_vendor_data reply) as [vd|].
  2: { left. repeat split. right. left. reflexivity. }
  destruct (Z.eqb_spec (vendor_data_len reply) 0) as [Hlen|Hlen].
  { left. repeat split. right. right. exact Hlen. }
  right. split; [reflexivity|].
  destruct (uc_loop_bounds mMaxNum num chans attrs HM Hbuf (0, (num, chans)))
    as (H1 & H2 & H3).
  { simpl. split; [lia|]. split; [left; reflexivity|]. split; reflexivity. }
  simpl snd. split; [exact H1|]. split; [exact H2|]. split; [exact H3|].
  intros Hno. rewrite uc_loop_without_count by exact Hno. reflexivity.
Qed.

(** X18.  [wifi_get_usable_channels] rejects a call before it touches the
    outputs or sends anything: with no interface it returns
    [WIFI_ERROR_UNINITIALIZED]; with an interface but an [iface_mode] that
    is all ones (unknown) or has the SoftAP bit clear it returns
    [WIFI_ERROR_NOT_SUPPORTED].  In every case at most one request is sent,
    and one is sent only for a mode with the SoftAP bit set; it is the
    closed request carrying band, interface mode, filter and maximum
    number, in this order. *)
Theorem wifi_get_usable_channels_checks (zero_channel : wifi_usable_channel)
    (t : transport) (replies : WifiRequest -> list (nl_msg * list uc_attr) * Z)
    (info : hal_info) (band iface_mode filter max_num : Z)
    (out : Z * list wifi_usable_channel) (sent : list WifiRequest) :
  let r := wifi_get_usable_channels zero_channel t replies info band iface_mode
             filter max_num out sent in
  (num_interfaces info <= 0 -> r = (WIFI_ERROR_UNINITIALIZED, out, sent))
  /\ (0 < num_interfaces info ->
      u32 iface_mode = 2 ^ 32 - 1 \/ Z.testbit (u32 iface_mode) 1 = false ->
      r = (WIFI_ERROR_NOT_SUPPORTED, out, sent))
  /\ (snd r = sent
      \/ exists rq,
           snd r = sent ++ [rq]
           /\ 0 < num_interfaces info
           /\ Z.testbit (u32 iface_mode) 1 = true
           /\ u32 iface_mode <> 2 ^ 32 - 1
           /\ rq_vendor_id rq = GOOGLE_OUI
           /\ rq_subcmd rq = SLSI_NL80211_VENDOR_SUBCMD_GET_USABLE_CHANNELS
           /\ rq_family rq = nl80211_family_id info
           /\ rq_open rq = false
           /\ rq_attrs rq
              = [WU32 SLSI_UC_ATTRIBUTE_BAND (u32 band);
                 WU32 SLSI_UC_ATTRIBUTE_IFACE_MODE (u32 iface_mode);
                 WU32 SLSI_UC_ATTRIBUTE_FILTER (u32 filter);
                 WU32 SLSI_UC_ATTRIBUTE_MAX_NUM (u32 max_num)]).
Proof.
  assert (Hbit : forall m, truthy (Z.land m SLSI_UC_ITERFACE_SOFTAP) = Z.testbit m 1).
  { intros m. unfold truthy, SLSI_UC_ITERFACE_SOFTAP.
    change (Z.shiftl 1 1) with (2 ^ 1).
    rewrite Z.land_comm.
    destruct (Z.testbit m 1) eqn:Hb.
    - destruct (Z.eqb_spec (Z.land (2 ^ 1) m) 0) as [H0|_]; [|reflexivity].
      assert (Ht : Z.testbit (Z.land (2 ^ 1) m) 1 = true).
      { rewrite Z.land_spec, Hb. reflexivity. }
      rewrite H0 in Ht. discriminate Ht.
    - destruct (Z.eqb_spec (Z.land (2 ^ 1) m) 0) as [_|Hn]; [reflexivity|].
      exfalso. apply Hn. apply Z.bits_inj'. intros k Hk.
      rewrite Z.land_spec, Z.bits_0.
      destruct (Z.eq_dec k 1) as [->|Hk1]; [rewrite Hb; apply andb_false_r|].
      rewrite Z.pow2_bits_false by lia. reflexivity. }
  intros r. subst r. unfold wifi_get_usable_channels.
  change (u32 SLSI_UC_ITERFACE_UNKNOWN) with (2 ^ 32 - 1).
  rewrite Hbit.
  destruct (Z.leb_spec (num_interfaces info) 0) as [Hno|Hsome].
  { split; [reflexivity|]. split; [lia|]. left. reflexivity. }
  split; [lia|].
  remember (Z.testbit (u32 iface_mode) 1) as softap eqn:Hap.
  destruct (Z.eqb_spec (u32 iface_mode) (2 ^ 32 - 1)) as [Hunk|Hknown];
    cbn [orb negb].
  { split; [reflexivity|]. left. reflexivity. }
  destruct softap; cbn [orb negb].
  2: { split; [reflexivity|]. left. reflexivity. }
  split; [intros _ [H|H]; [contradiction | discriminate]|].
  unfold GetUsableChannelsCommand_create.
  destruct (request_create t _ GOOGLE_OUI _) as [r0 q0] eqn:E0.
  destruct (r0 <? 0) eqn:H0; [cbn; rewrite ?H0; left; reflexivity|].
  apply Z.ltb_ge in H0.
  destruct (request_put t (attr_start q0) _) as [r1 q1] eqn:E1.
  destruct (r1 <? 0) eqn:H1; [cbn; rewrite ?H1; left; reflexivity|].
  apply Z.ltb_ge in H1.
  destruct (request_put t q1 _) as [r2 q2] eqn:E2.
  destruct (r2 <? 0) eqn:H2; [cbn; rewrite ?H2; left; reflexivity|].
  apply Z.ltb_ge in H2.
  destruct (request_put t q2 _) as [r3 q3] eqn:E3.
  destruct (r3 <? 0) eqn:H3; [cbn; rewrite ?H3; left; reflexivity|].
  apply Z.ltb_ge in H3.
  destruct (request_put t q3 _) as [r4 q4] eqn:E4.
  destruct (r4 <? 0) eqn:H4; [cbn; rewrite ?H4; left; reflexivity|].
  apply Z.ltb_ge in H4.
  simpl. destruct (replies (attr_end q4)) as [rs res]. simpl.
  right. eexists. split; [reflexivity|].
  apply request_create_ok in E0; [|assumption].
  apply request_put_ok in E1; [|assumption].
  apply request_put_ok in E2; [|assumption].
  apply request_put_ok in E3; [|assumption].
  apply request_put_ok in E4; [|assumption].
  subst q4 q3 q2 q1 q0. simpl. repeat split; try assumption; try lia.
Qed.

End UsableChannelsProperties.

(** ** Cleanup *)

Lemma cancels_app (a b : list cleanup_step) :
  cancels (a ++ b) = (cancels a + cancels b)%nat.
Proof. unfold cancels. rewrite List.filter_app, length_app. reflexivity. Qed.

Lemma cancels_leaked (cbs : list cb_info) :
  cancels (map (fun cbi => CuLeaked (cb_arg cbi)) cbs) = 0%nat.
Proof. induction cbs as [|cbi rest IH]; [reflexivity | exact IH]. Qed.

Lemma cleanup_discipline_leaked (cbs : list cb_info) (rest : list cleanup_step) :
  cleanup_discipline true (map (fun cbi => CuLeaked (cb_arg cbi)) cbs ++ rest)
  = cleanup_discipline true rest.
Proof. induction cbs as [|cbi cbs IH]; [reflexivity | exact IH]. Qed.

(** The loop over the commands starts and ends with the lock held; after
    it the steps continue as if no command had been there. *)
Lemma cleanup_commands_discipline (cancel : ptr -> hal_info -> hal_info) :
  forall fuel info bad info' tr rest,
    cleanup_commands cancel fuel info bad = Some (info', tr) ->
    cleanup_discipline true (tr ++ rest) = cleanup_discipline true rest.
Proof.
  induction fuel as [|fuel IH]; intros info bad info' tr rest Hrun; [discriminate|].
  simpl in Hrun.
  destruct (bad <? length (cmd info))%nat.
  2: { inversion Hrun; subst. reflexivity. }
  destruct (cmd info !! bad) as [cmdi|]; [|discriminate].
  destruct (cmd_ptr cmdi) as [c|].
  - destruct (cleanup_commands cancel fuel (cancel c info) _) as [[i1 tr1]|] eqn:Hrec;
      [|discriminate].
    inversion Hrun; subst. simpl. apply (IH _ _ _ _ rest Hrec).
  - apply (IH _ _ _ _ rest Hrun).
Qed.

(** With a [cancel()] that never adds a command and a table without NULL
    entries, the loop ends within as many turns as the table has entries
    from [bad] on, each turn with one [cancel()]. *)
Lemma cleanup_commands_terminates (cancel : ptr -> hal_info -> hal_info) :
  (forall c i, (length (cmd (cancel c i)) <= length (cmd i))%nat) ->
  (forall c i, commands_present i -> commands_present (cancel c i)) ->
  forall fuel info bad,
    commands_present info ->
    (length (cmd info) - bad < fuel)%nat ->
    exists info' tr,
      cleanup_commands cancel fuel info bad = Some (info', tr)
      /\ (cancels tr <= length (cmd info) - bad)%nat.
Proof.
  intros Hshrink Hkeep.
  induction fuel as [|fuel IH]; intros info bad Hpresent Hfuel; [lia|].
  simpl. destruct (Nat.ltb_spec bad (length (cmd info))) as [Hlt|Hge].
  2: { exists info, []. split; [reflexivity|]. unfold cancels. simpl. lia. }
  destruct (cmd info !! bad) as [cmdi|] eqn:Hentry.
  2: { apply lookup_ge_None in Hentry. lia. }
  assert (Hnn : cmd_ptr cmdi <> None).
  { unfold commands_present in Hpresent. rewrite Forall_lookup in Hpresent.
    exact (Hpresent bad cmdi Hentry). }
  destruct (cmd_ptr cmdi) as [c|]; [|contradiction].
  specialize (Hshrink c info). specialize (Hkeep c info Hpresent).
  destruct (Nat.eqb_spec (length (cmd info)) (length (cmd (cancel c info))))
    as [Hsame|Hless].
  - destruct (IH (cancel c info) (S bad) Hkeep ltac:(lia)) as (i1 & tr1 & Hrec & Hn).
    rewrite Hrec. exists i1, ([CuUnlock; CuCancel c; CuLock; CuReleaseRef c] ++ tr1).
    split; [reflexivity|]. rewrite cancels_app.
    change (cancels [CuUnlock; CuCancel c; CuLock; CuReleaseRef c]) with 1%nat. lia.
  - destruct (IH (cancel c info) bad Hkeep ltac:(lia)) as (i1 & tr1 & Hrec & Hn).
    rewrite Hrec. exists i1, ([CuUnlock; CuCancel c; CuLock; CuReleaseRef c] ++ tr1).
    split; [reflexivity|]. rewrite cancels_app.
    change (cancels [CuUnlock; CuCancel c; CuLock; CuReleaseRef c]) with 1%nat. lia.
Qed.

(** A NULL entry at the position of the loop stops all progress: the turn
    changes neither the table nor [bad_commands]. *)
Lemma cleanup_commands_stuck (cancel : ptr -> hal_info -> hal_info)
    (info : hal_info) (bad : nat) (cmdi : cmd_info) :
  cmd info !! bad = Some cmdi ->
  cmd_ptr cmdi = None ->
  forall fuel, cleanup_commands cancel fuel info bad = None.
Proof.
  intros Hentry Hnull. induction fuel as [|fuel IH]; [reflexivity|].
  simpl. rewrite Hentry, Hnull.
  destruct (bad <? length (cmd info))%nat eqn:Hlt; [exact IH|].
  apply Nat.ltb_ge in Hlt. apply lookup_lt_Some in Hentry. lia.
Qed.

(** A [cancel()] that leaves the stored handler alone leaves it alone
    through the whole loop. *)
Lemma cleanup_commands_handler (cancel : ptr -> hal_info -> hal_info) :
  (forall c i, cleaned_up_handler (cancel c i) = cleaned_up_handler i) ->
  forall fuel info bad info' tr,
    cleanup_commands cancel fuel info bad = Some (info', tr) ->
    cleaned_up_handler info' = cleaned_up_handler info.
Proof.
  intros Hkeep. induction fuel as [|fuel IH]; intros info bad info' tr Hrun;
    [discriminate|].
  simpl in Hrun.
  destruct (bad <? length (cmd info))%nat.
  2: { inversion Hrun; subst. reflexivity. }
  destruct (cmd info !! bad) as [cmdi|]; [|discriminate].
  destruct (cmd_ptr cmdi) as [c|].
  - destruct (cleanup_commands cancel fuel (cancel c info) _) as [[i1 tr1]|] eqn:Hrec;
      [|discriminate].
    inversion Hrun; subst. rewrite (IH _ _ _ _ Hrec). apply Hkeep.
  - apply (IH _ _ _ _ Hrun).
Qed.

Section CleanupProperties.
Context {P : Platform}.

(** X19.  [wifi_cleanup] returns when no [cancel()] adds a command and the
    command table has no NULL entry: it makes at most as many [cancel()]
    calls as there are commands registered at the call, sets [clean_up],
    and ends with the write of "Exit" to [cleanup_socks[0]].  When no
    [cancel()] touches the stored handler, the session holds the handler
    given to the call.  An event loop that then completes a pass on the
    session leaves its loop with that pass and enters the teardown. *)
Theorem wifi_cleanup_returns (cancel : ptr -> hal_info -> hal_info)
    (fuel : nat) (info : hal_info) (handler : option ptr) :
  (forall c i, (length (cmd (cancel c i)) <= length (cmd i))%nat) ->
  (forall c i, commands_present i -> commands_present (cancel c i)) ->
  commands_present info ->
  (length (cmd info) < fuel)%nat ->
  exists info' tr,
    wifi_cleanup cancel fuel info handler = Some (info', tr)
    /\ clean_up info' = true
    /\ (cancels tr <= length (cmd info))%nat
    /\ (exists steps,
          tr = steps ++ [CuUnlock; CuWriteExit (fst (cleanup_socks info'))])
    /\ ((forall c i, cleaned_up_handler (cancel c i) = cleaned_up_handler i) ->
        cleaned_up_handler info' = handler)
    /\ forall p rest,
         event_loop_run info' (p :: rest)
         = (fst (internal_cleaned_up_handler (seen_cleanup p info')), None,
            snd (event_loop_body info' p)
            ++ snd (internal_cleaned_up_handler (seen_cleanup p info'))).
Proof.
  intros Hshrink Hkeep Hpresent Hfuel.
  destruct (cleanup_commands_terminates cancel Hshrink Hkeep fuel
              (set_cleaned_up_handler handler info) 0 Hpresent
              ltac:(cbn [set_cleaned_up_handler cmd]; lia))
    as (i1 & tr1 & Hrun & Hn).
  cbn [set_cleaned_up_handler cmd] in Hn.
  unfold wifi_cleanup. rewrite Hrun.
  eexists. eexists. split; [reflexivity|].
  split; [reflexivity|]. split.
  { rewrite !cancels_app, cancels_leaked.
    change (cancels [CuLock]) with 0%nat.
    change (cancels [CuUnlock; CuWriteExit (cleanup_socks i1).1]) with 0%nat. lia. }
  split.
  { exists ([CuLock] ++ tr1 ++ map (fun cbi => CuLeaked (cb_arg cbi)) (event_cb i1)).
    rewrite <- !app_assoc. reflexivity. }
  split.
  { intros Hhandler. cbn [set_clean_up cleaned_up_handler].
    rewrite (cleanup_commands_handler cancel Hhandler _ _ _ _ _ Hrun). reflexivity. }
  intros p rest. rewrite event_loop_run_cons. cbv zeta.
  assert (Hflag : clean_up (seen_cleanup p (set_clean_up true i1)) = true).
  { unfold seen_cleanup. destruct (cleanup_called p); reflexivity. }
  rewrite Hflag.
  destruct (fst (event_loop_body (set_clean_up true i1) p)); reflexivity.
Qed.

End CleanupProperties.

(** X20.  [wifi_cleanup] does not return when the first entry of the
    command table is NULL: the loop tests the same entry again in every
    turn, with the lock held, and no number of turns ends it. *)
Theorem wifi_cleanup_null_entry_spins (cancel : ptr -> hal_info -> hal_info)
    (info : hal_info) (handler : option ptr) (cmdi : cmd_info) :
  cmd info !! 0%nat = Some cmdi ->
  cmd_ptr cmdi = None ->
  forall fuel, wifi_cleanup cancel fuel info handler = None.
Proof.
  intros Hentry Hnull fuel. unfold wifi_cleanup.
  rewrite (cleanup_commands_stuck cancel (set_cleaned_up_handler handler info)
             0 cmdi Hentry Hnull).
  reflexivity.
Qed.

(** X21.  Every run of [wifi_cleanup] that returns keeps the lock
    discipline of [cb_lock], whatever the commands' [cancel()] does to the
    session: the lock is taken only when free and released only when held,
    each [cancel()] and the final write run with the lock released, each
    [releaseRef()] and the leak log run with the lock held, and the lock is
    free when the call returns. *)
Theorem wifi_cleanup_lock_discipline (cancel : ptr -> hal_info -> hal_info)
    (fuel : nat) (info info' : hal_info) (handler : option ptr)
    (tr : list cleanup_step) :
  wifi_cleanup cancel fuel info handler = Some (info', tr) ->
  cleanup_discipline false tr = true
  /\ cleanup_discipline false (tr ++ [CuLock]) = true.
Proof.
  unfold wifi_cleanup. intros Hrun.
  destruct (cleanup_commands cancel fuel (set_cleaned_up_handler handler info) 0)
    as [[i1 tr1]|] eqn:Hloop; [|discriminate].
  inversion Hrun; subst. clear Hrun.
  split.
  - simpl. rewrite (cleanup_commands_discipline cancel _ _ _ _ _ _ Hloop).
    rewrite cleanup_discipline_leaked. reflexivity.
  - simpl. rewrite <- !app_assoc.
    rewrite (cleanup_commands_discipline cancel _ _ _ _ _ _ Hloop).
    rewrite cleanup_discipline_leaked. reflexivity.
Qed.

(** * The further properties on concrete inputs *)

Lemma unmatched_event_is_dropped_witness :
  @internal_valid_message_handler sample_platform
    (sample_session [sample_registration 0x001A11 12 7;
                     sample_registration 0x1234 11 8])
    sample_event
  = (@NL_OK sample_platform, [EvLock; EvUnlock]).
Proof.
  apply (@unmatched_event_is_dropped sample_platform).
  - simpl. lia.
  - intros cbi Hin [_ Hv]. destruct (Hv eq_refl) as [Hid Hsub].
    simpl in Hin. destruct Hin as [<-|[<-|[]]].
    + vm_compute in Hsub. discriminate Hsub.
    + vm_compute in Hid. discriminate Hid.
Defined.

Lemma handler_called_iff_first_match_witness :
  In (EvCall 2)
     (snd (@internal_valid_message_handler sample_platform
             (sample_session sample_table) sample_event))
  <-> @first_match sample_platform (sample_session sample_table) sample_event 2
        (sample_registration 0x001A11 11 5).
Proof.
  apply (@handler_called_iff_first_match sample_platform
           (sample_session sample_table) sample_event 2
           (sample_registration 0x001A11 11 5) sample_handler).
  - simpl. lia.
  - reflexivity.
  - reflexivity.
Defined.

Lemma event_loop_keeps_running_witness :
  @event_loop_run sample_platform (sample_session sample_table)
    [sample_poll 1; sample_poll 8]
  = (InPoll, Some (sample_session sample_table),
     concat (map (fun p => snd (@event_loop_body sample_platform
                                  (sample_session sample_table) p))
                 [sample_poll 1; sample_poll 8])).
Proof.
  apply (@event_loop_keeps_running sample_platform).
  - reflexivity.
  - intros p Hin. simpl in Hin. destruct Hin as [<-|[<-|[]]].
    + split; [reflexivity|]. intros (_ & _ & H). apply H. reflexivity.
    + split; [reflexivity|]. intros (_ & H & _). vm_compute in H. discriminate H.
Defined.

Lemma event_loop_ends_on_cleanup_witness :
  @event_loop_run sample_platform
    (set_clean_up true
       (set_cleaned_up_handler (Some 31%positive) (sample_session sample_table)))
    [sample_poll 1; sample_poll 1]
  = (CleanedUp, None,
     [EvClose 5; EvClose 6; EvSocketFree 2701136436; EvSocketFree 2705330740;
      EvCleanedUp; EvFree]).
Proof.
  rewrite (proj1 (@event_loop_ends_on_cleanup sample_platform
                    (set_clean_up true
                       (set_cleaned_up_handler (Some 31%positive)
                          (sample_session sample_table)))
                    (sample_poll 1) [sample_poll 1] (or_introl eq_refl))).
  reflexivity.
Defined.

Lemma wifi_initialize_session_ready_witness :
  exists info,
    snd (@wifi_initialize sample_platform (sample_env 25)) = Some info
    /\ fst (@wifi_initialize sample_platform (sample_env 25))
       = Returns (@WIFI_SUCCESS sample_platform)
    /\ nl80211_family_id info = 25
    /\ cleaned_up_handler info = None.
Proof.
  destruct (snd (@wifi_initialize sample_platform (sample_env 25)))
    as [info|] eqn:Hinit.
  2: { vm_compute in Hinit. discriminate Hinit. }
  exists info. split; [reflexivity|].
  destruct (@wifi_initialize_session_ready sample_platform (sample_env 25) info Hinit)
    as (Hret & Hfam & _ & _ & _ & _ & Hnull & _).
  split; [rewrite Hret; reflexivity|]. split; [exact Hfam | exact Hnull].
Defined.

Lemma wifi_initialize_memberships_witness :
  exists info es,
    snd (@wifi_initialize sample_platform (sample_env 25)) = Some info
    /\ event_sock info = Some es
    /\ s_memberships es = [3; 5; 4].
Proof.
  destruct (snd (@wifi_initialize sample_platform (sample_env 25)))
    as [info|] eqn:Hinit.
  2: { vm_compute in Hinit. discriminate Hinit. }
  destruct (@wifi_initialize_memberships sample_platform (sample_env 25) info Hinit)
    as (es & Hsock & Hjoined & _).
  exists info, es. split; [reflexivity|]. split; [exact Hsock|].
  rewrite Hjoined. vm_compute. reflexivity.
Defined.

Lemma apf_start_sends_built_request_witness :
  w_sent (snd (@AndroidPktFilterCommand_start sample_platform (sample_transport 0)
                 sample_apf_command (sample_world [])))
  = [ {| rq_family := 25; rq_iface := 3; rq_vendor_id := 0x001A11;
         rq_subcmd := 0x1031; rq_attrs := []; rq_open := false |} ].
Proof.
  destruct (@apf_start_sends_built_request sample_platform (sample_transport 0)
              sample_apf_command (sample_world []))
    as [[Hneg _] | (_ & Hbuilt & _ & Hsent & _)].
  - simpl. lia.
  - vm_compute in Hneg. discriminate Hneg.
  - rewrite Hsent, Hbuilt. reflexivity.
Defined.

Lemma apf_read_within_length_witness :
  exists buf',
    w_bufs (snd (@AndroidPktFilterCommand_handleResponse sample_platform
                   sample_read_command sample_event sample_read_world))
      !! 20%positive = Some buf'
    /\ length buf' = 6%nat
    /\ buf' !! 0%nat = Some 68 /\ buf' !! 1%nat = Some 85
    /\ buf' !! 2%nat = Some 160 /\ buf' !! 3%nat = Some 161
    /\ skipn 4 buf' = [9; 9].
Proof.
  destruct (@apf_read_within_length sample_platform sample_read_command 5 20 4
              sample_event [] [9; 9; 9; 9; 9; 9] sample_read_world)
    as (_ & (buf' & Hbuf & Hlen & Hcopy & Hrest & _) & _).
  - reflexivity.
  - reflexivity.
  - reflexivity.
  - simpl. lia.
  - apply lookup_singleton_eq.
  - simpl. lia.
  - exists buf'. split; [exact Hbuf|]. split; [exact Hlen|].
    split; [exact (proj1 (Hcopy 0%nat ltac:(apply Nat.ltb_lt; reflexivity))
                     ltac:(apply Nat.ltb_lt; reflexivity))|].
    split; [exact (proj1 (Hcopy 1%nat ltac:(apply Nat.ltb_lt; reflexivity))
                     ltac:(apply Nat.ltb_lt; reflexivity))|].
    split; [exact (proj2 (Hcopy 2%nat ltac:(apply Nat.ltb_lt; reflexivity))
                     ltac:(apply Nat.leb_le; reflexivity))|].
    split; [exact (proj2 (Hcopy 3%nat ltac:(apply Nat.ltb_lt; reflexivity))
                     ltac:(apply Nat.leb_le; reflexivity))|].
    exact Hrest.
Defined.

Lemma packet_filter_calls_release_command_witness :
  w_refs (snd (@wifi_get_packet_filter_capabilities sample_platform
                 (sample_transport 0) (Some 5%positive) sample_handle 10 11
                 (sample_world [])))
  = w_refs (sample_world []).
Proof.
  apply (@packet_filter_calls_release_command sample_platform (sample_transport 0)
           5%positive sample_handle (sample_world [])).
  apply lookup_empty.
Defined.

Lemma wifi_stop_rssi_monitoring_wildcard_witness :
  fst (@wifi_stop_rssi_monitoring sample_platform (sample_transport 0)
         (fun _ _ w => (0, w)) 5%positive (-1) sample_handle
         (sample_world [sample_registration 0x001A11 11 5]))
  = @WIFI_SUCCESS sample_platform
  /\ event_cb (w_info (snd (@wifi_stop_rssi_monitoring sample_platform
                              (sample_transport 0) (fun _ _ w => (0, w)) 5%positive
                              (-1) sample_handle
                              (sample_world [sample_registration 0x001A11 11 5]))))
     = [].
Proof.
  destruct (@wifi_stop_rssi_monitoring_wildcard sample_platform (sample_transport 0)
              (fun _ _ w => (0, w)) 5%positive sample_handle
              (sample_world [sample_registration 0x001A11 11 5]))
    as (Hret & _ & Hcb & _).
  - apply lookup_empty.
  - split; [exact Hret|]. rewrite Hcb. vm_compute. reflexivity.
Defined.

Lemma usable_channels_within_max_witness :
  length (snd (snd (@GetUsableChannelsCommand_handleResponse sample_platform Z 2
                      sample_event sample_uc_attrs (0, [0; 0; 0]))))
  = 3%nat
  /\ skipn 2 (snd (snd (@GetUsableChannelsCommand_handleResponse sample_platform Z 2
                          sample_event sample_uc_attrs (0, [0; 0; 0]))))
     = [0]
  /\ fst (snd (@GetUsableChannelsCommand_handleResponse sample_platform Z 2
                 sample_event sample_uc_attrs (0, [0; 0; 0])))
     <= 2.
Proof.
  destruct (@usable_channels_within_max sample_platform Z 2 sample_event
              sample_uc_attrs 0 [0; 0; 0])
    as [(Hskip & _) | (_ & Hnum & Hlen & Htail & _)].
  - lia.
  - simpl. lia.
  - vm_compute in Hskip. discriminate Hskip.
  - split; [exact Hlen|]. split; [exact Htail|]. lia.
Defined.

Lemma wifi_cleanup_returns_witness :
  exists info' tr,
    wifi_cleanup sample_cancel 3 sample_cleanup_session (Some 31%positive)
    = Some (info', tr)
    /\ clean_up info' = true
    /\ (cancels tr <= 2)%nat
    /\ cleaned_up_handler info' = Some 31%positive.
Proof.
  destruct (@wifi_cleanup_returns sample_platform sample_cancel 3
              sample_cleanup_session (Some 31%positive))
    as (info' & tr & Hrun & Hflag & Hcancels & _ & Hhandler & _).
  - intros c i. unfold sample_cancel. destruct (Pos.eqb c 11); [|lia].
    simpl. apply List.filter_length_le.
  - intros c i Hpresent. unfold sample_cancel. destruct (Pos.eqb c 11); [|exact Hpresent].
    unfold commands_present in *. simpl.
    apply List.Forall_forall. intros cmdi Hin. apply List.filter_In in Hin.
    exact (proj1 (List.Forall_forall _ _) Hpresent cmdi (proj1 Hin)).
  - repeat constructor; discriminate.
  - simpl. lia.
  - exists info', tr. split; [exact Hrun|]. split; [exact Hflag|].
    split; [exact Hcancels|]. apply Hhandler.
    intros c i. unfold sample_cancel. destruct (Pos.eqb c 11); reflexivity.
Defined.

Lemma wifi_cleanup_null_entry_spins_witness :
  wifi_cleanup sample_cancel 1000 sample_null_entry_session (Some 31%positive)
  = None.
Proof.
  apply (wifi_cleanup_null_entry_spins sample_cancel sample_null_entry_session
           (Some 31%positive) {| cmd_id := 1; cmd_ptr := None |}).
  - reflexivity.
  - reflexivity.
Defined.

Lemma wifi_cleanup_lock_discipline_witness :
  exists info' tr,
    wifi_cleanup sample_cancel 3 sample_cleanup_session (Some 31%positive)
    = Some (info', tr)
    /\ cleanup_discipline false tr = true.
Proof.
  destruct (wifi_cleanup sample_cancel 3 sample_cleanup_session (Some 31%positive))
    as [[info' tr]|] eqn:Hrun.
  2: { vm_compute in Hrun. discriminate Hrun. }
  exists info', tr. split; [reflexivity|].
  exact (proj1 (wifi_cleanup_lock_discipline sample_cancel 3 sample_cleanup_session
                  info' (Some 31%positive) tr Hrun)).
Defined.
